(** * Prediction confidence engine of the football betting system

    A shallow embedding of the prediction core of the repository
    ([v2/utils/confidence.py], [v2/patterns/risk_adjustment.py],
    [v2/patterns/registry.py], the best-bet selection of
    [v2/simple_romanian_predictor.py] and
    [v2/simple_premier_league_predictor.py], the historical view of
    [v2/backtest_all_leagues_14days.py] and the heuristic fallback of
    [v2/predictor/romanian_predictor.py]).

    Conventions of the embedding.
    - Python floats are read as exact rationals ([Q]); rounding of the
      binary representation is not modelled.  Results that are compared
      up to the value they denote are stated with [==].
    - A point in time ([datetime], pandas [Timestamp]) is a number of
      seconds ([Z]); [timedelta(days=n)] is [n * 86400] seconds and the
      [.days] attribute of a difference is its floor division by 86400.
    - A [DataFrame] is the list of its rows, in row order.
    - A Python [dict] is the list of its items in insertion order; each
      key occurs once ([dict_keys_unique]).
    - [np.std] is a square root; the engine only compares it with
      positive constants, so the model keeps its square (the population
      variance) and compares that with the squared constants. *)

From Stdlib Require Import ZArith QArith Qabs List String Ascii Bool Lia Lqa.
From Stdlib Require Import Permutation Sorted.
Import ListNotations.

Set Implicit Arguments.

(** ** Python built-ins on rationals and dictionaries *)

Module Py.

Definition Qltb (x y : Q) : bool := negb (Qle_bool y x).

(** [min(a, b)] returns [b] only when [b < a]; [max(a, b)] returns [b]
    only when [b > a]. *)
Definition min (a b : Q) : Q := if Qltb b a then b else a.
Definition max (a b : Q) : Q := if Qltb a b then b else a.

(** [max(0.0, min(1.0, x))], the clamp used all over the code base. *)
Definition clamp01 (x : Q) : Q := max 0 (min 1 x).

Section Dict.
Variable K V : Type.
Variable eqb : K -> K -> bool.

Definition dict := list (K * V).

Fixpoint get (d : dict) (k : K) : option V :=
  match d with
  | [] => None
  | (k', v) :: d' => if eqb k k' then Some v else get d' k
  end.

Definition contains (d : dict) (k : K) : bool :=
  match get d k with Some _ => true | None => false end.

(** [d[k] = v]: overwrite in place, or append a new item. *)
Fixpoint set (d : dict) (k : K) (v : V) : dict :=
  match d with
  | [] => [(k, v)]
  | (k', v') :: d' =>
      if eqb k k' then (k', v) :: d' else (k', v') :: set d' k v
  end.

Definition keys (d : dict) : list K := map fst d.
Definition values (d : dict) : list V := map snd d.
End Dict.

Definition dict_keys_unique {K V} (d : dict K V) : Prop := NoDup (keys d).

End Py.

(** ** Match records and the corpus *)

Definition datetime := Z.

Definition seconds_per_day : Z := 86400.

(** [timedelta(days=n)] *)
Definition timedelta (days : Z) : Z := days * seconds_per_day.

(** [delta.days] *)
Definition timedelta_days (delta : Z) : Z := delta / seconds_per_day.

(** One row of the standardised match table (the football-data column
    names the adapters produce). *)
Record MatchRow := mkRow {
  Date : datetime;
  HomeTeam : string;
  AwayTeam : string;
  FTHG : Z;
  FTAG : Z;
  HC : Z;
  AC : Z;
  HY : Z;
  AY : Z
}.

Definition DataFrame := list MatchRow.

(** ** [utils/confidence.py] *)

Module Confidence.

Open Scope Q_scope.

Inductive Trend := strong_uptrend | downtrend | stable.
Inductive Consistency := high | moderate | low.
Inductive SampleQuality := sufficient | adequate | insufficient.

(** A value of [timeframe_results]: [{'matches', 'success', 'weight'}]. *)
Record TimeframeResult := mkTF {
  matches : nat;
  success : Q;
  weight : Q
}.

Definition Timeframes := Py.dict Z Q.
Definition TimeframeResults := Py.dict Z TimeframeResult.

(** The [debug_info] dictionary.  [std_dev_sq] holds the square of the
    source's ['std_dev']. *)
Record DebugInfo := mkDebug {
  ensemble_confidence : Q;
  final_confidence : Q;
  timeframe_results : TimeframeResults;
  trend : Trend;
  trend_adjustment : Q;
  trend_7_vs_30 : Q;
  trend_30_vs_season : Q;
  trend_season_vs_all : Q;
  consistency : Consistency;
  consistency_adjustment : Q;
  std_dev_sq : Q;
  sample_quality : SampleQuality;
  sample_adjustment : Q;
  matches_7d : nat;
  matches_30d : nat;
  all_history_matches : nat;
  all_history_success : Q
}.

(** The second component of the returned tuple: either
    [{'error': 'No historical data available'}] or the full dictionary. *)
Inductive Info :=
| NoHistoricalData
| Debug (d : DebugInfo).

Definition default_timeframes : Timeframes :=
  [(7%Z, 0.30); (14%Z, 0.23); (30%Z, 0.18); (90%Z, 0.14); (365%Z, 0.10);
   (730%Z, 0.05)].

(** [data['Date'].min()]; [None] stands for [NaT] on an empty frame. *)
Definition date_min (data : DataFrame) : option datetime :=
  match data with
  | [] => None
  | r :: rs => Some (fold_left Z.min (map Date rs) (Date r))
  end.

(** Lines 54-73: the table of windows the call works with.  A missing
    or empty [custom_timeframes] is falsy and selects the defaults; the
    all-history window is only ever added to the defaults.  With [NaT]
    the comparison [all_history_days > 730] is false. *)
Definition timeframes (data : DataFrame) (match_date : datetime)
    (custom_timeframes : option Timeframes) (use_all_history : bool)
    : Timeframes :=
  match custom_timeframes with
  | Some (e :: tf) => e :: tf
  | _ =>
      if use_all_history then
        match date_min data with
        | Some earliest_date =>
            let all_history_days := timedelta_days (match_date - earliest_date) in
            if (730 <? all_history_days)%Z
            then Py.set Z.eqb default_timeframes 99999%Z 0.00
            else default_timeframes
        | None => default_timeframes
        end
      else default_timeframes
  end.

(** Lines 80-85: the rows of one window. *)
Definition tf_data (data : DataFrame) (match_date : datetime) (days : Z)
    : DataFrame :=
  if (days =? 99999)%Z then
    filter (fun r => (Date r <? match_date)%Z) data
  else
    let cutoff := (match_date - timedelta days)%Z in
    filter (fun r => (cutoff <=? Date r)%Z && (Date r <? match_date)%Z) data.

(** [tf_data.apply(pattern_fn, axis=1).mean()] on a non-empty frame. *)
Definition success_rate (pattern_fn : MatchRow -> bool) (tf : DataFrame) : Q :=
  Z.of_nat (List.length (filter pattern_fn tf)) # Pos.of_nat (List.length tf).

(** Lines 79-96: one pass over the table, filling [timeframe_results]
    and [confidences]. *)
Fixpoint timeframe_loop (data : DataFrame) (match_date : datetime)
    (pattern_fn : MatchRow -> bool) (tfs : Timeframes)
    (results : TimeframeResults) (confidences : list Q)
    : TimeframeResults * list Q :=
  match tfs with
  | [] => (results, confidences)
  | (days, w) :: rest =>
      let tf := tf_data data match_date days in
      if (0 <? List.length tf)%nat then
        let rate := success_rate pattern_fn tf in
        timeframe_loop data match_date pattern_fn rest
          (Py.set Z.eqb results days (mkTF (List.length tf) rate w))
          (if Py.Qltb 0 w then confidences ++ [rate] else confidences)
      else
        timeframe_loop data match_date pattern_fn rest results confidences
  end.

(** Lines 103-109: the two accumulators of the weighted sum. *)
Fixpoint ensemble_loop (results : TimeframeResults) (acc total_weight : Q)
    : Q * Q :=
  match results with
  | [] => (acc, total_weight)
  | (_, r) :: rest =>
      if Py.Qltb 0 (weight r)
      then ensemble_loop rest (acc + success r * weight r) (total_weight + weight r)
      else ensemble_loop rest acc total_weight
  end.

(** [timeframe_results.get(k, {}).get('success', default)] *)
Definition get_success (results : TimeframeResults) (k : Z) (default : Q) : Q :=
  match Py.get Z.eqb results k with
  | Some r => success r
  | None => default
  end.

(** [timeframe_results.get(k, {}).get('matches', 0)] *)
Definition get_matches (results : TimeframeResults) (k : Z) : nat :=
  match Py.get Z.eqb results k with
  | Some r => matches r
  | None => 0%nat
  end.

(** Lines 124-132. *)
Definition trend_of (d_7_30 d_30_season : Q) : Trend * Q :=
  if Py.Qltb 0.03 d_7_30 && Qle_bool (-0.02) d_30_season then
    (strong_uptrend, 0.02)
  else if Py.Qltb d_7_30 (-0.03) && Qle_bool d_30_season 0.02 then
    (downtrend, -0.02)
  else (stable, 0.0).

Definition Qsum (l : list Q) : Q := fold_left Qplus l 0.

Definition Qmean (l : list Q) : Q := Qsum l / inject_Z (Z.of_nat (List.length l)).

(** The square of [np.std(l)] (population variance, [ddof = 0]). *)
Definition np_var (l : list Q) : Q :=
  let m := Qmean l in Qmean (map (fun x => (x - m) * (x - m)) l).

(** Lines 135-145; [std_dev < c] is decided as [std_dev^2 < c^2]. *)
Definition consistency_of (confidences : list Q) : Consistency * Q * Q :=
  let var := if (1 <? List.length confidences)%nat then np_var confidences else 0 in
  if Py.Qltb var (0.03 * 0.03) then (high, 0.01, var)
  else if Py.Qltb var (0.05 * 0.05) then (moderate, 0.0, var)
  else (low, -0.02, var).

(** Lines 151-159. *)
Definition sample_validation (min_matches_7d min_matches_30d : Z)
    (m7 m30 : nat) : SampleQuality * Q :=
  if (min_matches_7d <=? Z.of_nat m7)%Z && (min_matches_30d <=? Z.of_nat m30)%Z then
    (sufficient, 0.0)
  else if (Z.max 2 (min_matches_7d - 1) <=? Z.of_nat m7)%Z
          && (Z.max 8 (min_matches_30d - 2) <=? Z.of_nat m30)%Z then
    (adequate, -0.02)
  else (insufficient, -0.05).

(** Lines 102-188: ensemble, adjustments and clamp, once
    [timeframe_results] is known to be non-empty. *)
Definition adjusted_confidence (results : TimeframeResults)
    (confidences : list Q) (min_matches_7d min_matches_30d : Z) : Q * Info :=
  let '(acc, total_weight) := ensemble_loop results 0 0 in
  let ensemble := if Py.Qltb 0 total_weight then acc / total_weight else 0.5 in
  let recent_7 := get_success results 7%Z ensemble in
  let recent_30 := get_success results 30%Z ensemble in
  let season := get_success results 365%Z ensemble in
  let all_history := get_success results 99999%Z ensemble in
  let t_7_30 := recent_7 - recent_30 in
  let t_30_season := recent_30 - season in
  let t_season_all :=
    if Py.contains Z.eqb results 99999%Z then season - all_history else 0 in
  let '(tr, tr_adj) := trend_of t_7_30 t_30_season in
  let '(cn, cn_adj, var) := consistency_of confidences in
  let m7 := get_matches results 7%Z in
  let m30 := get_matches results 30%Z in
  let '(sq, sample_adj) :=
    sample_validation min_matches_7d min_matches_30d m7 m30 in
  let final := Py.clamp01 (ensemble + tr_adj + cn_adj + sample_adj) in
  (final,
   Debug (mkDebug ensemble final results tr tr_adj t_7_30 t_30_season
            t_season_all cn cn_adj var sq sample_adj m7 m30
            (get_matches results 99999%Z) all_history)).

Definition calculate_multi_timeframe_confidence
    (data : DataFrame) (match_date : datetime) (pattern_fn : MatchRow -> bool)
    (min_matches_7d min_matches_30d : Z)
    (custom_timeframes : option Timeframes) (use_all_history : bool)
    : Q * Info :=
  let tfs := timeframes data match_date custom_timeframes use_all_history in
  let '(results, confidences) :=
    timeframe_loop data match_date pattern_fn tfs [] [] in
  match results with
  | [] => (0.5, NoHistoricalData)
  | _ :: _ =>
      adjusted_confidence results confidences min_matches_7d min_matches_30d
  end.

End Confidence.

(** ** [patterns/risk_adjustment.py] *)

Module RiskAdjustment.

Open Scope Q_scope.
Open Scope string_scope.

Definition PATTERN_RISK_PENALTIES : Py.dict string Q :=
  [("over_3_5_goals", 0.10); ("total_over_3_5_goals", 0.10);
   ("over_2_5_goals", 0.06); ("total_over_2_5_goals", 0.06);
   ("under_2_5_goals", 0.05); ("total_under_2_5_goals", 0.05);
   ("over_1_5_goals", 0.04); ("total_over_1_5_goals", 0.04);
   ("under_1_5_goals", 0.05); ("over_0_5_goals", 0.02);
   ("total_over_0_5_goals", 0.02); ("home_over_2_5_goals", 0.07);
   ("home_over_1_5_goals", 0.05); ("home_over_0_5_goals", 0.02);
   ("home_under_1_5_goals", 0.06); ("away_over_2_5_goals", 0.08);
   ("away_over_1_5_goals", 0.06); ("away_over_0_5_goals", 0.03);
   ("away_under_1_5_goals", 0.05); ("over_11_5_corners", 0.04);
   ("over_10_5_corners", 0.04); ("total_over_10_5_corners", 0.04);
   ("over_9_5_corners", 0.03); ("total_over_9_5_corners", 0.03);
   ("over_8_5_corners", 0.03); ("total_over_8_5_corners", 0.03);
   ("over_7_5_corners", 0.02); ("total_over_7_5_corners", 0.02);
   ("total_under_7_5_corners", 0.03); ("over_2_5_corners", 0.02);
   ("over_0_5_corners", 0.01); ("home_over_5_5_corners", 0.04);
   ("home_over_4_5_corners", 0.03); ("home_over_3_5_corners", 0.03);
   ("home_over_2_5_corners", 0.02); ("home_over_1_5_corners", 0.02);
   ("home_over_0_5_corners", 0.01); ("away_over_5_5_corners", 0.05);
   ("away_over_4_5_corners", 0.04); ("away_over_3_5_corners", 0.03);
   ("away_over_2_5_corners", 0.02); ("away_over_1_5_corners", 0.02);
   ("away_over_0_5_corners", 0.01); ("over_5_5_cards", 0.06);
   ("total_over_5_5_cards", 0.06); ("over_4_5_cards", 0.05);
   ("total_over_4_5_cards", 0.05); ("over_3_5_cards", 0.04);
   ("total_over_3_5_cards", 0.04); ("over_2_5_cards", 0.04);
   ("total_over_2_5_cards", 0.04); ("over_1_5_cards", 0.03);
   ("over_0_5_cards", 0.02); ("total_over_0_5_cards", 0.02);
   ("home_over_2_5_cards", 0.05); ("home_over_1_5_cards", 0.04);
   ("home_over_0_5_cards", 0.02); ("away_over_2_5_cards", 0.05);
   ("away_over_1_5_cards", 0.04); ("away_over_0_5_cards", 0.02);
   ("over_20_5_shots", 0.05); ("over_15_5_shots", 0.04);
   ("over_10_5_shots", 0.03); ("home_over_10_5_shots", 0.04);
   ("home_over_5_5_shots", 0.03); ("away_over_10_5_shots", 0.05);
   ("away_over_5_5_shots", 0.04); ("home_win", 0.08); ("away_win", 0.09);
   ("draw", 0.10)].

Definition DEFAULT_RISK_PENALTY : Q := 0.05.

(** [PATTERN_RISK_PENALTIES.get(pattern_name, DEFAULT_RISK_PENALTY)] *)
Definition get_pattern_risk_penalty (pattern_name : string) : Q :=
  match Py.get String.eqb PATTERN_RISK_PENALTIES pattern_name with
  | Some p => p
  | None => DEFAULT_RISK_PENALTY
  end.

Definition calculate_risk_adjusted_confidence (confidence : Q)
    (pattern_name : string) : Q :=
  let penalty := get_pattern_risk_penalty pattern_name in
  let adjusted := confidence - penalty in
  Py.clamp01 adjusted.

(** [sub in s] on strings. *)
Fixpoint contains_str (sub s : string) : bool :=
  prefix sub s ||
  match s with
  | EmptyString => false
  | String _ s' => contains_str sub s'
  end.

(** [str.lower()] on the ASCII letters. *)
Definition lower_ascii (c : ascii) : ascii :=
  let n := nat_of_ascii c in
  if ((65 <=? n) && (n <=? 90))%nat then ascii_of_nat (n + 32) else c.

Fixpoint lower (s : string) : string :=
  match s with
  | EmptyString => EmptyString
  | String c s' => String (lower_ascii c) (lower s')
  end.

(** The only place of the module that matches by substring: the
    category shown in explanations. *)
Definition get_pattern_category (pattern_name : string) : string :=
  let pattern_lower := lower pattern_name in
  if contains_str "goal" pattern_lower then "goals"
  else if contains_str "corner" pattern_lower then "corners"
  else if contains_str "card" pattern_lower
          || contains_str "yellow" pattern_lower
          || contains_str "red" pattern_lower then "cards"
  else if contains_str "shot" pattern_lower then "shots"
  else "other".

End RiskAdjustment.

(** ** [patterns/registry.py] *)

Module Registry.

Open Scope Q_scope.

Inductive PatternCategory := GOALS | CORNERS | CARDS.

Record Pattern := mkPattern {
  name : string;
  category : PatternCategory;
  label_fn : MatchRow -> bool;
  default_threshold : Q;
  min_matches : Z;
  description : string
}.

(** What a caller passes as [label_fn].  The annotation
    [Callable[[pd.Series], bool]] is not enforced by Python, so the
    argument is either a function on match rows or an object that cannot
    be called ([None], a number, a string). *)
Inductive Object :=
| function (f : MatchRow -> bool)
| not_callable.

(** [callable(obj)] *)
Definition callable (obj : Object) : bool :=
  match obj with
  | function _ => true
  | not_callable => false
  end.

(** The three [ValueError]s of [__post_init__] and the one of
    [register], told apart by their message. *)
Inductive ValueError :=
| label_fn_must_be_callable
| threshold_must_be_between_0_and_1
| min_matches_must_be_at_least_1
| is_already_registered.

Inductive result (A : Type) :=
| Ok (a : A)
| Raise (e : ValueError).
Arguments Ok {A} a.
Arguments Raise {A} e.

(** [Pattern.__post_init__], run by the generated [__init__] on the
    fields it has just stored: the three checks in the order of lines
    23-28.  The instance comes to exist only when none of them raises,
    and its [label_fn] is then a function. *)
Definition post_init (name : string) (category : PatternCategory)
    (label_fn : Object) (default_threshold : Q) (min_matches : Z)
    (description : string) : result Pattern :=
  match label_fn with
  | not_callable => Raise label_fn_must_be_callable
  | function f =>
      if negb (Qle_bool 0.0 default_threshold && Qle_bool default_threshold 1.0)
      then Raise threshold_must_be_between_0_and_1
      else if (min_matches <? 1)%Z then Raise min_matches_must_be_at_least_1
      else Ok (mkPattern name category f default_threshold min_matches
                 description)
  end.

Definition PatternRegistry := Py.dict string Pattern.

(** [PatternRegistry.__init__] *)
Definition empty : PatternRegistry := [].

(** [PatternRegistry.register] *)
Definition register (self : PatternRegistry) (pattern : Pattern)
    : result PatternRegistry :=
  if Py.contains String.eqb self (name pattern)
  then Raise is_already_registered
  else Ok (Py.set String.eqb self (name pattern) pattern).

Definition get_pattern (self : PatternRegistry) (n : string) : option Pattern :=
  Py.get String.eqb self n.

Definition list_patterns (self : PatternRegistry) : list string := Py.keys self.

Definition get_all_patterns (self : PatternRegistry) : list Pattern :=
  Py.values self.

(** The module-level [register_pattern]: build the [Pattern] (which runs
    [__post_init__]), then register it. *)
Definition register_pattern (self : PatternRegistry) (name : string)
    (category : PatternCategory) (label_fn : Object) (default_threshold : Q)
    (min_matches : Z) (description : string) : result PatternRegistry :=
  match post_init name category label_fn default_threshold min_matches
          description with
  | Raise e => Raise e
  | Ok pattern => register self pattern
  end.

Definition category_eqb (a b : PatternCategory) : bool :=
  match a, b with
  | GOALS, GOALS | CORNERS, CORNERS | CARDS, CARDS => true
  | _, _ => false
  end.

(** [get_patterns_by_category] *)
Definition get_patterns_by_category (self : PatternRegistry)
    (c : PatternCategory) : list Pattern :=
  filter (fun p => category_eqb (category p) c) (Py.values self).


End Registry.

(** ** The [BestBet] dataclass (declared alike in every league predictor) *)

Record BestBet := mkBestBet {
  pattern_name : string;
  confidence : Q;
  risk_adjusted_confidence : Q;
  threshold : Q
}.

(** ** [simple_romanian_predictor.py] *)

Module SimpleRomanianPredictor.

Import Registry.
Open Scope Q_scope.
Open Scope string_scope.

Definition ROMANIAN_TIMEFRAME_WEIGHTS : Confidence.Timeframes :=
  [(7%Z, 0.15); (14%Z, 0.15); (30%Z, 0.20); (90%Z, 0.25); (365%Z, 0.25)].

(** [self.thresholds] *)
Definition thresholds : Py.dict string Q :=
  [("home_over_0_5_goals", 0.55); ("away_over_0_5_goals", 0.55);
   ("home_over_0_5_cards", 0.55); ("away_over_0_5_cards", 0.55);
   ("home_over_1_5_goals", 0.65); ("away_over_1_5_goals", 0.65);
   ("total_over_1_5_goals", 0.58); ("total_over_2_5_goals", 0.62);
   ("total_under_2_5_goals", 0.70); ("both_teams_to_score", 0.60);
   ("home_over_2_5_corners", 0.65); ("away_over_2_5_corners", 0.65);
   ("total_over_8_5_corners", 0.60); ("home_over_1_5_cards", 0.65);
   ("away_over_1_5_cards", 0.65)].

(** [df.tail(n)] *)
Definition tail (n : nat) (df : DataFrame) : DataFrame :=
  skipn (List.length df - n) df.

(** Lines 106-124: the raw confidence of one pattern; [None] is the
    [continue] of the legacy branch. *)
Definition pattern_confidence (historical_data : DataFrame)
    (match_date : datetime) (use_ensemble : bool) (pattern : Pattern)
    : option Q :=
  if use_ensemble then
    Some (fst (Confidence.calculate_multi_timeframe_confidence
                 historical_data match_date (label_fn pattern) 2 8
                 (Some ROMANIAN_TIMEFRAME_WEIGHTS) true))
  else
    let recent_data := tail 30 historical_data in
    if (List.length recent_data <? 10)%nat then None
    else Some (Confidence.success_rate (label_fn pattern) recent_data).

(** The three loop variables [best_pattern], [best_confidence],
    [best_risk_adjusted]. *)
Record Best := mkBest {
  best_pattern : option string;
  best_confidence : Q;
  best_risk_adjusted : Q
}.

(** Lines 99-133: the body of the loop for one pattern name. *)
Definition loop_body (registry : PatternRegistry)
    (historical_data : DataFrame) (match_date : datetime)
    (use_ensemble : bool) (best : Best) (pattern_name : string) : Best :=
  match Py.get String.eqb thresholds pattern_name with
  | None => best
  | Some threshold =>
      match get_pattern registry pattern_name with
      | None => best
      | Some pattern =>
          match pattern_confidence historical_data match_date use_ensemble pattern with
          | None => best
          | Some confidence =>
              let risk_adjusted :=
                RiskAdjustment.calculate_risk_adjusted_confidence
                  confidence pattern_name in
              if Qle_bool threshold risk_adjusted
                 && Py.Qltb (best_risk_adjusted best) risk_adjusted
              then mkBest (Some pattern_name) confidence risk_adjusted
              else best
          end
      end
  end.

(** [threshold=self.thresholds[best_pattern]] *)
Definition threshold_of (pattern_name : string) : Q :=
  match Py.get String.eqb thresholds pattern_name with
  | Some t => t
  | None => 0
  end.

(** [predict_match]; the team names are not used by the body.
    [if best_pattern:] is false for [None] and for the empty string. *)
Definition predict_match (registry : PatternRegistry)
    (home_team away_team : string) (historical_data : DataFrame)
    (match_date : datetime) (use_ensemble : bool) : option BestBet :=
  let best :=
    fold_left (loop_body registry historical_data match_date use_ensemble)
      (list_patterns registry) (mkBest None 0.0 0.0) in
  match best_pattern best with
  | None => None
  | Some n =>
      if String.eqb n "" then None
      else Some (mkBestBet n (best_confidence best) (best_risk_adjusted best)
                   (threshold_of n))
  end.

End SimpleRomanianPredictor.

(** ** [simple_premier_league_predictor.py] *)

Module SimplePremierLeaguePredictor.

Open Scope Q_scope.

(** What lines 300-348 compute for one pattern of [filtered_patterns]:
    the calibrated confidence (engine result plus the league's boosts)
    and the threshold after the corner-style adjustments.  These
    league-specific computations are taken as given. *)
Record Evaluated := mkEvaluated {
  ev_pattern : string;
  ev_confidence : Q;
  ev_base_threshold : Q;
  ev_adjusted_threshold : Q
}.

(** An entry of [predictions], with the key added at lines 372-376
    ([None] until then). *)
Record Prediction := mkPrediction {
  pattern : string;
  pred_confidence : Q;
  adjusted_threshold : Q;
  pred_risk_adjusted : option Q
}.

(** What [predict] returns: [None], the empty list of the early exit,
    or a [BestBet]. *)
Inductive Returned :=
| ReturnNone
| ReturnEmptyList
| ReturnBestBet (b : BestBet).

(** Lines 350-362 *)
Definition recommend (e : Evaluated) : list Prediction :=
  if Qle_bool (ev_adjusted_threshold e) (ev_confidence e)
  then [mkPrediction (ev_pattern e) (ev_confidence e) (ev_adjusted_threshold e) None]
  else [].

(** [predictions.sort(key=lambda x: x['confidence'], reverse=True)]:
    descending and stable. *)
Fixpoint insert_desc (x : Prediction) (l : list Prediction) : list Prediction :=
  match l with
  | [] => [x]
  | y :: l' =>
      if Qle_bool (pred_confidence y) (pred_confidence x)
      then x :: y :: l'
      else y :: insert_desc x l'
  end.

Definition sort_desc (l : list Prediction) : list Prediction :=
  fold_right insert_desc [] l.

(** Lines 372-376 *)
Definition add_risk_adjusted (p : Prediction) : Prediction :=
  mkPrediction (pattern p) (pred_confidence p) (adjusted_threshold p)
    (Some (RiskAdjustment.calculate_risk_adjusted_confidence
             (pred_confidence p) (pattern p))).

Definition key (p : Prediction) : Q :=
  match pred_risk_adjusted p with Some r => r | None => 0 end.

(** [max(predictions, key=...)]: the first of the greatest. *)
Definition max_by_key (first : Prediction) (rest : list Prediction) : Prediction :=
  fold_left (fun best p => if Py.Qltb (key best) (key p) then p else best)
    rest first.

(** [predict], from the lookback guard on.  [lookback_len] and
    [team_matches_len] are [len(lookback_df)] and [len(team_matches)]. *)
Definition predict (lookback_len team_matches_len : nat)
    (evaluated : list Evaluated) : Returned :=
  if (lookback_len =? 0)%nat then ReturnNone
  else if (team_matches_len <? 3)%nat then ReturnEmptyList
  else
    let predictions := sort_desc (flat_map recommend evaluated) in
    match map add_risk_adjusted predictions with
    | [] => ReturnNone
    | p :: ps =>
        let best_bet := max_by_key p ps in
        ReturnBestBet
          (mkBestBet (pattern best_bet) (pred_confidence best_bet)
             (key best_bet) (adjusted_threshold best_bet))
    end.

(** [apply_confidence_calibration] (lines 217-240) *)
Definition apply_confidence_calibration (raw_confidence : Q) : Q :=
  if Qle_bool 0.90 raw_confidence then raw_confidence * 0.92
  else if Qle_bool 0.85 raw_confidence then raw_confidence * 0.90
  else if Qle_bool 0.75 raw_confidence then raw_confidence * 0.98
  else if Qle_bool raw_confidence 0.65 then Py.min 0.75 (raw_confidence * 1.05)
  else raw_confidence.

Definition high_corner_teams : list string :=
  ["Tottenham Hotspur"; "Newcastle United"; "Brentford"; "AFC Bournemouth";
   "Nottingham Forest"; "Liverpool"]%string.

Definition low_corner_teams : list string :=
  ["West Ham United"; "Fulham"; "Wolverhampton Wanderers"; "Leicester City";
   "Arsenal"; "Brighton & Hove Albion"]%string.

Definition high_card_teams : list string :=
  ["Chelsea"; "AFC Bournemouth"; "Ipswich Town"; "Southampton";
   "Nottingham Forest"; "Manchester United"]%string.

(** [team in teams] *)
Definition team_in (team : string) (teams : list string) : bool :=
  existsb (String.eqb team) teams.

(** Lines 134-160 of [get_team_specialty_boost]: the corner block;
    [None] when it falls through to the card block. *)
Definition corner_specialty (pattern_lower home_team away_team : string)
    : option Q :=
  if RiskAdjustment.contains_str "corner" pattern_lower then
    let both_high := team_in home_team high_corner_teams
                     && team_in away_team high_corner_teams in
    let both_low := team_in home_team low_corner_teams
                    && team_in away_team low_corner_teams in
    let one_high := team_in home_team high_corner_teams
                    || team_in away_team high_corner_teams in
    if RiskAdjustment.contains_str "over" pattern_lower then
      if both_high then Some 0.03
      else if one_high && negb both_low then Some 0.02
      else if both_low then Some (-0.03)
      else None
    else if RiskAdjustment.contains_str "under" pattern_lower then
      if both_low then Some 0.03
      else if both_high then Some (-0.03)
      else None
    else None
  else None.

(** Lines 163-177: the card block and the final [return 0.0]. *)
Definition card_specialty (pattern_lower home_team away_team : string) : Q :=
  if RiskAdjustment.contains_str "card" pattern_lower then
    let both_high_cards := team_in home_team high_card_teams
                           && team_in away_team high_card_teams in
    let one_high_cards := team_in home_team high_card_teams
                          || team_in away_team high_card_teams in
    if RiskAdjustment.contains_str "over" pattern_lower then
      if both_high_cards then 0.02
      else if one_high_cards then 0.01
      else 0.0
    else 0.0
  else 0.0.

(** [get_team_specialty_boost]; the lookback frame is not read. *)
Definition get_team_specialty_boost (pattern_name home_team away_team : string)
    (lookback_df : DataFrame) : Q :=
  let pattern_lower := RiskAdjustment.lower pattern_name in
  match corner_specialty pattern_lower home_team away_team with
  | Some boost => boost
  | None => card_specialty pattern_lower home_team away_team
  end.


End SimplePremierLeaguePredictor.

(** ** [backtest_all_leagues_14days.py] *)

Module Backtest.

(** Line 69: [predictor.data[predictor.data['Date'] < match['Date']]] *)
Definition historical (data : DataFrame) (m : MatchRow) : DataFrame :=
  filter (fun r => (Date r <? Date m)%Z) data.

(** Lines 71-72: matches with fewer than 30 earlier records are skipped. *)
Definition skipped (data : DataFrame) (m : MatchRow) : bool :=
  (List.length (historical data m) <? 30)%nat.

(** [data['Date'].max()]; [None] stands for [NaT] on an empty frame. *)
Definition date_max (data : DataFrame) : option datetime :=
  match data with
  | [] => None
  | r :: rs => Some (fold_left Z.max (map Date rs) (Date r))
  end.

(** The per-pattern counters of [by_pattern]. *)
Record Stats := mkStats {
  stat_correct : nat;
  stat_total : nat
}.

(** An entry of the [predictions] list (lines 132-139). *)
Record Logged := mkLogged {
  log_date : datetime;
  log_home : string;
  log_away : string;
  log_pattern : string;
  log_confidence : Q;
  log_correct : bool
}.

(** The variables the loop of [backtest_league] updates. *)
Record Tally := mkTally {
  predictions : list Logged;
  correct : nat;
  total : nat;
  by_pattern : Py.dict string Stats
}.

(** The dictionary [backtest_league] returns (the league name left
    out). *)
Record LeagueResult := mkLeagueResult {
  res_total : nat;
  res_correct : nat;
  res_win_rate : Q;
  res_by_pattern : Py.dict string Stats;
  res_predictions : list Logged
}.

(** Lines 141 and 143-145 on the [defaultdict]: a missing pattern
    starts from [{'correct': 0, 'total': 0}]. *)
Definition count_pattern (by_pattern : Py.dict string Stats)
    (pattern_name : string) (is_correct : bool) : Py.dict string Stats :=
  let stats :=
    match Py.get String.eqb by_pattern pattern_name with
    | Some s => s
    | None => mkStats 0 0
    end in
  Py.set String.eqb by_pattern pattern_name
    (mkStats (if is_correct then S (stat_correct stats) else stat_correct stats)
             (S (stat_total stats))).

Section BacktestLeague.

(** [sort_values('Date')] (its order among equal dates is left to
    pandas), the predictor called through the interface that takes the
    history ([predict_match(home_team, away_team, historical_data,
    match_date)], the third branch of lines 79-101), and the global
    pattern registry. *)
Variable sort_values : DataFrame -> DataFrame.
Variable predict_match :
  string -> string -> DataFrame -> datetime -> option BestBet.
Variable registry : Registry.PatternRegistry.

(** Lines 42-52: the matches of the last [days] days of the predictor's
    data.  On an empty frame the dates compare with [NaT], which is
    false. *)
Definition test_matches (predictor_data all_data : DataFrame) (days : Z)
    : DataFrame :=
  match date_max predictor_data with
  | None => []
  | Some latest_date =>
      let cutoff_date := (latest_date - timedelta days)%Z in
      sort_values
        (filter (fun r => (cutoff_date <? Date r)%Z && (Date r <=? latest_date)%Z)
           all_data)
  end.

(** Lines 67-145: the body of the loop for one match. *)
Definition test_match (predictor_data : DataFrame) (tally : Tally)
    (m : MatchRow) : Tally :=
  let history := historical predictor_data m in
  if (List.length history <? 30)%nat then tally
  else
    match date_max history with
    | None => tally
    | Some match_date =>
        match predict_match (HomeTeam m) (AwayTeam m) history match_date with
        | None => tally
        | Some prediction =>
            let risk_adj := risk_adjusted_confidence prediction in
            let thr := threshold prediction in
            let name := pattern_name prediction in
            if Qeq_bool risk_adj 0 || Qeq_bool thr 0 || String.eqb name ""
            then tally
            else if Py.Qltb risk_adj thr then tally
            else
              match Registry.get_pattern registry name with
              | None => tally
              | Some pattern =>
                  let is_correct := Registry.label_fn pattern m in
                  mkTally
                    (predictions tally
                     ++ [mkLogged (Date m) (HomeTeam m) (AwayTeam m) name
                           risk_adj is_correct])
                    (if is_correct then S (correct tally) else correct tally)
                    (S (total tally))
                    (count_pattern (by_pattern tally) name is_correct)
              end
        end
    end.

(** [backtest_league]; [None] when there is nothing to test or nothing
    was predicted. *)
Definition backtest_league (predictor_data all_data : DataFrame) (days : Z)
    : option LeagueResult :=
  let tests := test_matches predictor_data all_data days in
  if (List.length tests =? 0)%nat then None
  else
    let tally := fold_left (test_match predictor_data) tests
                   (mkTally [] 0 0 []) in
    if (total tally =? 0)%nat then None
    else
      let win_rate :=
        ((Z.of_nat (correct tally) # Pos.of_nat (total tally)) * 100)%Q in
      Some (mkLeagueResult (total tally) (correct tally) win_rate
              (by_pattern tally) (predictions tally)).

End BacktestLeague.


End Backtest.

(** ** The heuristic fallback of [predictor/romanian_predictor.py] *)

Module RomanianMatchPredictor.

Open Scope Q_scope.
Open Scope string_scope.

(** The state of numpy's global generator: the variates still to come
    and how many were drawn.  [draw] is [np.random.normal(0, 0.05)]. *)
Record RandomState := mkRandomState {
  variates : nat -> Q;
  drawn : nat
}.

Definition Rand (A : Type) : Type := RandomState -> A * RandomState.

Definition ret {A} (a : A) : Rand A := fun g => (a, g).

Definition bind {A B} (m : Rand A) (k : A -> Rand B) : Rand B :=
  fun g => let '(a, g') := m g in k a g'.

Definition draw : Rand Q :=
  fun g => (variates g (drawn g), mkRandomState (variates g) (S (drawn g))).

(** [s.split('_')[-1]] *)
Fixpoint last_segment (s acc : string) : string :=
  match s with
  | EmptyString => acc
  | String c s' =>
      if Ascii.eqb c "_"%char then last_segment s' EmptyString
      else last_segment s' (acc ++ String c EmptyString)
  end.

Definition base_confidences : Py.dict string Q :=
  [("over_0_5_goals", 0.72); ("over_1_5_goals", 0.65);
   ("over_2_5_goals", 0.45); ("over_3_5_goals", 0.20);
   ("under_2_5_goals", 0.55); ("both_teams_to_score", 0.50);
   ("over_8_5_corners", 0.58); ("over_1_5_cards", 0.61)].

(** [_estimate_confidence_heuristic]; neither the match nor the
    history is read. *)
Definition _estimate_confidence_heuristic (match_data : MatchRow)
    (pattern_name : string) (historical_data : DataFrame) : Rand Q :=
  let lookup_key :=
    if RiskAdjustment.contains_str "_" pattern_name
    then last_segment pattern_name EmptyString
    else pattern_name in
  let base_confidence :=
    match Py.get String.eqb base_confidences lookup_key with
    | Some b => b
    | None => 0.50
    end in
  bind draw (fun variance =>
  ret (Py.max 0.1 (Py.min 0.9 (base_confidence + variance)))).

(** [self.expected_odds] *)
Definition expected_odds : Py.dict string Q :=
  [("over_0_5_goals", 1.15); ("over_1_5_goals", 1.60);
   ("over_2_5_goals", 2.20); ("over_3_5_goals", 4.50);
   ("under_2_5_goals", 1.75); ("under_3_5_goals", 1.40);
   ("both_teams_to_score", 1.90); ("over_8_5_corners", 1.85);
   ("over_1_5_cards", 1.70); ("over_2_5_corners", 1.65);
   ("over_3_5_corners", 2.80)].

(** The loop of [_get_expected_odds]: the first bet type, in the order
    of the table, that occurs in the pattern name. *)
Fixpoint first_odds (table : Py.dict string Q) (pattern_name : string)
    : option Q :=
  match table with
  | [] => None
  | (bet_type, odds) :: rest =>
      if RiskAdjustment.contains_str bet_type pattern_name then Some odds
      else first_odds rest pattern_name
  end.

(** [_get_expected_odds] *)
Definition _get_expected_odds (pattern_name : string) : Q :=
  match first_odds expected_odds pattern_name with
  | Some odds => odds
  | None => 1.80
  end.

(** [_calculate_expected_value] *)
Definition _calculate_expected_value (confidence odds : Q) : Q :=
  confidence * odds - 1.0.

Inductive Recommendation := BET | MONITOR | NO_BET.

(** Lines 370-378 of [predict_match] *)
Definition recommendation_of (confidence threshold expected_value : Q)
    : Recommendation :=
  if Qle_bool threshold confidence && Py.Qltb 0.05 expected_value then BET
  else if Qle_bool threshold confidence then MONITOR
  else NO_BET.

(** Lines 361-378 of [predict_match] for a pattern without a trained
    model: the heuristic confidence, its expected value at the expected
    odds, and the recommendation against the (adaptive) threshold, which
    is taken as given. *)
Definition fallback_recommendation (match_data : MatchRow)
    (pattern_name : string) (historical_data : DataFrame) (threshold : Q)
    : Rand (Q * Recommendation) :=
  bind (_estimate_confidence_heuristic match_data pattern_name historical_data)
    (fun confidence =>
       let odds := _get_expected_odds pattern_name in
       let expected_value := _calculate_expected_value confidence odds in
       ret (confidence, recommendation_of confidence threshold expected_value)).

(** [_calculate_kelly_stake] up to [stake_fraction] (lines 216-231);
    [None] is the [ZeroDivisionError] of odds 1.0.  The stake returned
    by the source is this fraction times the bankroll, rounded to two
    decimals. *)
Definition kelly_stake_fraction (confidence odds : Q) : option Q :=
  let b := odds - 1.0 in
  let p := confidence in
  let q := 1.0 - confidence in
  if Qeq_bool b 0 then None
  else
    let kelly_fraction := (b * p - q) / b in
    let conservative_kelly := kelly_fraction * 0.25 in
    Some (Py.max 0.005 (Py.min 0.03 conservative_kelly)).


End RomanianMatchPredictor.

(** ** Sample inputs *)

Module Samples.

Open Scope Z_scope.
Open Scope string_scope.

(** A match between two clubs at midnight of day [day]. *)
Definition row_on (day home_goals away_goals : Z) : MatchRow :=
  mkRow (day * seconds_per_day) "FCSB" "CFR Cluj" home_goals away_goals 5 4 2 1.

(** Midnight of day 1000 is the as-of date of the samples. *)
Definition asof : datetime := 1000 * seconds_per_day.

Definition home_over_1_5_goals (r : MatchRow) : bool := (1 <? FTHG r)%Z.

(** Six recent matches, all within the last ten days. *)
Definition recent_corpus : DataFrame :=
  [row_on 990 3 0; row_on 995 1 1; row_on 996 3 2; row_on 997 0 0;
   row_on 998 3 1; row_on 999 2 2].

(** Two fixtures on and after the as-of date. *)
Definition later_rows : DataFrame := [row_on 1000 4 0; row_on 1003 0 1].

(** One match 400 days back. *)
Definition last_season : DataFrame := [row_on 600 2 1].

(** One match 730 days and 12 hours back. *)
Definition two_years_and_a_half_day : DataFrame :=
  [mkRow (asof - timedelta 730 - 43200) "FCSB" "CFR Cluj" 2 1 5 4 2 1].

(** One match 800 days back. *)
Definition long_ago : DataFrame := [row_on 200 2 1].

(** Scenario C of the specification: two patterns at 80%, thresholds
    0.65. *)
Definition scenario_c : list SimplePremierLeaguePredictor.Evaluated :=
  [SimplePremierLeaguePredictor.mkEvaluated "over_2_5_goals" 0.80 0.65 0.65;
   SimplePremierLeaguePredictor.mkEvaluated "home_over_2_5_corners" 0.80 0.65 0.65]%Q.

(** A goals pattern at 70% against a threshold of 65%. *)
Definition narrow_goals : list SimplePremierLeaguePredictor.Evaluated :=
  [SimplePremierLeaguePredictor.mkEvaluated "total_over_2_5_goals" 0.70 0.65 0.65]%Q.

(** A registry holding one Romanian pattern. *)
Definition one_pattern : Registry.PatternRegistry :=
  [("home_over_1_5_goals",
    Registry.mkPattern "home_over_1_5_goals" Registry.GOALS
      home_over_1_5_goals 0.65%Q 20 "Home team scores over 1.5 goals")].

(** A generator whose first variate is 0 and whose later ones are 0.05. *)
Definition generator : RomanianMatchPredictor.RandomState :=
  RomanianMatchPredictor.mkRandomState
    (fun n => match n with O => 0%Q | S _ => 0.05%Q end) 0.

(** A registry holding the two half-card patterns of the Romanian
    catalogue, the home one registered first. *)
Definition two_card_patterns : Registry.PatternRegistry :=
  [("home_over_0_5_cards",
    Registry.mkPattern "home_over_0_5_cards" Registry.CARDS
      (fun r => (0 <? HY r)%Z) 0.60%Q 15
      "Home team over 0.5 cards (at least 1)");
   ("away_over_0_5_cards",
    Registry.mkPattern "away_over_0_5_cards" Registry.CARDS
      (fun r => (0 <? AY r)%Z) 0.60%Q 15
      "Away team over 0.5 cards (at least 1)")].

(** Two patterns whose risk-adjusted confidences meet at 0.78: corners
    at 80% (penalty 0.02), evaluated first, and goals at 84% (penalty
    0.06). *)
Definition corners_at_80 : SimplePremierLeaguePredictor.Evaluated :=
  SimplePremierLeaguePredictor.mkEvaluated "home_over_2_5_corners"
    0.80%Q 0.65%Q 0.65%Q.

Definition tied : list SimplePremierLeaguePredictor.Evaluated :=
  [corners_at_80;
   SimplePremierLeaguePredictor.mkEvaluated "over_2_5_goals" 0.84 0.65 0.65]%Q.

(** Forty matches, one a day, from day 960 to day 999. *)
Definition season : DataFrame :=
  map (fun n => row_on (960 + Z.of_nat n) 2 1) (seq 0 40).

(** The Romanian predictor behind the interface of the backtest. *)
Definition romanian (home_team away_team : string)
    (historical_data : DataFrame) (match_date : datetime) : option BestBet :=
  SimpleRomanianPredictor.predict_match two_card_patterns home_team away_team
    historical_data match_date true.

End Samples.


(** ** The specification's wording, and notions used to state properties *)

Module Spec.

Import Confidence.
Open Scope Q_scope.

(** The sample adjustment as the specification words it: the adequate
    band is one below the 7-day minimum and two below the 30-day
    minimum. *)
Definition claimed_sample_adjustment (min_7d min_30d : Z) (c7 c30 : nat) : Q :=
  if (min_7d <=? Z.of_nat c7)%Z && (min_30d <=? Z.of_nat c30)%Z then 0
  else if (min_7d - 1 <=? Z.of_nat c7)%Z && (min_30d - 2 <=? Z.of_nat c30)%Z
       then -0.02
       else -0.05.

(** Whether the zero-weight all-history window joins the defaults. *)
Definition all_history_added (data : DataFrame) (d : datetime) : bool :=
  match date_min data with
  | Some earliest => (730 <? timedelta_days (d - earliest))%Z
  | None => false
  end.

(** A window of the table counts in the ensemble when its weight is
    positive and it holds at least one match. *)
Definition used (data : DataFrame) (d : datetime) (tf : Z * Q) : bool :=
  Py.Qltb 0 (snd tf) && (0 <? List.length (tf_data data d (fst tf)))%nat.

Definition hit_rate (data : DataFrame) (d : datetime)
    (fn : MatchRow -> bool) (days : Z) : Q :=
  success_rate fn (tf_data data d days).

(** The items the loop leaves in [timeframe_results], window by window. *)
Definition window_result (data : DataFrame) (d : datetime)
    (fn : MatchRow -> bool) (tf : Z * Q) : TimeframeResults :=
  let rows := tf_data data d (fst tf) in
  if (0 <? List.length rows)%nat
  then [(fst tf, mkTF (List.length rows) (success_rate fn rows) (snd tf))]
  else [].

Fixpoint sum (l : list Q) : Q :=
  match l with
  | [] => 0
  | x :: l' => x + sum l'
  end.

(** The ensemble as the specification words it: the weighted mean of
    the hit rates over the used windows, normalised by the sum of the
    weights of exactly those windows. *)
Definition weighted_mean (data : DataFrame) (d : datetime)
    (fn : MatchRow -> bool) (tfs : Timeframes) : Q :=
  let ws := filter (used data d) tfs in
  sum (map (fun tf => hit_rate data d fn (fst tf) * snd tf) ws)
  / sum (map snd ws).

(** The penalty lookup as the specification words it: by the exact
    pattern name, else by a table key that occurs in the name, else the
    default. *)
Inductive claimed_penalty (pattern_name : string) : Q -> Prop :=
| penalty_by_exact_name (p : Q) :
    Py.get String.eqb RiskAdjustment.PATTERN_RISK_PENALTIES pattern_name = Some p ->
    claimed_penalty pattern_name p
| penalty_by_substring (table_key : string) (p : Q) :
    Py.get String.eqb RiskAdjustment.PATTERN_RISK_PENALTIES pattern_name = None ->
    Py.get String.eqb RiskAdjustment.PATTERN_RISK_PENALTIES table_key = Some p ->
    RiskAdjustment.contains_str table_key pattern_name = true ->
    claimed_penalty pattern_name p
| penalty_by_default :
    Py.get String.eqb RiskAdjustment.PATTERN_RISK_PENALTIES pattern_name = None ->
    (forall table_key,
        Py.contains String.eqb RiskAdjustment.PATTERN_RISK_PENALTIES table_key = true ->
        RiskAdjustment.contains_str table_key pattern_name = false) ->
    claimed_penalty pattern_name RiskAdjustment.DEFAULT_RISK_PENALTY.

(** A decidable check that the names of a list are pairwise distinct. *)
Fixpoint distinct (names : list string) : bool :=
  match names with
  | [] => true
  | n :: rest => negb (existsb (String.eqb n) rest) && distinct rest
  end.

(** What the loop of [SimpleRomanianPredictor.predict_match] works out
    for one registered name: the raw confidence, the risk-adjusted
    confidence and the threshold; [None] when the name is passed over. *)
Definition evaluation (registry : Registry.PatternRegistry)
    (historical_data : DataFrame) (match_date : datetime)
    (use_ensemble : bool) (n : string) : option (Q * Q * Q) :=
  match Py.get String.eqb SimpleRomanianPredictor.thresholds n with
  | None => None
  | Some t =>
      match Registry.get_pattern registry n with
      | None => None
      | Some p =>
          match SimpleRomanianPredictor.pattern_confidence
                  historical_data match_date use_ensemble p with
          | None => None
          | Some c =>
              Some (c, RiskAdjustment.calculate_risk_adjusted_confidence c n, t)
          end
      end
  end.

(** A candidate of the Romanian predictor: the risk-adjusted confidence
    reaches the threshold. *)
Definition candidate (registry : Registry.PatternRegistry)
    (historical_data : DataFrame) (match_date : datetime)
    (use_ensemble : bool) (n : string) : bool :=
  match evaluation registry historical_data match_date use_ensemble n with
  | Some (_, ra, t) => Qle_bool t ra
  | None => false
  end.

(** A candidate of the Premier League predictor: the calibrated
    confidence, before any risk penalty, reaches the adjusted threshold. *)
Definition pl_candidate (e : SimplePremierLeaguePredictor.Evaluated) : bool :=
  Qle_bool (SimplePremierLeaguePredictor.ev_adjusted_threshold e)
           (SimplePremierLeaguePredictor.ev_confidence e).

Definition pl_risk_adjusted (e : SimplePremierLeaguePredictor.Evaluated) : Q :=
  RiskAdjustment.calculate_risk_adjusted_confidence
    (SimplePremierLeaguePredictor.ev_confidence e)
    (SimplePremierLeaguePredictor.ev_pattern e).

(** The [BestBet] built from an evaluated pattern. *)
Definition pl_best_bet (e : SimplePremierLeaguePredictor.Evaluated) : BestBet :=
  mkBestBet (SimplePremierLeaguePredictor.ev_pattern e)
    (SimplePremierLeaguePredictor.ev_confidence e)
    (pl_risk_adjusted e)
    (SimplePremierLeaguePredictor.ev_adjusted_threshold e).

(** What holds of the loop variables of the Romanian predictor after
    the names [seen]: either nothing was selected and no name seen is a
    candidate, or the selected name is a candidate that no candidate
    seen exceeds. *)
Definition selected_among (registry : Registry.PatternRegistry)
    (historical_data : DataFrame) (match_date : datetime)
    (use_ensemble : bool) (best : SimpleRomanianPredictor.Best)
    (seen : list string) : Prop :=
  let eval := evaluation registry historical_data match_date use_ensemble in
  match SimpleRomanianPredictor.best_pattern best with
  | None =>
      SimpleRomanianPredictor.best_risk_adjusted best == 0 /\
      forall n, In n seen ->
                candidate registry historical_data match_date use_ensemble n = false
  | Some n =>
      In n seen /\
      (exists t,
          eval n = Some (SimpleRomanianPredictor.best_confidence best,
                         SimpleRomanianPredictor.best_risk_adjusted best, t)
          /\ t <= SimpleRomanianPredictor.best_risk_adjusted best) /\
      forall n' c ra t,
        In n' seen -> eval n' = Some (c, ra, t) -> t <= ra ->
        ra <= SimpleRomanianPredictor.best_risk_adjusted best
  end.

(** Two evaluations, one after the other, of the same call. *)
Definition two_evaluations {A : Type} (call : RomanianMatchPredictor.Rand A)
    : RomanianMatchPredictor.Rand (A * A) :=
  RomanianMatchPredictor.bind call (fun first =>
  RomanianMatchPredictor.bind call (fun second =>
  RomanianMatchPredictor.ret (first, second))).

(** What the loop of the engine keeps true of every stored window. *)
Definition sound_result (kv : Z * TimeframeResult) : Prop :=
  0 <= success (snd kv) <= 1 /\ (1 <= matches (snd kv))%nat.

(** The selection of the Romanian predictor stands first among its
    equals: every candidate seen before it is strictly below it. *)
Definition first_of_the_best (registry : Registry.PatternRegistry)
    (historical_data : DataFrame) (match_date : datetime)
    (use_ensemble : bool) (best : SimpleRomanianPredictor.Best)
    (seen : list string) : Prop :=
  match SimpleRomanianPredictor.best_pattern best with
  | None => True
  | Some n =>
      exists before after,
        seen = before ++ n :: after /\
        forall n' c ra t,
          In n' before ->
          evaluation registry historical_data match_date use_ensemble n'
            = Some (c, ra, t) ->
          t <= ra -> ra < SimpleRomanianPredictor.best_risk_adjusted best
  end.

(** The order [predictions.sort(..., reverse=True)] establishes. *)
Definition by_confidence_desc (x y : SimplePremierLeaguePredictor.Prediction)
    : Prop :=
  SimplePremierLeaguePredictor.pred_confidence y
  <= SimplePremierLeaguePredictor.pred_confidence x.

(** The totals of the per-pattern counters of a backtest. *)
Fixpoint sum_stats (f : Backtest.Stats -> nat)
    (by_pattern : Py.dict string Backtest.Stats) : nat :=
  match by_pattern with
  | [] => 0
  | (_, stats) :: rest => f stats + sum_stats f rest
  end.

(** What the loop of [backtest_league] keeps true after [tested]
    matches. *)
Definition tally_consistent (registry : Registry.PatternRegistry)
    (tally : Backtest.Tally) (tested : nat) : Prop :=
  List.length (Backtest.predictions tally) = Backtest.total tally
  /\ (Backtest.correct tally <= Backtest.total tally <= tested)%nat
  /\ List.length (filter Backtest.log_correct (Backtest.predictions tally))
     = Backtest.correct tally
  /\ sum_stats Backtest.stat_total (Backtest.by_pattern tally)
     = Backtest.total tally
  /\ sum_stats Backtest.stat_correct (Backtest.by_pattern tally)
     = Backtest.correct tally
  /\ Forall (fun kv => (Backtest.stat_correct (snd kv)
                        <= Backtest.stat_total (snd kv))%nat
                       /\ (1 <= Backtest.stat_total (snd kv))%nat)
       (Backtest.by_pattern tally)
  /\ Forall (fun logged =>
               In (Backtest.log_pattern logged) (Registry.list_patterns registry)
               /\ ~ Backtest.log_confidence logged == 0)
       (Backtest.predictions tally).

End Spec.

(** * Properties *)

Unset Implicit Arguments.

(** ** Comparisons, clamp and dictionaries *)

Module PyFacts.

Open Scope Q_scope.

Lemma Qltb_true (x y : Q) : Py.Qltb x y = true <-> x < y.
Proof.
  unfold Py.Qltb. rewrite negb_true_iff.
  split; intro H.
  - apply Qnot_le_lt. intro L. apply Qle_bool_iff in L. congruence.
  - destruct (Qle_bool y x) eqn:E; trivial.
    apply Qle_bool_iff in E. exfalso. revert E. now apply Qlt_not_le.
Qed.

Lemma Qltb_false (x y : Q) : Py.Qltb x y = false <-> y <= x.
Proof.
  unfold Py.Qltb. rewrite negb_false_iff. apply Qle_bool_iff.
Qed.

Lemma Qle_bool_false (x y : Q) : Qle_bool x y = false <-> y < x.
Proof.
  rewrite <- Qltb_true. unfold Py.Qltb.
  destruct (Qle_bool x y); simpl; intuition congruence.
Qed.

Lemma Qltb_comp (x x' y y' : Q) :
  x == x' -> y == y' -> Py.Qltb x y = Py.Qltb x' y'.
Proof.
  intros Hx Hy. unfold Py.Qltb. now rewrite Hx, Hy.
Qed.

Lemma clamp01_range (x : Q) : 0 <= Py.clamp01 x <= 1.
Proof.
  unfold Py.clamp01, Py.max, Py.min.
  destruct (Py.Qltb x 1) eqn:E1.
  - destruct (Py.Qltb 0 x) eqn:E0.
    + apply Qltb_true in E1, E0. lra.
    + lra.
  - destruct (Py.Qltb 0 1) eqn:E0; lra.
Qed.

(** The value of the clamp, case by case. *)
Lemma clamp01_cases (x : Q) :
  (x <= 0 -> Py.clamp01 x == 0) /\
  (0 <= x <= 1 -> Py.clamp01 x == x) /\
  (1 <= x -> Py.clamp01 x == 1).
Proof.
  unfold Py.clamp01, Py.max, Py.min.
  destruct (Py.Qltb x 1) eqn:E1.
  - apply Qltb_true in E1.
    destruct (Py.Qltb 0 x) eqn:E0.
    + apply Qltb_true in E0. repeat split; intros; lra.
    + apply Qltb_false in E0. repeat split; intros; lra.
  - apply Qltb_false in E1.
    change (Py.Qltb 0 1) with true. cbv iota.
    repeat split; intros; lra.
Qed.

Section DictFacts.
Variables K V : Type.
Variable eqb : K -> K -> bool.
Hypothesis eqb_eq : forall a b, eqb a b = true <-> a = b.

Lemma get_none_iff (d : Py.dict K V) (k : K) :
  Py.get eqb d k = None <-> ~ In k (Py.keys d).
Proof.
  induction d as [|[k' v] d IH]; simpl.
  - tauto.
  - destruct (eqb k k') eqn:E.
    + apply eqb_eq in E. subst. split; [discriminate | intro H; tauto].
    + rewrite IH. split.
      * intros H [H1 | H1]; [| tauto].
        subst k'. assert (eqb k k = true) by now apply eqb_eq. congruence.
      * tauto.
Qed.

Lemma contains_iff (d : Py.dict K V) (k : K) :
  Py.contains eqb d k = true <-> In k (Py.keys d).
Proof.
  unfold Py.contains. destruct (Py.get eqb d k) eqn:E.
  - split; trivial. intros _.
    destruct (in_dec (fun a b => match bool_dec (eqb a b) true with
                                 | left H => left (proj1 (eqb_eq a b) H)
                                 | right H => right (fun e => H (proj2 (eqb_eq a b) e))
                                 end) k (Py.keys d)) as [i | n]; trivial.
    apply get_none_iff in n. congruence.
  - apply get_none_iff in E. split; [discriminate | tauto].
Qed.

Lemma get_in (d : Py.dict K V) (k : K) (v : V) :
  Py.get eqb d k = Some v -> In (k, v) d.
Proof.
  induction d as [|[k' v'] d IH]; simpl; [discriminate|].
  destruct (eqb k k') eqn:E.
  - apply eqb_eq in E. intros [= ->]. subst. now left.
  - auto.
Qed.

Lemma get_set_same (d : Py.dict K V) (k : K) (v : V) :
  Py.get eqb (Py.set eqb d k v) k = Some v.
Proof.
  assert (R : eqb k k = true) by now apply eqb_eq.
  induction d as [|[k' v'] d IH]; simpl.
  - now rewrite R.
  - destruct (eqb k k') eqn:E; simpl; rewrite E; auto.
Qed.

(** Assigning to a key that is not there appends the item. *)
Lemma set_fresh (d : Py.dict K V) (k : K) (v : V) :
  ~ In k (Py.keys d) -> Py.set eqb d k v = d ++ [(k, v)].
Proof.
  induction d as [|[k' v'] d IH]; simpl; intro H; trivial.
  destruct (eqb k k') eqn:E.
  - apply eqb_eq in E. subst. tauto.
  - rewrite IH; tauto.
Qed.
End DictFacts.

Lemma Zeqb_eq (a b : Z) : Z.eqb a b = true <-> a = b.
Proof. apply Z.eqb_eq. Qed.

Lemma Seqb_eq (a b : string) : String.eqb a b = true <-> a = b.
Proof. apply String.eqb_eq. Qed.

End PyFacts.

(** ** The confidence engine *)

Module ConfidenceFacts.

Import Confidence PyFacts.
Open Scope Q_scope.

(** The loop only looks at the corpus through the windows. *)
Lemma timeframe_loop_windows (data data' : DataFrame) (d : datetime)
    (fn : MatchRow -> bool) (tfs : Timeframes) :
  (forall days, tf_data data d days = tf_data data' d days) ->
  forall results confidences,
    timeframe_loop data d fn tfs results confidences =
    timeframe_loop data' d fn tfs results confidences.
Proof.
  intro W. induction tfs as [|[days w] tfs IH]; intros; simpl; trivial.
  rewrite <- W. destruct (0 <? List.length (tf_data data d days))%nat; apply IH.
Qed.

(** Windows without rows leave both accumulators as they are. *)
Lemma timeframe_loop_empty (data : DataFrame) (d : datetime)
    (fn : MatchRow -> bool) (tfs : Timeframes) :
  (forall days w, In (days, w) tfs -> tf_data data d days = []) ->
  forall results confidences,
    timeframe_loop data d fn tfs results confidences = (results, confidences).
Proof.
  induction tfs as [|[days w] tfs IH]; intros E results confidences; simpl; trivial.
  rewrite (E days w) by now left. simpl.
  apply IH. intros days' w' H. apply (E days' w'). now right.
Qed.

(** Whatever the results, the adjusted value is clamped. *)
Lemma adjusted_confidence_shape (results : TimeframeResults)
    (confidences : list Q) (m7 m30 : Z) :
  exists dbg,
    adjusted_confidence results confidences m7 m30
      = (final_confidence dbg, Debug dbg)
    /\ timeframe_results dbg = results
    /\ final_confidence dbg ==
         Py.clamp01 (ensemble_confidence dbg + trend_adjustment dbg
                     + consistency_adjustment dbg + sample_adjustment dbg)
    /\ (sample_quality dbg, sample_adjustment dbg)
         = sample_validation m7 m30 (matches_7d dbg) (matches_30d dbg)
    /\ matches_7d dbg = get_matches results 7
    /\ matches_30d dbg = get_matches results 30
    /\ ensemble_confidence dbg =
         (if Py.Qltb 0 (snd (ensemble_loop results 0 0))
          then fst (ensemble_loop results 0 0) / snd (ensemble_loop results 0 0)
          else 0.5).
Proof.
  unfold adjusted_confidence.
  destruct (ensemble_loop results 0 0) as [acc tw].
  destruct (trend_of _ _) as [tr tr_adj].
  destruct (consistency_of confidences) as [[cn cn_adj] var].
  destruct (sample_validation m7 m30 _ _) as [sq sadj] eqn:S.
  match goal with |- exists dbg, (_, Debug ?D) = _ /\ _ => exists D end.
  simpl. rewrite S. repeat split; reflexivity.
Qed.

(** The two shapes of a returned tuple. *)
Lemma calculate_shape (data : DataFrame) (d : datetime)
    (fn : MatchRow -> bool) (m7 m30 : Z) (ct : option Timeframes)
    (uah : bool) :
  let r := calculate_multi_timeframe_confidence data d fn m7 m30 ct uah in
  let loop := timeframe_loop data d fn (timeframes data d ct uah) [] [] in
  (fst loop = [] /\ r = (0.5, NoHistoricalData)) \/
  (fst loop <> [] /\ r = adjusted_confidence (fst loop) (snd loop) m7 m30).
Proof.
  unfold calculate_multi_timeframe_confidence.
  destruct (timeframe_loop _ _ _ _ _ _) as [results confidences]; simpl.
  destruct results; [left | right]; split; trivial; discriminate.
Qed.

End ConfidenceFacts.

Module Claims.

Import Confidence Spec PyFacts ConfidenceFacts.
Open Scope Q_scope.

(** C4 (range invariant).  Every call of
    [calculate_multi_timeframe_confidence] returns a first component in
    the closed interval [0,1]: it is the neutral 0.5 on the no-data exit
    and otherwise the clamped sum of the ensemble value and the three
    adjustments, which is also the [final_confidence] of the breakdown. *)
Theorem final_confidence_in_unit_interval (data : DataFrame) (d : datetime)
    (fn : MatchRow -> bool) (m7 m30 : Z) (ct : option Timeframes)
    (uah : bool) :
  let r := calculate_multi_timeframe_confidence data d fn m7 m30 ct uah in
  0 <= fst r <= 1 /\
  match snd r with
  | NoHistoricalData => fst r = 0.5
  | Debug dbg =>
      fst r = final_confidence dbg /\
      final_confidence dbg ==
        Py.clamp01 (ensemble_confidence dbg + trend_adjustment dbg
                    + consistency_adjustment dbg + sample_adjustment dbg)
  end.
Proof.
  intro r. subst r.
  destruct (calculate_shape data d fn m7 m30 ct uah) as [[_ E] | [_ E]];
    rewrite E.
  - simpl. split; [lra | reflexivity].
  - destruct (adjusted_confidence_shape
                (fst (timeframe_loop data d fn (timeframes data d ct uah) [] []))
                (snd (timeframe_loop data d fn (timeframes data d ct uah) [] []))
                m7 m30) as (dbg & -> & _ & F & _).
    simpl. split; [| split; [reflexivity | exact F]].
    rewrite F. apply clamp01_range.
Qed.

(** Stacked adjustments are cut off at both ends: a predicate true on
    every match with sufficient samples gives 1 + 0.01, returned as 1;
    a predicate false on every match with an insufficient sample gives
    0 + 0.01 - 0.05, returned as 0. *)
Example stacked_adjustments_clamped :
  fst (calculate_multi_timeframe_confidence Samples.recent_corpus
         Samples.asof (fun _ => true) 3 5 None true) == 1
  /\ fst (calculate_multi_timeframe_confidence Samples.recent_corpus
            Samples.asof (fun _ => false) 3 10 None true) == 0.
Proof. split; vm_compute; reflexivity. Qed.

(** *** Sample-size validation *)

(** C5, as stated, fails: with the minimums 2 and 8 that the Romanian
    and Premier League predictors pass, one match in the last 7 days and
    six in the last 30 are within one and two of the minimums, yet the
    code answers insufficient, -0.05. *)
Lemma sample_adjustment_claim_fails :
  sample_validation 2 8 1 6 = (insufficient, -0.05) /\
  claimed_sample_adjustment 2 8 1 6 = -0.02 /\
  ~ (forall min_7d min_30d c7 c30,
       snd (sample_validation min_7d min_30d c7 c30)
       == claimed_sample_adjustment min_7d min_30d c7 c30).
Proof.
  split; [reflexivity | split; [reflexivity |]].
  intro H. specialize (H 2%Z 8%Z 1%nat 6%nat). vm_compute in H. discriminate.
Qed.

(** C5 (amended).  For all minimums and all observed counts the sample
    adjustment is 0 (sufficient) when both counts reach their minimums;
    otherwise -0.02 (adequate) when the 7-day count is at least
    max(2, minimum - 1) and the 30-day count at least max(8, minimum - 2);
    otherwise -0.05 (insufficient). *)
Theorem sample_validation_cases (min_7d min_30d : Z) (c7 c30 : nat) :
  let both_met := (min_7d <= Z.of_nat c7 /\ min_30d <= Z.of_nat c30)%Z in
  let near := (Z.max 2 (min_7d - 1) <= Z.of_nat c7
               /\ Z.max 8 (min_30d - 2) <= Z.of_nat c30)%Z in
  (both_met -> sample_validation min_7d min_30d c7 c30 = (sufficient, 0.0)) /\
  (~ both_met -> near ->
     sample_validation min_7d min_30d c7 c30 = (adequate, -0.02)) /\
  (~ both_met -> ~ near ->
     sample_validation min_7d min_30d c7 c30 = (insufficient, -0.05)).
Proof.
  intros both_met near. subst both_met near. unfold sample_validation.
  destruct (min_7d <=? Z.of_nat c7)%Z eqn:A;
  destruct (min_30d <=? Z.of_nat c30)%Z eqn:B;
  destruct (Z.max 2 (min_7d - 1) <=? Z.of_nat c7)%Z eqn:C;
  destruct (Z.max 8 (min_30d - 2) <=? Z.of_nat c30)%Z eqn:D;
  simpl;
  rewrite ?Z.leb_le, ?Z.leb_gt in *;
  repeat split; intros; trivial; exfalso; lia.
Qed.

(** The breakdown of a call reports exactly this validation of the
    sizes of its 7-day and 30-day windows. *)
Lemma breakdown_sample_validation (data : DataFrame) (d : datetime)
    (fn : MatchRow -> bool) (m7 m30 : Z) (ct : option Timeframes)
    (uah : bool) (dbg : DebugInfo) :
  snd (calculate_multi_timeframe_confidence data d fn m7 m30 ct uah) = Debug dbg ->
  (sample_quality dbg, sample_adjustment dbg)
    = sample_validation m7 m30 (matches_7d dbg) (matches_30d dbg).
Proof.
  destruct (calculate_shape data d fn m7 m30 ct uah) as [[_ E] | [_ E]];
    rewrite E; simpl; [discriminate|].
  destruct (adjusted_confidence_shape
              (fst (timeframe_loop data d fn (timeframes data d ct uah) [] []))
              (snd (timeframe_loop data d fn (timeframes data d ct uah) [] []))
              m7 m30) as (dbg' & -> & _ & _ & S & _).
  simpl. intros [= <-]. exact S.
Qed.

(** *** The no-data exit *)

(** C8 (no-data default).  When none of the windows of the table in use
    contains a match, the call returns 0.5 together with the
    ['No historical data available'] dictionary; it does so for every
    corpus, date, predicate and minimums. *)
Theorem no_data_default (data : DataFrame) (d : datetime)
    (fn : MatchRow -> bool) (m7 m30 : Z) (ct : option Timeframes)
    (uah : bool) :
  (forall days w, In (days, w) (timeframes data d ct uah) ->
                  tf_data data d days = []) ->
  calculate_multi_timeframe_confidence data d fn m7 m30 ct uah
    = (0.5, NoHistoricalData).
Proof.
  intro E. unfold calculate_multi_timeframe_confidence.
  now rewrite (timeframe_loop_empty data d fn _ E [] []).
Qed.

Lemma no_data_default_witness :
  (forall days w,
      In (days, w) (timeframes Samples.last_season Samples.asof
                      (Some SimpleRomanianPredictor.ROMANIAN_TIMEFRAME_WEIGHTS) true) ->
      tf_data Samples.last_season Samples.asof days = []) /\
  calculate_multi_timeframe_confidence Samples.last_season Samples.asof
    Samples.home_over_1_5_goals 2 8
    (Some SimpleRomanianPredictor.ROMANIAN_TIMEFRAME_WEIGHTS) true
  = (0.5, NoHistoricalData).
Proof.
  assert (E : forall days w,
      In (days, w) (timeframes Samples.last_season Samples.asof
                      (Some SimpleRomanianPredictor.ROMANIAN_TIMEFRAME_WEIGHTS) true) ->
      tf_data Samples.last_season Samples.asof days = []).
  { simpl. intros days w H.
    repeat (destruct H as [H | H]; [injection H as <- <-; reflexivity |]).
    destruct H. }
  split; [exact E | exact (no_data_default _ _ _ 2%Z 8%Z _ _ E)].
Defined.

(** *** No lookahead *)

Lemma fold_min_spec (l : list Z) (a : Z) :
  let m := fold_left Z.min l a in
  ((m = a \/ In m l) /\ m <= a /\ forall x, In x l -> m <= x)%Z.
Proof.
  revert a. induction l as [|y l IH]; intro a; simpl.
  - split; [now left | split; [lia | tauto]].
  - destruct (IH (Z.min a y)) as ([E | I] & L & A).
    + split; [| split].
      * destruct (Z.min_spec a y) as [[_ M] | [_ M]];
          [left | right; left]; congruence.
      * lia.
      * intros x [<- | Hx]; [lia | now apply A].
    + split; [now right; right | split; [lia |]].
      intros x [<- | Hx]; [lia | now apply A].
Qed.

Lemma date_min_spec (data : DataFrame) (m : datetime) :
  date_min data = Some m ->
  (exists r, In r data /\ Date r = m) /\
  (forall r, In r data -> (m <= Date r)%Z).
Proof.
  destruct data as [|r rs]; simpl; [discriminate|]. intros [= <-].
  destruct (fold_min_spec (map Date rs) (Date r)) as ([E | I] & L & A).
  - split.
    + exists r. split; [now left | now symmetry].
    + intros r' [<- | H]; trivial. apply A. now apply in_map.
  - split.
    + apply in_map_iff in I. destruct I as (r' & E & I).
      exists r'. split; [now right | trivial].
    + intros r' [<- | H]; trivial. apply A. now apply in_map.
Qed.

Lemma all_history_added_iff (data : DataFrame) (d : datetime) :
  all_history_added data d = true <->
  exists r, In r data /\ (730 < timedelta_days (d - Date r))%Z.
Proof.
  unfold all_history_added.
  destruct (date_min data) as [m|] eqn:E.
  - destruct (date_min_spec data m E) as ((r & I & <-) & A).
    rewrite Z.ltb_lt. split.
    + intro H. now exists r.
    + intros (r' & I' & H). specialize (A r' I').
      eapply Z.lt_le_trans; [exact H|].
      unfold timedelta_days, seconds_per_day.
      apply Z.div_le_mono; lia.
  - split; [discriminate|]. intros (r & I & _).
    destruct data; [destruct I | discriminate].
Qed.

Lemma timeframes_all_history (data : DataFrame) (d : datetime)
    (ct : option Timeframes) (uah : bool) :
  timeframes data d ct uah =
  match ct with
  | Some (e :: tf) => e :: tf
  | _ => if uah && all_history_added data d
         then default_timeframes ++ [(99999%Z, 0.00)]
         else default_timeframes
  end.
Proof.
  unfold timeframes, all_history_added.
  destruct ct as [[|e tf]|]; trivial;
    destruct uah; trivial; destruct (date_min data); trivial;
    destruct (730 <? _)%Z; reflexivity.
Qed.

Lemma later_rows_filtered (extra : DataFrame) (d : datetime)
    (f : MatchRow -> bool) :
  (forall r, In r extra -> (d <= Date r)%Z) ->
  filter (fun r => f r && (Date r <? d)%Z) extra = [].
Proof.
  intro H. induction extra as [|r extra IH]; simpl; trivial.
  assert (d <= Date r)%Z by (apply H; now left).
  replace (Date r <? d)%Z with false by (symmetry; apply Z.ltb_ge; lia).
  rewrite andb_false_r. apply IH. intros r' I. apply H. now right.
Qed.

Lemma tf_data_app (data extra : DataFrame) (d : datetime) (days : Z) :
  (forall r, In r extra -> (d <= Date r)%Z) ->
  tf_data (data ++ extra) d days = tf_data data d days.
Proof.
  intro H. unfold tf_data. destruct (days =? 99999)%Z.
  - rewrite filter_app.
    rewrite (filter_ext _ (fun r => true && (Date r <? d)%Z)) with (l := extra)
      by reflexivity.
    rewrite (later_rows_filtered extra _ (fun _ => true) H). apply app_nil_r.
  - rewrite filter_app.
    rewrite (later_rows_filtered extra d
               (fun r => (d - timedelta days <=? Date r)%Z) H).
    apply app_nil_r.
Qed.

Lemma all_history_added_app (data extra : DataFrame) (d : datetime) :
  (forall r, In r extra -> (d <= Date r)%Z) ->
  all_history_added (data ++ extra) d = all_history_added data d.
Proof.
  intro H. apply eq_true_iff_eq. rewrite !all_history_added_iff.
  split; intros (r & I & L).
  - apply in_app_or in I. destruct I as [I | I]; [now exists r|].
    exfalso. specialize (H r I).
    assert (timedelta_days (d - Date r) <= 0)%Z; [| lia].
    unfold timedelta_days, seconds_per_day.
    apply Z.div_le_upper_bound; lia.
  - exists r. split; [apply in_or_app; now left | trivial].
Qed.

(** C1 (no lookahead).  Appending records dated on or after the as-of
    date [d] changes nothing in what
    [calculate_multi_timeframe_confidence] returns for [d], neither the
    confidence nor the breakdown, whatever the predicate, the weight
    table and the minimums; and the historical view the backtest builds
    for a match holds only records dated strictly before it, so it holds
    neither the match nor a later one and is itself unchanged by such
    records. *)
Theorem no_lookahead (data extra : DataFrame) (d : datetime)
    (fn : MatchRow -> bool) (m7 m30 : Z) (ct : option Timeframes)
    (uah : bool) :
  (forall r, In r extra -> (d <= Date r)%Z) ->
  calculate_multi_timeframe_confidence (data ++ extra) d fn m7 m30 ct uah
    = calculate_multi_timeframe_confidence data d fn m7 m30 ct uah
  /\ (forall m, Date m = d ->
        Backtest.historical (data ++ extra) m = Backtest.historical data m
        /\ ~ In m (Backtest.historical data m)
        /\ forall r, In r (Backtest.historical (data ++ extra) m) ->
                     (Date r < Date m)%Z).
Proof.
  intro H. split.
  - unfold calculate_multi_timeframe_confidence.
    rewrite !timeframes_all_history, (all_history_added_app data extra d H).
    rewrite (timeframe_loop_windows (data ++ extra) data d fn); trivial.
    intro days. now apply tf_data_app.
  - intros m <-. unfold Backtest.historical.
    repeat split.
    + rewrite filter_app.
      rewrite (filter_ext _ (fun r => true && (Date r <? Date m)%Z)) with (l := extra)
        by reflexivity.
      rewrite (later_rows_filtered extra _ (fun _ => true) H). apply app_nil_r.
    + intro I. apply filter_In in I. destruct I as [_ I].
      apply Z.ltb_lt in I. lia.
    + intros r I. apply filter_In in I. destruct I as [_ I].
      now apply Z.ltb_lt.
Qed.

Lemma no_lookahead_witness :
  (forall r, In r Samples.later_rows -> (Samples.asof <= Date r)%Z) /\
  calculate_multi_timeframe_confidence
    (Samples.recent_corpus ++ Samples.later_rows) Samples.asof
    Samples.home_over_1_5_goals 3 10 None true
  = calculate_multi_timeframe_confidence Samples.recent_corpus Samples.asof
      Samples.home_over_1_5_goals 3 10 None true.
Proof.
  assert (H : forall r, In r Samples.later_rows -> (Samples.asof <= Date r)%Z).
  { intros r [<- | [<- | []]]; vm_compute; discriminate. }
  split; [exact H |].
  exact (proj1 (no_lookahead Samples.recent_corpus Samples.later_rows
                  Samples.asof Samples.home_over_1_5_goals 3%Z 10%Z None true H)).
Defined.

(** *** The ensemble *)

Lemma timeframe_loop_results (data : DataFrame) (d : datetime)
    (fn : MatchRow -> bool) (tfs : Timeframes) :
  NoDup (Py.keys tfs) ->
  forall results confidences,
    (forall k, In k (Py.keys results) -> ~ In k (Py.keys tfs)) ->
    fst (timeframe_loop data d fn tfs results confidences)
    = results ++ flat_map (window_result data d fn) tfs.
Proof.
  induction tfs as [|[days w] tfs IH]; intros U results confidences F; simpl.
  - now rewrite app_nil_r.
  - inversion U as [|? ? N U']; subst.
    unfold window_result at 1. simpl.
    destruct (0 <? List.length (tf_data data d days))%nat.
    + rewrite (set_fresh Z TimeframeResult Z.eqb Zeqb_eq).
      * rewrite IH; trivial.
        -- now rewrite <- app_assoc.
        -- intros k I. unfold Py.keys in I. rewrite map_app in I.
           apply in_app_or in I. destruct I as [I | [<- | []]]; trivial.
           intro J. apply (F k I). now right.
      * intro I. apply (F days I). now left.
    + apply IH; trivial. intros k I J. apply (F k I). now right.
Qed.

Lemma ensemble_loop_sums (data : DataFrame) (d : datetime)
    (fn : MatchRow -> bool) (tfs : Timeframes) :
  forall acc tw,
    let ws := filter (used data d) tfs in
    let r := ensemble_loop (flat_map (window_result data d fn) tfs) acc tw in
    fst r == acc + sum (map (fun tf => hit_rate data d fn (fst tf) * snd tf) ws)
    /\ snd r == tw + sum (map snd ws).
Proof.
  unfold hit_rate.
  induction tfs as [|[days w] tfs IH]; intros acc tw; cbn zeta; simpl.
  - split; ring.
  - change (used data d (days, w))
      with (Py.Qltb 0 w && (0 <? List.length (tf_data data d days))%nat).
    change (window_result data d fn (days, w))
      with (if (0 <? List.length (tf_data data d days))%nat
            then [(days, mkTF (List.length (tf_data data d days))
                           (success_rate fn (tf_data data d days)) w)]
            else []).
    destruct (0 <? List.length (tf_data data d days))%nat;
      destruct (Py.Qltb 0 w) eqn:P; simpl; rewrite ?P; try apply IH.
    destruct (IH (acc + success_rate fn (tf_data data d days) * w) (tw + w))
      as [A B].
    cbn zeta in A, B.
    split; [etransitivity; [exact A|] | etransitivity; [exact B|]]; ring.
Qed.

Lemma used_weights_positive (data : DataFrame) (d : datetime)
    (tfs : Timeframes) :
  (exists tf, In tf tfs /\ used data d tf = true) ->
  0 < sum (map snd (filter (used data d) tfs)).
Proof.
  assert (N : forall l, 0 <= sum (map snd (filter (used data d) l))).
  { induction l as [|tf l IH]; simpl; [lra|].
    destruct (used data d tf) eqn:E; simpl; trivial.
    unfold used in E. apply andb_prop in E. destruct E as [E _].
    apply Qltb_true in E. lra. }
  induction tfs as [|tf tfs IH]; intros (tf' & I & E).
  - destruct I.
  - simpl. destruct I as [<- | I].
    + rewrite E. simpl. specialize (N tfs).
      unfold used in E. apply andb_prop in E. destruct E as [E _].
      apply Qltb_true in E. lra.
    + assert (P : 0 < sum (map snd (filter (used data d) tfs)))
        by (apply IH; now exists tf').
      destruct (used data d tf) eqn:E'; simpl; trivial.
      unfold used in E'. apply andb_prop in E'. destruct E' as [E' _].
      apply Qltb_true in E'. lra.
Qed.

Lemma default_keys_unique :
  NoDup (Py.keys default_timeframes) /\
  NoDup (Py.keys (default_timeframes ++ [(99999%Z, 0.00)])).
Proof.
  split; simpl; repeat (constructor; [simpl; intuition discriminate|]);
    constructor.
Qed.

Lemma timeframes_keys_unique (data : DataFrame) (d : datetime)
    (ct : option Timeframes) (uah : bool) :
  (forall tf, ct = Some tf -> Py.dict_keys_unique tf) ->
  NoDup (Py.keys (timeframes data d ct uah)).
Proof.
  intro U. rewrite timeframes_all_history.
  destruct ct as [[|e tf]|].
  - destruct (uah && _); apply default_keys_unique.
  - now apply U.
  - destruct (uah && _); apply default_keys_unique.
Qed.

(** C3 (ensemble normalisation).  When some window of the table in use
    has positive weight and at least one match, the call returns a
    breakdown whose [ensemble_confidence] is the weighted mean of the
    hit rates over exactly the windows with positive weight and at
    least one match, divided by the sum of the weights of those same
    windows, a sum that is positive; windows without matches enter
    neither sum. *)
Theorem ensemble_is_weighted_mean (data : DataFrame) (d : datetime)
    (fn : MatchRow -> bool) (m7 m30 : Z) (ct : option Timeframes)
    (uah : bool) :
  (forall tf, ct = Some tf -> Py.dict_keys_unique tf) ->
  (exists days w, In (days, w) (timeframes data d ct uah)
                  /\ 0 < w /\ tf_data data d days <> []) ->
  exists dbg,
    snd (calculate_multi_timeframe_confidence data d fn m7 m30 ct uah)
      = Debug dbg
    /\ ensemble_confidence dbg
       == weighted_mean data d fn (timeframes data d ct uah)
    /\ 0 < sum (map snd (filter (used data d) (timeframes data d ct uah))).
Proof.
  intros U (days & w & I & Pw & Ne).
  set (tfs := timeframes data d ct uah) in *.
  assert (Us : exists tf, In tf tfs /\ used data d tf = true).
  { exists (days, w). split; trivial. unfold used. simpl.
    apply andb_true_intro. split; [now apply Qltb_true|].
    apply Nat.ltb_lt. destruct (tf_data data d days); [tauto | simpl; lia]. }
  pose proof (used_weights_positive data d tfs Us) as W.
  pose proof (timeframe_loop_results data d fn tfs
                (timeframes_keys_unique data d ct uah U) [] []
                (fun k (F : In k []) => match F with end)) as R.
  simpl in R.
  destruct (ensemble_loop_sums data d fn tfs 0 0) as [A B]. cbn zeta in A, B.
  destruct (calculate_shape data d fn m7 m30 ct uah) as [[E _] | [_ E]];
    fold tfs in E.
  - exfalso. rewrite R in E.
    destruct Us as (tf & J & Utf).
    assert (In tf tfs -> flat_map (window_result data d fn) tfs <> []).
    { clear -Utf. induction tfs as [|x l IH]; simpl; [tauto|].
      intros [-> | J].
      - unfold window_result. unfold used in Utf.
        apply andb_prop in Utf. destruct Utf as [_ ->]. discriminate.
      - intro C. apply app_eq_nil in C. destruct C as [_ C]. now apply IH. }
    tauto.
  - rewrite E, R.
    destruct (adjusted_confidence_shape
                (flat_map (window_result data d fn) tfs)
                (snd (timeframe_loop data d fn tfs [] [])) m7 m30)
      as (dbg & -> & _ & _ & _ & _ & _ & En).
    exists dbg. split; [reflexivity | split; [| exact W]].
    rewrite En.
    assert (T : Py.Qltb 0 (snd (ensemble_loop
                 (flat_map (window_result data d fn) tfs) 0 0)) = true).
    { apply Qltb_true. rewrite B. lra. }
    rewrite T. unfold weighted_mean. rewrite A, B.
    apply Qdiv_comp; ring.
Qed.

Lemma ensemble_is_weighted_mean_witness :
  (forall tf, @None Timeframes = Some tf -> Py.dict_keys_unique tf) /\
  (exists days w,
      In (days, w) (timeframes Samples.recent_corpus Samples.asof None true)
      /\ 0 < w /\ tf_data Samples.recent_corpus Samples.asof days <> []) /\
  exists dbg,
    snd (calculate_multi_timeframe_confidence Samples.recent_corpus
           Samples.asof Samples.home_over_1_5_goals 3 10 None true)
      = Debug dbg
    /\ ensemble_confidence dbg
       == weighted_mean Samples.recent_corpus Samples.asof
            Samples.home_over_1_5_goals
            (timeframes Samples.recent_corpus Samples.asof None true)
    /\ 0 < sum (map snd (filter (used Samples.recent_corpus Samples.asof)
                           (timeframes Samples.recent_corpus Samples.asof None true))).
Proof.
  assert (U : forall tf, @None Timeframes = Some tf -> Py.dict_keys_unique tf)
    by (intros tf E; discriminate E).
  assert (W : exists days w,
      In (days, w) (timeframes Samples.recent_corpus Samples.asof None true)
      /\ 0 < w /\ tf_data Samples.recent_corpus Samples.asof days <> []).
  { exists 7%Z, 0.30. split; [left; reflexivity | split; [reflexivity |]].
    vm_compute. discriminate. }
  split; [exact U | split; [exact W |]].
  exact (ensemble_is_weighted_mean Samples.recent_corpus Samples.asof
           Samples.home_over_1_5_goals 3%Z 10%Z None true U W).
Defined.

(** *** Only the zero-weight window has matches *)

Lemma timeframe_loop_app (data : DataFrame) (d : datetime)
    (fn : MatchRow -> bool) (tfs tfs' : Timeframes) :
  forall results confidences,
    timeframe_loop data d fn (tfs ++ tfs') results confidences =
    timeframe_loop data d fn tfs'
      (fst (timeframe_loop data d fn tfs results confidences))
      (snd (timeframe_loop data d fn tfs results confidences)).
Proof.
  induction tfs as [|[days w] tfs IH]; intros; simpl; trivial.
  destruct (0 <? List.length (tf_data data d days))%nat; apply IH.
Qed.

Lemma adjusted_confidence_zero_weight (n : nat) (rate : Q) (m7 m30 : Z) :
  (0 < m7 \/ 0 < m30)%Z ->
  exists dbg,
    adjusted_confidence [(99999%Z, mkTF n rate 0.00)] [] m7 m30
      = (final_confidence dbg, Debug dbg)
    /\ final_confidence dbg == 0.46
    /\ ensemble_confidence dbg = 0.5
    /\ (trend dbg, trend_adjustment dbg) = (stable, 0.0)
    /\ (consistency dbg, consistency_adjustment dbg) = (high, 0.01)
    /\ (sample_quality dbg, sample_adjustment dbg) = (insufficient, -0.05)
    /\ timeframe_results dbg = [(99999%Z, mkTF n rate 0.00)].
Proof.
  intro M.
  assert (S : sample_validation m7 m30 0 0 = (insufficient, -0.05)).
  { unfold sample_validation. simpl Z.of_nat.
    replace ((m7 <=? 0)%Z && (m30 <=? 0)%Z) with false
      by (symmetry; apply andb_false_iff; rewrite !Z.leb_gt; lia).
    replace (Z.max 2 (m7 - 1) <=? 0)%Z with false
      by (symmetry; apply Z.leb_gt; lia).
    reflexivity. }
  unfold adjusted_confidence.
  change (ensemble_loop [(99999%Z, mkTF n rate 0.00)] 0 0) with (0, 0).
  cbv iota beta.
  change (Py.Qltb 0 0) with false. cbv iota.
  change (get_success [(99999%Z, mkTF n rate 0.00)] 7 0.5) with 0.5.
  change (get_success [(99999%Z, mkTF n rate 0.00)] 30 0.5) with 0.5.
  change (get_success [(99999%Z, mkTF n rate 0.00)] 365 0.5) with 0.5.
  change (get_matches [(99999%Z, mkTF n rate 0.00)] 7) with 0%nat.
  change (get_matches [(99999%Z, mkTF n rate 0.00)] 30) with 0%nat.
  change (trend_of (0.5 - 0.5) (0.5 - 0.5)) with (stable, 0.0).
  change (consistency_of []) with (high, 0.01, 0).
  rewrite S.
  eexists (mkDebug _ _ _ _ _ _ _ _ _ _ _ _ _ _ _ _ _).
  split; [reflexivity|]. simpl.
  repeat split; reflexivity.
Qed.

(** C10, as stated, fails: a single record 730 days and 12 hours before
    the as-of date is older than every positive-weight window of the
    default table, so all of them are empty although the corpus has a
    record before the date; its age in whole days is 730, not more, the
    all-history window is not added, and the call leaves through the
    no-data exit with 0.5. *)
Lemma zero_weight_claim_fails :
  (exists r, In r Samples.two_years_and_a_half_day
             /\ (Date r < Samples.asof - timedelta 730)%Z) /\
  (forall days w, In (days, w) default_timeframes ->
                  tf_data Samples.two_years_and_a_half_day Samples.asof days = []) /\
  calculate_multi_timeframe_confidence Samples.two_years_and_a_half_day
    Samples.asof Samples.home_over_1_5_goals 3 10 None true
  = (0.5, NoHistoricalData).
Proof.
  split; [| split].
  - eexists. split; [left; reflexivity | reflexivity].
  - intros days w H. simpl in H.
    repeat (destruct H as [H | H]; [injection H as <- <-; reflexivity |]).
    destruct H.
  - reflexivity.
Qed.

(** C10 (amended).  With the default weight table and [use_all_history]
    on, if some record lies more than 730 whole days before the as-of
    date, every window of positive weight is empty and the two minimums
    are not both zero or negative, then the call does not leave through
    the no-data exit: only the zero-weight all-history window is in
    [timeframe_results], the total used weight is 0, the ensemble value
    is exactly 0.5, the trend is stable (0), the consistency high
    (+0.01), the sample insufficient (-0.05), and [final_confidence] is
    0.46. *)
Theorem zero_weight_history_only (data : DataFrame) (d : datetime)
    (fn : MatchRow -> bool) (m7 m30 : Z) (ct : option Timeframes) :
  (ct = None \/ ct = Some []) ->
  (exists r, In r data /\ (730 < timedelta_days (d - Date r))%Z) ->
  (forall days w, In (days, w) default_timeframes -> tf_data data d days = []) ->
  (0 < m7 \/ 0 < m30)%Z ->
  exists dbg,
    calculate_multi_timeframe_confidence data d fn m7 m30 ct true
      = (final_confidence dbg, Debug dbg)
    /\ final_confidence dbg == 0.46
    /\ ensemble_confidence dbg = 0.5
    /\ (trend dbg, trend_adjustment dbg) = (stable, 0.0)
    /\ (consistency dbg, consistency_adjustment dbg) = (high, 0.01)
    /\ (sample_quality dbg, sample_adjustment dbg) = (insufficient, -0.05)
    /\ Py.keys (timeframe_results dbg) = [99999%Z]
    /\ snd (ensemble_loop (timeframe_results dbg) 0 0) = 0.
Proof.
  intros C (r & I & Old) E M.
  assert (A : all_history_added data d = true)
    by (apply all_history_added_iff; now exists r).
  assert (T : timeframes data d ct true
              = default_timeframes ++ [(99999%Z, 0.00)]).
  { rewrite timeframes_all_history, A. now destruct C as [-> | ->]. }
  assert (Before : (Date r < d)%Z).
  { destruct (Z.lt_ge_cases (Date r) d) as [L | G]; trivial. exfalso.
    assert (timedelta_days (d - Date r) <= 0)%Z; [| lia].
    unfold timedelta_days, seconds_per_day.
    apply Z.div_le_upper_bound; lia. }
  assert (N : (0 <? List.length (tf_data data d 99999))%nat = true).
  { apply Nat.ltb_lt. unfold tf_data. simpl.
    assert (J : In r (filter (fun x => (Date x <? d)%Z) data))
      by (apply filter_In; split; trivial; now apply Z.ltb_lt).
    destruct (filter _ data); [destruct J | simpl; lia]. }
  unfold calculate_multi_timeframe_confidence.
  rewrite T, timeframe_loop_app, (timeframe_loop_empty data d fn _ E [] []).
  simpl fst. simpl snd. cbn [timeframe_loop]. rewrite N.
  change (Py.Qltb 0 0.00) with false. cbv iota. cbn [Py.set].
  destruct (adjusted_confidence_zero_weight
              (List.length (tf_data data d 99999))
              (success_rate fn (tf_data data d 99999)) m7 m30 M)
    as (dbg & -> & F & En & Tr & Cn & Sa & R).
  exists dbg. repeat split; trivial; rewrite R; reflexivity.
Qed.

Lemma zero_weight_history_only_witness :
  (@None Timeframes = None \/ @None Timeframes = Some []) /\
  (exists r, In r Samples.long_ago
             /\ (730 < timedelta_days (Samples.asof - Date r))%Z) /\
  (forall days w, In (days, w) default_timeframes ->
                  tf_data Samples.long_ago Samples.asof days = []) /\
  (0 < 3 \/ 0 < 10)%Z /\
  exists dbg,
    calculate_multi_timeframe_confidence Samples.long_ago Samples.asof
      Samples.home_over_1_5_goals 3 10 None true
      = (final_confidence dbg, Debug dbg)
    /\ final_confidence dbg == 0.46
    /\ ensemble_confidence dbg = 0.5
    /\ (trend dbg, trend_adjustment dbg) = (stable, 0.0)
    /\ (consistency dbg, consistency_adjustment dbg) = (high, 0.01)
    /\ (sample_quality dbg, sample_adjustment dbg) = (insufficient, -0.05)
    /\ Py.keys (timeframe_results dbg) = [99999%Z]
    /\ snd (ensemble_loop (timeframe_results dbg) 0 0) = 0.
Proof.
  assert (C : @None Timeframes = None \/ @None Timeframes = Some [])
    by (left; reflexivity).
  assert (O : exists r, In r Samples.long_ago
             /\ (730 < timedelta_days (Samples.asof - Date r))%Z).
  { eexists. split; [left; reflexivity | reflexivity]. }
  assert (E : forall days w, In (days, w) default_timeframes ->
                  tf_data Samples.long_ago Samples.asof days = []).
  { intros days w H. simpl in H.
    repeat (destruct H as [H | H]; [injection H as <- <-; reflexivity |]).
    destruct H. }
  assert (M : (0 < 3 \/ 0 < 10)%Z) by (left; reflexivity).
  split; [exact C | split; [exact O | split; [exact E | split; [exact M |]]]].
  exact (zero_weight_history_only Samples.long_ago Samples.asof
           Samples.home_over_1_5_goals 3%Z 10%Z None C O E M).
Defined.

(** *** Risk adjustment *)

Lemma distinct_NoDup (names : list string) :
  distinct names = true -> NoDup names.
Proof.
  induction names as [|n rest IH]; simpl; intro H; constructor.
  - apply andb_prop in H. destruct H as [H _].
    apply negb_true_iff in H. intro I.
    assert (existsb (String.eqb n) rest = true); [| congruence].
    apply existsb_exists. exists n. split; trivial. apply String.eqb_refl.
  - apply IH. now apply andb_prop in H.
Qed.

Lemma in_unique_get (V : Type) (d : Py.dict string V) (k : string) (v : V) :
  NoDup (Py.keys d) -> In (k, v) d -> Py.get String.eqb d k = Some v.
Proof.
  induction d as [|[k' v'] d IH]; simpl; intros U I; [destruct I|].
  inversion U as [|? ? N U']; subst.
  destruct I as [[= -> ->] | I].
  - now rewrite String.eqb_refl.
  - destruct (String.eqb k k') eqn:E; [| now apply IH].
    apply String.eqb_eq in E. subst k'. exfalso. apply N.
    change k with (fst (k, v)). now apply in_map.
Qed.

Lemma penalty_names_distinct :
  NoDup (Py.keys RiskAdjustment.PATTERN_RISK_PENALTIES).
Proof. apply distinct_NoDup. vm_compute. reflexivity. Qed.

(** C6, as stated, fails: the registered Romanian pattern
    [home_over_3_5_cards] is no key of the table, the key
    [over_3_5_cards] (penalty 0.04) occurs in it, and the code still
    subtracts the default 0.05. *)
Lemma risk_penalty_claim_fails :
  claimed_penalty "home_over_3_5_cards" 0.04 /\
  RiskAdjustment.get_pattern_risk_penalty "home_over_3_5_cards" = 0.05 /\
  RiskAdjustment.get_pattern_category "home_over_3_5_cards" = "cards"%string /\
  ~ (forall c n p,
       claimed_penalty n p ->
       RiskAdjustment.calculate_risk_adjusted_confidence c n
       == Py.clamp01 (c - p)).
Proof.
  assert (C : claimed_penalty "home_over_3_5_cards" 0.04).
  { apply penalty_by_substring with (table_key := "over_3_5_cards"%string);
      reflexivity. }
  split; [exact C | split; [reflexivity | split; [reflexivity |]]].
  intro H. specialize (H 0.80 _ _ C). vm_compute in H. discriminate.
Qed.

(** C6 (amended).  [calculate_risk_adjusted_confidence] returns the
    confidence minus the penalty, clamped to [0,1]; the penalty is the
    table entry whose key is exactly the pattern name, and the default
    0.05 for every name that is not a key of the table (no substring or
    category match takes part). *)
Theorem risk_adjusted_by_exact_name (c : Q) (pattern_name : string) :
  let r := RiskAdjustment.calculate_risk_adjusted_confidence c pattern_name in
  let penalty := RiskAdjustment.get_pattern_risk_penalty pattern_name in
  (forall p, In (pattern_name, p) RiskAdjustment.PATTERN_RISK_PENALTIES ->
             penalty = p) /\
  (~ In pattern_name (Py.keys RiskAdjustment.PATTERN_RISK_PENALTIES) ->
   penalty = 0.05) /\
  0 <= r <= 1 /\
  (c - penalty <= 0 -> r == 0) /\
  (0 <= c - penalty <= 1 -> r == c - penalty) /\
  (1 <= c - penalty -> r == 1).
Proof.
  intros r penalty. subst r penalty.
  unfold RiskAdjustment.calculate_risk_adjusted_confidence.
  repeat split.
  - intros p I. unfold RiskAdjustment.get_pattern_risk_penalty.
    now rewrite (in_unique_get Q _ _ _ penalty_names_distinct I).
  - intro N. unfold RiskAdjustment.get_pattern_risk_penalty.
    apply (get_none_iff string Q String.eqb Seqb_eq) in N. now rewrite N.
  - apply clamp01_range.
  - apply clamp01_range.
  - apply clamp01_cases.
  - apply clamp01_cases.
  - apply clamp01_cases.
Qed.

(** *** The pattern registry *)

Lemma post_init_cases (n : string) (c : Registry.PatternCategory)
    (o : Registry.Object) (t : Q) (m : Z) (descr : string) :
  (exists f, o = Registry.function f
             /\ Registry.post_init n c o t m descr
                = Registry.Ok (Registry.mkPattern n c f t m descr)
             /\ 0 <= t <= 1 /\ (1 <= m)%Z)
  \/ ((exists e, Registry.post_init n c o t m descr = Registry.Raise e)
      /\ (Registry.callable o = false \/ ~ (0 <= t <= 1) \/ (m < 1)%Z)).
Proof.
  unfold Registry.post_init. destruct o as [f|]; simpl.
  - destruct (Qle_bool 0.0 t) eqn:T0;
      [destruct (Qle_bool t 1.0) eqn:T1 |]; simpl.
    + apply Qle_bool_iff in T0, T1.
      destruct (m <? 1)%Z eqn:M.
      * right. apply Z.ltb_lt in M. split; [eauto | tauto].
      * left. apply Z.ltb_ge in M. exists f. repeat split; trivial; lra.
    + right. apply Qle_bool_false in T1. split; [eauto | right; left].
      intros [_ H]. lra.
    + right. apply Qle_bool_false in T0. split; [eauto | right; left].
      intros [H _]. lra.
  - right. split; [eauto | now left].
Qed.

Lemma register_cases (self : Registry.PatternRegistry) (p : Registry.Pattern) :
  (Registry.register self p
     = Registry.Ok (Py.set String.eqb self (Registry.name p) p)
   /\ ~ In (Registry.name p) (Registry.list_patterns self))
  \/ (Registry.register self p = Registry.Raise Registry.is_already_registered
      /\ In (Registry.name p) (Registry.list_patterns self)).
Proof.
  unfold Registry.register, Registry.list_patterns.
  destruct (Py.contains String.eqb self (Registry.name p)) eqn:C.
  - right. split; trivial.
    now apply (contains_iff string Registry.Pattern String.eqb Seqb_eq).
  - left. split; trivial. intro I.
    apply (contains_iff string Registry.Pattern String.eqb Seqb_eq) in I.
    congruence.
Qed.

Lemma register_again (self : Registry.PatternRegistry)
    (p p' : Registry.Pattern) :
  Registry.name p' = Registry.name p ->
  Registry.register (Py.set String.eqb self (Registry.name p) p) p'
  = Registry.Raise Registry.is_already_registered.
Proof.
  intro E. unfold Registry.register, Py.contains. rewrite E.
  now rewrite (get_set_same string Registry.Pattern String.eqb Seqb_eq).
Qed.

(** C7, as stated, fails: with a fresh name, the default threshold 0.65
    and 20 minimum matches, building the pattern raises a [ValueError]
    all the same when the object passed as [label_fn] is not callable;
    none of the three causes the claim names holds. *)
Lemma register_claim_fails :
  Registry.register_pattern Registry.empty "home_over_1_5_goals"
    Registry.GOALS Registry.not_callable 0.65 20
    "Home team scores over 1.5 goals"
  = Registry.Raise Registry.label_fn_must_be_callable
  /\ ~ ((exists e,
           Registry.register_pattern Registry.empty "home_over_1_5_goals"
             Registry.GOALS Registry.not_callable 0.65 20
             "Home team scores over 1.5 goals" = Registry.Raise e)
        <-> (In "home_over_1_5_goals"%string
               (Registry.list_patterns Registry.empty)
             \/ ~ (0 <= 0.65 <= 1)
             \/ (20 < 1)%Z)).
Proof.
  split; [reflexivity |].
  intros [H _].
  destruct H as [I | [T | M]].
  - eexists. reflexivity.
  - destruct I.
  - apply T. split; discriminate.
  - lia.
Qed.

(** C7 (amended).  Building a [Pattern] raises a [ValueError] exactly
    when the object given as [label_fn] is not callable, the default
    threshold lies outside [0,1], or [min_matches] is below 1;
    [register] raises exactly when the name of the pattern is already
    registered; so building a pattern and registering it raises exactly
    in these four cases.  A registration that succeeds stores the
    pattern under its name, and every later registration of that name
    raises. *)
Theorem register_raises_iff (self : Registry.PatternRegistry)
    (p : Registry.Pattern) (n : string)
    (c : Registry.PatternCategory) (o : Registry.Object) (threshold : Q)
    (min_m : Z) (descr : string) :
  ((exists e, Registry.post_init n c o threshold min_m descr = Registry.Raise e)
   <-> (Registry.callable o = false
        \/ ~ (0 <= threshold <= 1)
        \/ (min_m < 1)%Z))
  /\ ((exists e, Registry.register self p = Registry.Raise e)
      <-> In (Registry.name p) (Registry.list_patterns self))
  /\ ((exists e, Registry.register_pattern self n c o threshold min_m descr
                 = Registry.Raise e)
      <-> (In n (Registry.list_patterns self)
           \/ Registry.callable o = false
           \/ ~ (0 <= threshold <= 1)
           \/ (min_m < 1)%Z))
  /\ (forall self',
        Registry.register self p = Registry.Ok self' ->
        Registry.get_pattern self' (Registry.name p) = Some p
        /\ forall p', Registry.name p' = Registry.name p ->
                      exists e, Registry.register self' p' = Registry.Raise e)
  /\ (forall self',
        Registry.register_pattern self n c o threshold min_m descr
          = Registry.Ok self' ->
        (exists f, o = Registry.function f
                   /\ Registry.get_pattern self' n
                      = Some (Registry.mkPattern n c f threshold min_m descr))
        /\ forall c' o' threshold' min_m' descr',
             exists e, Registry.register_pattern self' n c' o' threshold'
                         min_m' descr' = Registry.Raise e).
Proof.
  assert (New : (exists e, Registry.post_init n c o threshold min_m descr
                           = Registry.Raise e)
                <-> (Registry.callable o = false
                     \/ ~ (0 <= threshold <= 1) \/ (min_m < 1)%Z)).
  { destruct (post_init_cases n c o threshold min_m descr)
      as [(f & -> & E & T & M) | (R & B)].
    - rewrite E. split.
      + intros (e & H). discriminate H.
      + intros [H | [H | H]]; [discriminate H | tauto | lia].
    - tauto. }
  assert (Reg : forall q, (exists e, Registry.register self q = Registry.Raise e)
                          <-> In (Registry.name q) (Registry.list_patterns self)).
  { intro q. destruct (register_cases self q) as [(R & N) | (R & I)]; rewrite R.
    - split; [intros (e & H); discriminate H | tauto].
    - split; eauto. }
  split; [exact New | split; [apply Reg | split; [| split]]].
  - unfold Registry.register_pattern.
    destruct (post_init_cases n c o threshold min_m descr)
      as [(f & -> & E & T & M) | ((e & E) & B)]; rewrite E.
    + rewrite Reg. simpl. split; [tauto |].
      intros [H | [H | [H | H]]]; [trivial | discriminate H | tauto | lia].
    + split; [tauto | eauto].
  - intros self' R.
    destruct (register_cases self p) as [(E & _) | (E & _)];
      rewrite E in R; [| discriminate R].
    injection R as <-. split.
    + apply (get_set_same string Registry.Pattern String.eqb Seqb_eq).
    + intros p' N. rewrite (register_again self p p' N). eauto.
  - unfold Registry.register_pattern. intros self' R.
    destruct (post_init_cases n c o threshold min_m descr)
      as [(f & -> & E & _) | ((e & E) & _)]; rewrite E in R;
      [| discriminate R].
    set (q := Registry.mkPattern n c f threshold min_m descr) in *.
    destruct (register_cases self q) as [(E' & _) | (E' & _)];
      rewrite E' in R; [| discriminate R].
    injection R as <-. split.
    + exists f. split; trivial.
      apply (get_set_same string Registry.Pattern String.eqb Seqb_eq).
    + intros c' o' t' m' d'.
      destruct (post_init_cases n c' o' t' m' d')
        as [(f' & -> & F & _) | ((e & F) & _)]; rewrite F; [| eauto].
      cbv beta iota.
      change n with (Registry.name q) at 1.
      rewrite (register_again self q
                 (Registry.mkPattern n c' f' t' m' d') eq_refl).
      eauto.
Qed.

(** *** Best-bet selection: the Romanian predictor *)

Lemma thresholds_positive (n : string) (t : Q) :
  Py.get String.eqb SimpleRomanianPredictor.thresholds n = Some t ->
  0 < t /\ n <> ""%string /\ SimpleRomanianPredictor.threshold_of n = t.
Proof.
  intro H. split; [| split].
  - apply (get_in string Q String.eqb Seqb_eq) in H. simpl in H.
    repeat (destruct H as [H | H]; [injection H as <- <-; reflexivity |]).
    destruct H.
  - intros ->. discriminate H.
  - unfold SimpleRomanianPredictor.threshold_of. now rewrite H.
Qed.

Section RomanianSelection.

Variable registry : Registry.PatternRegistry.
Variable historical_data : DataFrame.
Variable match_date : datetime.
Variable use_ensemble : bool.

Local Abbreviation eval :=
  (evaluation registry historical_data match_date use_ensemble).
Local Abbreviation body :=
  (SimpleRomanianPredictor.loop_body registry historical_data match_date
     use_ensemble).
Local Abbreviation inv :=
  (selected_among registry historical_data match_date use_ensemble).

Lemma loop_body_evaluation (best : SimpleRomanianPredictor.Best) (n : string) :
  body best n =
  match eval n with
  | None => best
  | Some (c, ra, t) =>
      if Qle_bool t ra
         && Py.Qltb (SimpleRomanianPredictor.best_risk_adjusted best) ra
      then SimpleRomanianPredictor.mkBest (Some n) c ra
      else best
  end.
Proof.
  unfold SimpleRomanianPredictor.loop_body, evaluation.
  destruct (Py.get String.eqb SimpleRomanianPredictor.thresholds n); trivial.
  destruct (Registry.get_pattern registry n); trivial.
  destruct (SimpleRomanianPredictor.pattern_confidence _ _ _ _); trivial.
Qed.

Lemma evaluation_threshold (n : string) (c ra t : Q) :
  eval n = Some (c, ra, t) ->
  0 < t /\ n <> ""%string /\ SimpleRomanianPredictor.threshold_of n = t.
Proof.
  unfold evaluation.
  destruct (Py.get String.eqb SimpleRomanianPredictor.thresholds n) as [t'|] eqn:T;
    [| discriminate].
  destruct (Registry.get_pattern registry n); [| discriminate].
  destruct (SimpleRomanianPredictor.pattern_confidence _ _ _ _); [| discriminate].
  intros [= _ _ <-]. now apply thresholds_positive.
Qed.

Lemma selected_step (best : SimpleRomanianPredictor.Best)
    (seen : list string) (n : string) :
  inv best seen -> inv (body best n) (seen ++ [n]).
Proof.
  intro I. rewrite loop_body_evaluation.
  destruct (eval n) as [[[c ra] t]|] eqn:E.
  - destruct (Qle_bool t ra) eqn:C; simpl.
    + apply Qle_bool_iff in C.
      destruct (Py.Qltb (SimpleRomanianPredictor.best_risk_adjusted best) ra) eqn:L.
      * (* the new name takes over *)
        apply Qltb_true in L. unfold selected_among. simpl.
        split; [apply in_or_app; right; now left |].
        split; [exists t; now split |].
        intros n' c' ra' t' J E' C'.
        apply in_app_or in J. destruct J as [J | [<- | []]].
        -- unfold selected_among in I.
           destruct (SimpleRomanianPredictor.best_pattern best).
           ++ destruct I as (_ & _ & M). specialize (M _ _ _ _ J E' C'). lra.
           ++ destruct I as (_ & N). specialize (N _ J).
              unfold candidate in N. rewrite E' in N.
              apply Qle_bool_false in N. lra.
        -- rewrite E in E'. injection E' as <- <- <-. lra.
      * (* a candidate that does not beat the selection *)
        apply Qltb_false in L. unfold selected_among in *.
        destruct (SimpleRomanianPredictor.best_pattern best).
        -- destruct I as (J & X & M).
           split; [apply in_or_app; now left | split; trivial].
           intros n' c' ra' t' J' E' C'.
           apply in_app_or in J'. destruct J' as [J' | [<- | []]].
           ++ now apply (M _ _ _ _ J' E' C').
           ++ rewrite E in E'. injection E' as <- <- <-. exact L.
        -- exfalso. destruct I as (Z0 & _).
           destruct (evaluation_threshold _ _ _ _ E) as (P & _). lra.
    + (* not a candidate *)
      unfold selected_among in *.
      destruct (SimpleRomanianPredictor.best_pattern best).
      * destruct I as (J & X & M).
        split; [apply in_or_app; now left | split; trivial].
        intros n' c' ra' t' J' E' C'.
        apply in_app_or in J'. destruct J' as [J' | [<- | []]].
        -- now apply (M _ _ _ _ J' E' C').
        -- rewrite E in E'. injection E' as <- <- <-.
           apply Qle_bool_false in C. lra.
      * destruct I as (Z0 & N). split; trivial.
        intros n' J'. apply in_app_or in J'. destruct J' as [J' | [<- | []]].
        -- now apply N.
        -- unfold candidate. now rewrite E.
  - (* the name is passed over *)
    unfold selected_among in *.
    destruct (SimpleRomanianPredictor.best_pattern best).
    + destruct I as (J & X & M).
      split; [apply in_or_app; now left | split; trivial].
      intros n' c' ra' t' J' E' C'.
      apply in_app_or in J'. destruct J' as [J' | [<- | []]].
      * now apply (M _ _ _ _ J' E' C').
      * rewrite E in E'. discriminate E'.
    + destruct I as (Z0 & N). split; trivial.
      intros n' J'. apply in_app_or in J'. destruct J' as [J' | [<- | []]].
      * now apply N.
      * unfold candidate. now rewrite E.
Qed.

Lemma selected_fold (names : list string) :
  forall best seen,
    inv best seen -> inv (fold_left body names best) (seen ++ names).
Proof.
  induction names as [|n names IH]; intros best seen I; simpl.
  - now rewrite app_nil_r.
  - replace (seen ++ n :: names) with ((seen ++ [n]) ++ names)
      by (now rewrite <- app_assoc).
    apply IH. now apply selected_step.
Qed.

(** The selection of the Romanian predictor. *)
Lemma romanian_selection (home_team away_team : string) :
  let r := SimpleRomanianPredictor.predict_match registry home_team away_team
             historical_data match_date use_ensemble in
  (r = None <->
   forall n, In n (Registry.list_patterns registry) ->
             candidate registry historical_data match_date use_ensemble n = false)
  /\ (forall b, r = Some b ->
        In (pattern_name b) (Registry.list_patterns registry)
        /\ eval (pattern_name b)
           = Some (confidence b, risk_adjusted_confidence b, threshold b)
        /\ threshold b <= risk_adjusted_confidence b
        /\ forall n c ra t,
             In n (Registry.list_patterns registry) ->
             eval n = Some (c, ra, t) -> t <= ra ->
             ra <= risk_adjusted_confidence b).
Proof.
  intro r. subst r. unfold SimpleRomanianPredictor.predict_match.
  assert (I0 : inv (SimpleRomanianPredictor.mkBest None 0.0 0.0) []).
  { unfold selected_among. simpl. split; [reflexivity | tauto]. }
  pose proof (selected_fold (Registry.list_patterns registry) _ _ I0) as I.
  simpl in I. unfold selected_among in I.
  destruct (fold_left body (Registry.list_patterns registry) _)
    as [[n|] bc bra]; simpl in *.
  - destruct I as (J & (t & E & C) & M).
    destruct (evaluation_threshold _ _ _ _ E) as (_ & Ne & Th).
    apply String.eqb_neq in Ne. rewrite Ne. split.
    + split; [discriminate |].
      intro N. specialize (N n J). unfold candidate in N. rewrite E in N.
      apply Qle_bool_false in N. lra.
    + intros b [= <-]. simpl. rewrite Th. repeat split; trivial.
  - destruct I as (_ & N). split.
    + split; trivial.
    + intros b B. discriminate B.
Qed.

End RomanianSelection.

(** *** Best-bet selection: the Premier League predictor *)

Lemma insert_desc_in (x p : SimplePremierLeaguePredictor.Prediction)
    (l : list SimplePremierLeaguePredictor.Prediction) :
  In p (SimplePremierLeaguePredictor.insert_desc x l) <-> p = x \/ In p l.
Proof.
  induction l as [|y l IH]; simpl.
  - intuition.
  - destruct (Qle_bool _ _); simpl; [intuition | rewrite IH; intuition].
Qed.

Lemma sort_desc_in (p : SimplePremierLeaguePredictor.Prediction)
    (l : list SimplePremierLeaguePredictor.Prediction) :
  In p (SimplePremierLeaguePredictor.sort_desc l) <-> In p l.
Proof.
  induction l as [|x l IH]; simpl; [tauto|].
  rewrite insert_desc_in, IH. intuition.
Qed.

Lemma max_by_key_spec (rest : list SimplePremierLeaguePredictor.Prediction) :
  forall first,
    let m := SimplePremierLeaguePredictor.max_by_key first rest in
    In m (first :: rest) /\
    forall p, In p (first :: rest) ->
              SimplePremierLeaguePredictor.key p
              <= SimplePremierLeaguePredictor.key m.
Proof.
  unfold SimplePremierLeaguePredictor.max_by_key.
  induction rest as [|x rest IH]; intro first; cbn zeta; simpl.
  - split; [now left |]. intros p [<- | []]. lra.
  - destruct (IH (if Py.Qltb (SimplePremierLeaguePredictor.key first)
                               (SimplePremierLeaguePredictor.key x)
                  then x else first)) as [I M].
    cbn zeta in I, M.
    destruct (Py.Qltb (SimplePremierLeaguePredictor.key first)
                      (SimplePremierLeaguePredictor.key x)) eqn:L.
    + apply Qltb_true in L. split.
      * destruct I as [<- | I]; [right; now left | right; now right].
      * intros p [<- | [<- | J]].
        -- specialize (M x (or_introl eq_refl)). lra.
        -- apply M. now left.
        -- apply M. now right.
    + apply Qltb_false in L. split.
      * destruct I as [<- | I]; [now left | right; now right].
      * intros p [<- | [<- | J]].
        -- apply M. now left.
        -- specialize (M first (or_introl eq_refl)). lra.
        -- apply M. now right.
Qed.

Lemma recommended_in (p : SimplePremierLeaguePredictor.Prediction)
    (evaluated : list SimplePremierLeaguePredictor.Evaluated) :
  In p (flat_map SimplePremierLeaguePredictor.recommend evaluated) <->
  exists e, In e (filter pl_candidate evaluated)
            /\ p = SimplePremierLeaguePredictor.mkPrediction
                     (SimplePremierLeaguePredictor.ev_pattern e)
                     (SimplePremierLeaguePredictor.ev_confidence e)
                     (SimplePremierLeaguePredictor.ev_adjusted_threshold e)
                     None.
Proof.
  rewrite in_flat_map. split.
  - intros (e & I & J). exists e.
    unfold SimplePremierLeaguePredictor.recommend in J.
    rewrite filter_In. unfold pl_candidate.
    destruct (Qle_bool _ _); [| destruct J].
    destruct J as [<- | []]. auto.
  - intros (e & I & ->). apply filter_In in I. destruct I as [I C].
    exists e. split; trivial.
    unfold SimplePremierLeaguePredictor.recommend.
    unfold pl_candidate in C. rewrite C. now left.
Qed.

(** The selection of the Premier League predictor, past its two early
    exits. *)
Lemma premier_league_selection (lookback_len team_matches_len : nat)
    (evaluated : list SimplePremierLeaguePredictor.Evaluated) :
  lookback_len <> 0%nat -> (3 <= team_matches_len)%nat ->
  let r := SimplePremierLeaguePredictor.predict lookback_len team_matches_len
             evaluated in
  (r = SimplePremierLeaguePredictor.ReturnNone
   <-> filter pl_candidate evaluated = [])
  /\ (forall b, r = SimplePremierLeaguePredictor.ReturnBestBet b ->
        exists e, In e (filter pl_candidate evaluated)
                  /\ b = pl_best_bet e
                  /\ forall e', In e' (filter pl_candidate evaluated) ->
                                pl_risk_adjusted e' <= risk_adjusted_confidence b).
Proof.
  intros L T r. subst r. unfold SimplePremierLeaguePredictor.predict.
  apply Nat.eqb_neq in L. rewrite L.
  replace (team_matches_len <? 3)%nat with false
    by (symmetry; apply Nat.ltb_ge; lia).
  set (sorted := SimplePremierLeaguePredictor.sort_desc
                   (flat_map SimplePremierLeaguePredictor.recommend evaluated)).
  assert (S : forall p, In p sorted <->
              exists e, In e (filter pl_candidate evaluated)
                /\ p = SimplePremierLeaguePredictor.mkPrediction
                         (SimplePremierLeaguePredictor.ev_pattern e)
                         (SimplePremierLeaguePredictor.ev_confidence e)
                         (SimplePremierLeaguePredictor.ev_adjusted_threshold e)
                         None).
  { intro p. unfold sorted. now rewrite sort_desc_in, recommended_in. }
  destruct (map SimplePremierLeaguePredictor.add_risk_adjusted sorted)
    as [|p ps] eqn:E.
  - split; [| intros b B; discriminate B].
    split; trivial. intros _.
    destruct (filter pl_candidate evaluated) as [|e l] eqn:F; trivial.
    exfalso. apply map_eq_nil in E.
    assert (J : In (SimplePremierLeaguePredictor.mkPrediction
                      (SimplePremierLeaguePredictor.ev_pattern e)
                      (SimplePremierLeaguePredictor.ev_confidence e)
                      (SimplePremierLeaguePredictor.ev_adjusted_threshold e)
                      None) sorted)
      by (apply S; exists e; split; [now left | reflexivity]).
    rewrite E in J. destruct J.
  - destruct (max_by_key_spec ps p) as [I M]. cbn zeta in I, M.
    rewrite <- E in I, M.
    apply in_map_iff in I. destruct I as (q & Q & I).
    apply S in I. destruct I as (e & I & ->).
    split.
    + split; [discriminate |]. intro F. rewrite F in I. destruct I.
    + intros b [= <-]. exists e. split; trivial.
      rewrite <- Q. split; [reflexivity |].
      intros e' I'. simpl.
      assert (J : In (SimplePremierLeaguePredictor.add_risk_adjusted
                        (SimplePremierLeaguePredictor.mkPrediction
                           (SimplePremierLeaguePredictor.ev_pattern e')
                           (SimplePremierLeaguePredictor.ev_confidence e')
                           (SimplePremierLeaguePredictor.ev_adjusted_threshold e')
                           None))
                     (map SimplePremierLeaguePredictor.add_risk_adjusted sorted)).
      { apply in_map. apply S. now exists e'. }
      specialize (M _ J). rewrite <- Q in M. exact M.
Qed.

(** C2 fails on the Premier League predictor.  A goals pattern at 70%
    against a threshold of 65% is recommended and returned as the best
    bet although its risk-adjusted confidence, 64%, is below the
    threshold: line 351 compares the confidence before the risk
    penalty, where [SimpleRomanianPredictor.predict_match] (line 130)
    and the backtest (line 120) compare the risk-adjusted one.  And
    when the two teams have fewer than three matches in the lookback
    window, the result is the empty list of line 291, not [None]. *)
Lemma best_bet_claim_fails :
  (exists b,
     SimplePremierLeaguePredictor.predict 10 5 Samples.narrow_goals
       = SimplePremierLeaguePredictor.ReturnBestBet b
     /\ pattern_name b = "total_over_2_5_goals"%string
     /\ risk_adjusted_confidence b == 0.64
     /\ threshold b == 0.65
     /\ risk_adjusted_confidence b < threshold b)
  /\ SimplePremierLeaguePredictor.predict 10 2 Samples.narrow_goals
     = SimplePremierLeaguePredictor.ReturnEmptyList.
Proof.
  split; [| reflexivity].
  eexists. split; [reflexivity |]. simpl.
  split; [reflexivity |]. split; [reflexivity |]. split; reflexivity.
Qed.

(** Scenario C of the specification: at equal raw confidence the
    corners pattern (penalty 0.02) is chosen over the goals pattern
    (penalty 0.06). *)
Example scenario_c_picks_corners :
  exists b,
    SimplePremierLeaguePredictor.predict 10 5 Samples.scenario_c
      = SimplePremierLeaguePredictor.ReturnBestBet b
    /\ pattern_name b = "home_over_2_5_corners"%string
    /\ risk_adjusted_confidence b == 0.78.
Proof.
  eexists. split; [reflexivity |]. split; reflexivity.
Qed.

(** The Romanian predictor on the six recent matches: four of six home
    sides scored twice, the sample is insufficient, no bet. *)
Example romanian_no_bet :
  SimpleRomanianPredictor.predict_match Samples.one_pattern "FCSB" "CFR Cluj"
    Samples.recent_corpus Samples.asof true = None.
Proof. vm_compute. reflexivity. Qed.

(** *** Determinism *)

(** C9 fails on the heuristic fallback: two evaluations of
    [_estimate_confidence_heuristic] on the same match, pattern name
    and history return 0.5 and 0.55 when the generator yields 0 and
    then 0.05, and the generator has moved on by two draws. *)
Lemma determinism_claim_fails :
  fst (two_evaluations
         (RomanianMatchPredictor._estimate_confidence_heuristic
            (Samples.row_on 1000 0 0) "home_over_1_5_goals"
            Samples.recent_corpus)
         Samples.generator)
    = (0.50 + 0, 0.50 + 0.05)
  /\ ~ (0.50 + 0 == 0.50 + 0.05)
  /\ RomanianMatchPredictor.drawn
       (snd (two_evaluations
               (RomanianMatchPredictor._estimate_confidence_heuristic
                  (Samples.row_on 1000 0 0) "home_over_1_5_goals"
                  Samples.recent_corpus)
               Samples.generator)) = 2%nat.
Proof.
  split; [reflexivity | split; [| reflexivity]].
  intro H. vm_compute in H. discriminate H.
Qed.

(** The draw decides the recommendation: against a threshold of 0.52
    the same match and pattern are first no bet (confidence 0.50) and
    then a bet (confidence 0.55, expected value 0.21 at odds 2.20). *)
Example recommendation_follows_the_draw :
  let call := RomanianMatchPredictor.fallback_recommendation
                (Samples.row_on 1000 0 0) "total_over_2_5_goals"
                Samples.recent_corpus 0.52 in
  snd (fst (fst (two_evaluations call Samples.generator)))
    = RomanianMatchPredictor.NO_BET
  /\ snd (snd (fst (two_evaluations call Samples.generator)))
     = RomanianMatchPredictor.BET.
Proof. split; reflexivity. Qed.

End Claims.

(** * Further properties of the modelled code *)

Module Extras.

Import Confidence Spec PyFacts ConfidenceFacts Claims.
Open Scope Q_scope.

(** ** The engine and the corpus *)

Lemma tf_data_earlier_rows (data : DataFrame) (d : datetime) (days : Z) :
  tf_data (filter (fun r => (Date r <? d)%Z) data) d days = tf_data data d days.
Proof.
  unfold tf_data. destruct (days =? 99999)%Z;
    induction data as [|r data IH]; simpl; trivial;
    destruct (Date r <? d)%Z eqn:B; simpl; rewrite ?B, ?andb_false_r;
    simpl; now rewrite ?IH.
Qed.

Lemma old_row_is_earlier (d : datetime) (r : MatchRow) :
  (730 < timedelta_days (d - Date r))%Z -> (Date r < d)%Z.
Proof.
  intro O. destruct (Z.lt_ge_cases (Date r) d) as [L | G]; trivial. exfalso.
  assert (timedelta_days (d - Date r) <= 0)%Z; [| lia].
  unfold timedelta_days, seconds_per_day. apply Z.div_le_upper_bound; lia.
Qed.

Lemma all_history_added_earlier_rows (data : DataFrame) (d : datetime) :
  all_history_added (filter (fun r => (Date r <? d)%Z) data) d
  = all_history_added data d.
Proof.
  apply eq_true_iff_eq. rewrite !all_history_added_iff.
  split; intros (r & I & O).
  - apply filter_In in I. exists r. tauto.
  - exists r. split; trivial. apply filter_In. split; trivial.
    apply Z.ltb_lt. now apply old_row_is_earlier.
Qed.

(** X1.  The engine reads only the rows dated strictly before the as-of
    date, wherever they stand in the frame: dropping every other row
    leaves the confidence and the whole breakdown unchanged. *)
Theorem engine_reads_earlier_rows_only (data : DataFrame) (d : datetime)
    (fn : MatchRow -> bool) (m7 m30 : Z) (ct : option Timeframes)
    (uah : bool) :
  calculate_multi_timeframe_confidence
    (filter (fun r => (Date r <? d)%Z) data) d fn m7 m30 ct uah
  = calculate_multi_timeframe_confidence data d fn m7 m30 ct uah.
Proof.
  unfold calculate_multi_timeframe_confidence.
  rewrite !timeframes_all_history, all_history_added_earlier_rows.
  rewrite (timeframe_loop_windows
             (filter (fun r => (Date r <? d)%Z) data) data d fn); trivial.
  intro days. apply tf_data_earlier_rows.
Qed.

(** *** Row order *)

Lemma filter_permutation (f : MatchRow -> bool) (l l' : DataFrame) :
  Permutation l l' -> Permutation (filter f l) (filter f l').
Proof.
  induction 1 as [| x l l' _ IH | x y l | l l' l'' _ IH1 _ IH2]; simpl.
  - constructor.
  - destruct (f x); [now constructor | trivial].
  - destruct (f x), (f y); try apply Permutation_refl. constructor.
  - now transitivity (filter f l').
Qed.

Lemma tf_data_permutation (data data' : DataFrame) (d : datetime) (days : Z) :
  Permutation data data' ->
  Permutation (tf_data data d days) (tf_data data' d days).
Proof.
  intro P. unfold tf_data.
  destruct (days =? 99999)%Z; now apply filter_permutation.
Qed.

Lemma success_rate_permutation (fn : MatchRow -> bool) (l l' : DataFrame) :
  Permutation l l' -> success_rate fn l = success_rate fn l'.
Proof.
  intro P. unfold success_rate.
  rewrite (Permutation_length (filter_permutation fn l l' P)).
  now rewrite (Permutation_length P).
Qed.

Lemma all_history_added_permutation (data data' : DataFrame) (d : datetime) :
  Permutation data data' ->
  all_history_added data d = all_history_added data' d.
Proof.
  intro P. apply eq_true_iff_eq. rewrite !all_history_added_iff.
  split; intros (r & I & O); exists r; split; trivial.
  - now apply (Permutation_in r P).
  - now apply (Permutation_in r (Permutation_sym P)).
Qed.

Lemma timeframe_loop_counts (data data' : DataFrame) (d : datetime)
    (fn : MatchRow -> bool) (tfs : Timeframes) :
  (forall days,
      List.length (tf_data data d days) = List.length (tf_data data' d days)
      /\ success_rate fn (tf_data data d days)
         = success_rate fn (tf_data data' d days)) ->
  forall results confidences,
    timeframe_loop data d fn tfs results confidences
    = timeframe_loop data' d fn tfs results confidences.
Proof.
  intro W. induction tfs as [|[days w] tfs IH]; intros; simpl; trivial.
  destruct (W days) as [<- <-].
  destruct (0 <? List.length (tf_data data d days))%nat; apply IH.
Qed.

(** X2.  The order of the rows of the corpus does not matter: two
    frames with the same rows in a different order give the same
    confidence and the same breakdown. *)
Theorem engine_ignores_row_order (data data' : DataFrame) (d : datetime)
    (fn : MatchRow -> bool) (m7 m30 : Z) (ct : option Timeframes)
    (uah : bool) :
  Permutation data data' ->
  calculate_multi_timeframe_confidence data d fn m7 m30 ct uah
  = calculate_multi_timeframe_confidence data' d fn m7 m30 ct uah.
Proof.
  intro P. unfold calculate_multi_timeframe_confidence.
  rewrite !timeframes_all_history, (all_history_added_permutation data data' d P).
  rewrite (timeframe_loop_counts data data' d fn); trivial.
  intro days. pose proof (tf_data_permutation data data' d days P) as Q.
  split; [now apply Permutation_length | now apply success_rate_permutation].
Qed.

Lemma engine_ignores_row_order_witness :
  Permutation Samples.recent_corpus (rev Samples.recent_corpus) /\
  calculate_multi_timeframe_confidence Samples.recent_corpus Samples.asof
    Samples.home_over_1_5_goals 3 10 None true
  = calculate_multi_timeframe_confidence (rev Samples.recent_corpus)
      Samples.asof Samples.home_over_1_5_goals 3 10 None true.
Proof.
  assert (P : Permutation Samples.recent_corpus (rev Samples.recent_corpus))
    by apply Permutation_rev.
  split; [exact P |].
  exact (engine_ignores_row_order Samples.recent_corpus
           (rev Samples.recent_corpus) Samples.asof
           Samples.home_over_1_5_goals 3%Z 10%Z None true P).
Defined.

(** *** Custom weight tables *)

Lemma timeframe_loop_table_windows (data data' : DataFrame) (d : datetime)
    (fn : MatchRow -> bool) (tfs : Timeframes) :
  (forall days w, In (days, w) tfs ->
                  tf_data data d days = tf_data data' d days) ->
  forall results confidences,
    timeframe_loop data d fn tfs results confidences
    = timeframe_loop data' d fn tfs results confidences.
Proof.
  induction tfs as [|[days w] tfs IH]; intros W results confidences; simpl;
    trivial.
  rewrite (W days w) by now left.
  destruct (0 <? List.length (tf_data data' d days))%nat;
    apply IH; intros days' w' I; apply (W days' w'); now right.
Qed.

Lemma tf_data_recent_rows (data : DataFrame) (d : datetime) (days longest : Z) :
  days <> 99999%Z -> (days <= longest)%Z ->
  tf_data (filter (fun r => (d - timedelta longest <=? Date r)%Z) data) d days
  = tf_data data d days.
Proof.
  intros N L. unfold tf_data.
  replace (days =? 99999)%Z with false by (symmetry; now apply Z.eqb_neq).
  induction data as [|r data IH]; simpl; trivial.
  destruct (d - timedelta longest <=? Date r)%Z eqn:R; simpl; rewrite IH; trivial.
  replace (d - timedelta days <=? Date r)%Z with false; trivial.
  symmetry. apply Z.leb_gt. apply Z.leb_gt in R.
  unfold timedelta, seconds_per_day in *. lia.
Qed.

(** X3.  With a non-empty custom weight table that has no 99999 key,
    the call never looks further back than its longest window and never
    looks at [use_all_history]: dropping the rows older than the longest
    window, or switching the flag, leaves the confidence and the
    breakdown unchanged. *)
Theorem custom_table_ignores_older_history (data : DataFrame) (d : datetime)
    (fn : MatchRow -> bool) (m7 m30 : Z) (e : Z * Q) (tf : Timeframes)
    (longest : Z) (uah uah' : bool) :
  (forall days w, In (days, w) (e :: tf) ->
                  days <> 99999%Z /\ (days <= longest)%Z) ->
  calculate_multi_timeframe_confidence
    (filter (fun r => (d - timedelta longest <=? Date r)%Z) data)
    d fn m7 m30 (Some (e :: tf)) uah
  = calculate_multi_timeframe_confidence data d fn m7 m30 (Some (e :: tf)) uah'.
Proof.
  intro K. unfold calculate_multi_timeframe_confidence.
  change (timeframes _ d (Some (e :: tf)) uah) with (e :: tf).
  change (timeframes data d (Some (e :: tf)) uah') with (e :: tf).
  rewrite (timeframe_loop_table_windows
             (filter (fun r => (d - timedelta longest <=? Date r)%Z) data)
             data d fn (e :: tf)); trivial.
  intros days w I. destruct (K days w I) as [N L].
  now apply tf_data_recent_rows.
Qed.

Lemma custom_table_ignores_older_history_witness :
  (forall days w,
      In (days, w) SimpleRomanianPredictor.ROMANIAN_TIMEFRAME_WEIGHTS ->
      days <> 99999%Z /\ (days <= 365)%Z) /\
  calculate_multi_timeframe_confidence
    (filter (fun r => (Samples.asof - timedelta 365 <=? Date r)%Z)
       (Samples.last_season ++ Samples.recent_corpus))
    Samples.asof Samples.home_over_1_5_goals 2 8
    (Some SimpleRomanianPredictor.ROMANIAN_TIMEFRAME_WEIGHTS) true
  = calculate_multi_timeframe_confidence
      (Samples.last_season ++ Samples.recent_corpus)
      Samples.asof Samples.home_over_1_5_goals 2 8
      (Some SimpleRomanianPredictor.ROMANIAN_TIMEFRAME_WEIGHTS) false.
Proof.
  assert (K : forall days w,
      In (days, w) SimpleRomanianPredictor.ROMANIAN_TIMEFRAME_WEIGHTS ->
      days <> 99999%Z /\ (days <= 365)%Z).
  { intros days w H. simpl in H.
    repeat (destruct H as [H | H];
            [injection H as <- <-; split; [discriminate | lia] |]).
    destruct H. }
  split; [exact K |].
  exact (custom_table_ignores_older_history
           (Samples.last_season ++ Samples.recent_corpus) Samples.asof
           Samples.home_over_1_5_goals 2%Z 8%Z (7%Z, 0.15)
           [(14%Z, 0.15); (30%Z, 0.20); (90%Z, 0.25); (365%Z, 0.25)]
           365%Z true false K).
Defined.

(** *** Windows *)

(** X4.  Windows are nested: a match of a shorter trailing window is a
    match of every longer one and of the all-history window, so the
    match count never decreases with the length of the window. *)
Theorem windows_are_nested (data : DataFrame) (d : datetime) (days days' : Z) :
  days <> 99999%Z -> ((days <= days')%Z \/ days' = 99999%Z) ->
  (forall r, In r (tf_data data d days) -> In r (tf_data data d days'))
  /\ (List.length (tf_data data d days) <= List.length (tf_data data d days'))%nat.
Proof.
  intros N L. unfold tf_data.
  replace (days =? 99999)%Z with false by (symmetry; now apply Z.eqb_neq).
  assert (S : forall r,
             (d - timedelta days <=? Date r)%Z && (Date r <? d)%Z = true ->
             (if (days' =? 99999)%Z
              then (Date r <? d)%Z
              else (d - timedelta days' <=? Date r)%Z && (Date r <? d)%Z) = true).
  { intros r B. apply andb_prop in B. destruct B as [B1 B2].
    destruct (days' =? 99999)%Z eqn:A; trivial.
    apply Z.eqb_neq in A. destruct L as [L | L]; [| tauto].
    rewrite B2, andb_true_r. apply Z.leb_le. apply Z.leb_le in B1.
    unfold timedelta, seconds_per_day in *. lia. }
  split.
  - intros r I. apply filter_In in I. destruct I as [I B].
    specialize (S r B).
    destruct (days' =? 99999)%Z; apply filter_In; now split.
  - destruct (days' =? 99999)%Z;
      induction data as [|r data IH]; simpl; trivial;
      specialize (S r);
      destruct ((d - timedelta days <=? Date r)%Z && (Date r <? d)%Z);
      simpl.
    + rewrite S by trivial. simpl. lia.
    + destruct (Date r <? d)%Z; simpl; lia.
    + rewrite S by trivial. simpl. lia.
    + destruct ((d - timedelta days' <=? Date r)%Z && (Date r <? d)%Z);
        simpl; lia.
Qed.

Lemma windows_are_nested_witness :
  7%Z <> 99999%Z /\ ((7 <= 30)%Z \/ 30%Z = 99999%Z) /\
  (List.length (tf_data Samples.recent_corpus Samples.asof 7)
   <= List.length (tf_data Samples.recent_corpus Samples.asof 30))%nat.
Proof.
  assert (N : 7%Z <> 99999%Z) by discriminate.
  assert (L : (7 <= 30)%Z \/ 30%Z = 99999%Z) by (left; lia).
  split; [exact N | split; [exact L |]].
  exact (proj2 (windows_are_nested Samples.recent_corpus Samples.asof 7 30 N L)).
Defined.

(** *** Ranges *)

Lemma success_rate_range (fn : MatchRow -> bool) (rows : DataFrame) :
  0 <= success_rate fn rows <= 1.
Proof.
  unfold success_rate, Qle. cbn [Qnum Qden].
  pose proof (filter_length_le fn rows) as F.
  destruct (List.length rows) as [|n] eqn:L.
  - assert (List.length (filter fn rows) = 0)%nat as -> by lia. simpl. lia.
  - rewrite Z.mul_1_r, Z.mul_1_l, Z.mul_0_l.
    rewrite <- (Nat2Pos.id (S n)) in F by discriminate.
    rewrite <- positive_nat_Z. lia.
Qed.

Lemma set_sound (results : TimeframeResults) (k : Z) (v : TimeframeResult) :
  Forall sound_result results -> sound_result (k, v) ->
  Forall sound_result (Py.set Z.eqb results k v).
Proof.
  intros F S. induction results as [|[k' v'] results IH]; simpl.
  - now constructor.
  - inversion F as [|? ? S' F']; subst.
    destruct (k =? k')%Z; constructor; trivial.
    now apply IH.
Qed.

Lemma timeframe_loop_sound (data : DataFrame) (d : datetime)
    (fn : MatchRow -> bool) (tfs : Timeframes) :
  forall results confidences,
    Forall sound_result results ->
    Forall sound_result (fst (timeframe_loop data d fn tfs results confidences)).
Proof.
  induction tfs as [|[days w] tfs IH]; intros results confidences F; simpl;
    trivial.
  destruct (0 <? List.length (tf_data data d days))%nat eqn:L; [| now apply IH].
  apply IH. apply set_sound; trivial.
  split; simpl; [apply success_rate_range | now apply Nat.ltb_lt in L].
Qed.

Lemma ensemble_loop_bounds (results : TimeframeResults) :
  Forall sound_result results ->
  forall acc tw,
    0 <= acc <= tw ->
    0 <= fst (ensemble_loop results acc tw) <= snd (ensemble_loop results acc tw).
Proof.
  induction 1 as [|[k r] results [[S0 S1] _] _ IH]; intros acc tw B; simpl;
    trivial.
  simpl in S0, S1.
  destruct (Py.Qltb 0 (weight r)) eqn:W; [| now apply IH].
  apply Qltb_true in W. apply IH.
  assert (0 <= success r * weight r) by (apply Qmult_le_0_compat; lra).
  assert (success r * weight r <= 1 * weight r)
    by (apply Qmult_le_compat_r; lra).
  lra.
Qed.

Lemma adjusted_confidence_parts (results : TimeframeResults)
    (confidences : list Q) (m7 m30 : Z) :
  exists dbg,
    adjusted_confidence results confidences m7 m30
      = (final_confidence dbg, Debug dbg)
    /\ timeframe_results dbg = results
    /\ final_confidence dbg =
         Py.clamp01 (ensemble_confidence dbg + trend_adjustment dbg
                     + consistency_adjustment dbg + sample_adjustment dbg)
    /\ ensemble_confidence dbg =
         (if Py.Qltb 0 (snd (ensemble_loop results 0 0))
          then fst (ensemble_loop results 0 0) / snd (ensemble_loop results 0 0)
          else 0.5)
    /\ (trend dbg, trend_adjustment dbg)
         = trend_of (trend_7_vs_30 dbg) (trend_30_vs_season dbg)
    /\ (consistency dbg, consistency_adjustment dbg, std_dev_sq dbg)
         = consistency_of confidences
    /\ (sample_quality dbg, sample_adjustment dbg)
         = sample_validation m7 m30 (get_matches results 7) (get_matches results 30)
    /\ trend_7_vs_30 dbg
         = get_success results 7 (ensemble_confidence dbg)
           - get_success results 30 (ensemble_confidence dbg)
    /\ trend_30_vs_season dbg
         = get_success results 30 (ensemble_confidence dbg)
           - get_success results 365 (ensemble_confidence dbg).
Proof.
  unfold adjusted_confidence.
  destruct (ensemble_loop results 0 0) as [acc tw].
  destruct (trend_of _ _) as [tr tr_adj] eqn:T.
  destruct (consistency_of confidences) as [[cn cn_adj] var].
  destruct (sample_validation m7 m30 _ _) as [sq sadj].
  match goal with |- exists dbg, (_, Debug ?D) = _ /\ _ => exists D end.
  simpl. rewrite T. repeat split; reflexivity.
Qed.

Lemma calculate_parts (data : DataFrame) (d : datetime)
    (fn : MatchRow -> bool) (m7 m30 : Z) (ct : option Timeframes)
    (uah : bool) (dbg : DebugInfo) :
  snd (calculate_multi_timeframe_confidence data d fn m7 m30 ct uah) = Debug dbg ->
  let loop := timeframe_loop data d fn (timeframes data d ct uah) [] [] in
  calculate_multi_timeframe_confidence data d fn m7 m30 ct uah
    = adjusted_confidence (fst loop) (snd loop) m7 m30
  /\ timeframe_results dbg = fst loop.
Proof.
  intros E loop. subst loop.
  destruct (calculate_shape data d fn m7 m30 ct uah) as [[_ R] | [_ R]];
    rewrite R in E; simpl in E; [discriminate |].
  split; trivial.
  destruct (adjusted_confidence_parts
              (fst (timeframe_loop data d fn (timeframes data d ct uah) [] []))
              (snd (timeframe_loop data d fn (timeframes data d ct uah) [] []))
              m7 m30) as (dbg' & A & Re & _).
  rewrite A in E. simpl in E. injection E as <-. exact Re.
Qed.

Lemma ensemble_range (results : TimeframeResults) :
  Forall sound_result results ->
  0 <= (if Py.Qltb 0 (snd (ensemble_loop results 0 0))
        then fst (ensemble_loop results 0 0) / snd (ensemble_loop results 0 0)
        else 0.5) <= 1.
Proof.
  intro F.
  assert (Z0 : 0 <= 0 <= 0) by lra.
  pose proof (ensemble_loop_bounds results F 0 0 Z0) as [B0 B1].
  destruct (Py.Qltb 0 (snd (ensemble_loop results 0 0))) eqn:W; [| lra].
  apply Qltb_true in W. split.
  - apply Qle_shift_div_l; trivial. lra.
  - apply Qle_shift_div_r; trivial. lra.
Qed.

Lemma breakdown_ranges (data : DataFrame) (d : datetime)
    (fn : MatchRow -> bool) (m7 m30 : Z) (ct : option Timeframes)
    (uah : bool) (dbg : DebugInfo) :
  snd (calculate_multi_timeframe_confidence data d fn m7 m30 ct uah) = Debug dbg ->
  0 <= ensemble_confidence dbg <= 1
  /\ Forall sound_result (timeframe_results dbg).
Proof.
  intro E.
  destruct (calculate_parts data d fn m7 m30 ct uah dbg E) as [R Re].
  cbn zeta in R, Re.
  assert (F : Forall sound_result (timeframe_results dbg)).
  { rewrite Re. apply timeframe_loop_sound. constructor. }
  destruct (adjusted_confidence_parts
              (fst (timeframe_loop data d fn (timeframes data d ct uah) [] []))
              (snd (timeframe_loop data d fn (timeframes data d ct uah) [] []))
              m7 m30) as (dbg' & A & _ & _ & En & _).
  rewrite R, A in E. simpl in E. injection E as ->.
  split; trivial. rewrite En, <- Re. now apply ensemble_range.
Qed.

(** X5.  In every breakdown the ensemble confidence lies in [0,1], and
    every window of [timeframe_results] has at least one match and a
    hit rate in [0,1]: empty windows are never stored. *)
Theorem ensemble_in_unit_interval (data : DataFrame) (d : datetime)
    (fn : MatchRow -> bool) (m7 m30 : Z) (ct : option Timeframes)
    (uah : bool) :
  match snd (calculate_multi_timeframe_confidence data d fn m7 m30 ct uah) with
  | NoHistoricalData => True
  | Debug dbg =>
      0 <= ensemble_confidence dbg <= 1
      /\ forall days r, In (days, r) (timeframe_results dbg) ->
                        0 <= success r <= 1 /\ (1 <= matches r)%nat
  end.
Proof.
  destruct (snd (calculate_multi_timeframe_confidence data d fn m7 m30 ct uah))
    as [|dbg] eqn:E; trivial.
  destruct (breakdown_ranges data d fn m7 m30 ct uah dbg E) as [En F].
  split; trivial.
  intros days r I. rewrite Forall_forall in F. exact (F _ I).
Qed.

Lemma trend_adjustment_range (x y : Q) :
  -0.02 <= snd (trend_of x y) <= 0.02.
Proof.
  unfold trend_of.
  destruct (Py.Qltb 0.03 x && Qle_bool (-0.02) y); simpl; [lra|].
  destruct (Py.Qltb x (-0.03) && Qle_bool y 0.02); simpl; lra.
Qed.

Lemma consistency_adjustment_range (confidences : list Q) :
  -0.02 <= snd (fst (consistency_of confidences)) <= 0.01.
Proof.
  unfold consistency_of.
  destruct (Py.Qltb _ (0.03 * 0.03)); simpl; [lra|].
  destruct (Py.Qltb _ (0.05 * 0.05)); simpl; lra.
Qed.

Lemma sample_adjustment_range (m7 m30 : Z) (c7 c30 : nat) :
  -0.05 <= snd (sample_validation m7 m30 c7 c30) <= 0.
Proof.
  unfold sample_validation.
  destruct (_ && _); simpl; [lra|].
  destruct (_ && _); simpl; lra.
Qed.

(** X6.  The three adjustments move the ensemble confidence by at most
    0.09 downwards and 0.03 upwards: in every breakdown
    [ensemble - 0.09 <= final_confidence <= ensemble + 0.03]. *)
Theorem adjustments_are_bounded (data : DataFrame) (d : datetime)
    (fn : MatchRow -> bool) (m7 m30 : Z) (ct : option Timeframes)
    (uah : bool) :
  match snd (calculate_multi_timeframe_confidence data d fn m7 m30 ct uah) with
  | NoHistoricalData => True
  | Debug dbg =>
      ensemble_confidence dbg - 0.09 <= final_confidence dbg
      /\ final_confidence dbg <= ensemble_confidence dbg + 0.03
      /\ -0.09 <= trend_adjustment dbg + consistency_adjustment dbg
                  + sample_adjustment dbg <= 0.03
  end.
Proof.
  destruct (snd (calculate_multi_timeframe_confidence data d fn m7 m30 ct uah))
    as [|dbg] eqn:E; trivial.
  destruct (breakdown_ranges data d fn m7 m30 ct uah dbg E) as [U _].
  destruct (calculate_parts data d fn m7 m30 ct uah dbg E) as [R _].
  cbn zeta in R.
  destruct (adjusted_confidence_parts
              (fst (timeframe_loop data d fn (timeframes data d ct uah) [] []))
              (snd (timeframe_loop data d fn (timeframes data d ct uah) [] []))
              m7 m30) as (dbg' & A & _ & F & _ & T & C & S & _).
  rewrite R, A in E. simpl in E. injection E as ->.
  pose proof (trend_adjustment_range (trend_7_vs_30 dbg) (trend_30_vs_season dbg))
    as Tr. rewrite <- T in Tr. simpl in Tr.
  pose proof (consistency_adjustment_range
                (snd (timeframe_loop data d fn (timeframes data d ct uah) [] [])))
    as Cr. rewrite <- C in Cr. simpl in Cr.
  pose proof (sample_adjustment_range m7 m30
                (get_matches (fst (timeframe_loop data d fn
                                     (timeframes data d ct uah) [] [])) 7)
                (get_matches (fst (timeframe_loop data d fn
                                     (timeframes data d ct uah) [] [])) 30))
    as Sr. rewrite <- S in Sr. simpl in Sr.
  set (x := ensemble_confidence dbg + trend_adjustment dbg
            + consistency_adjustment dbg + sample_adjustment dbg) in *.
  destruct (clamp01_cases x) as (Lo & Mid & Hi).
  pose proof (clamp01_range x) as Rg.
  rewrite F.
  destruct (Qlt_le_dec x 0) as [X0 | X0];
    [| destruct (Qlt_le_dec 1 x) as [X1 | X1]].
  - assert (Py.clamp01 x == 0) as -> by (apply Lo; lra).
    subst x. repeat split; lra.
  - assert (Py.clamp01 x == 1) as -> by (apply Hi; lra).
    subst x. repeat split; lra.
  - assert (Py.clamp01 x == x) as -> by (apply Mid; lra).
    subst x. repeat split; lra.
Qed.

(** ** Risk adjustment *)

Lemma penalties_in_range :
  forall n p, In (n, p) RiskAdjustment.PATTERN_RISK_PENALTIES ->
              0.01 <= p <= 0.10.
Proof.
  assert (B : forallb (fun kv : string * Q =>
                         Qle_bool 0.01 (snd kv) && Qle_bool (snd kv) 0.10)
                RiskAdjustment.PATTERN_RISK_PENALTIES = true)
    by (vm_compute; reflexivity).
  intros n p I. rewrite forallb_forall in B. specialize (B _ I). simpl in B.
  apply andb_prop in B. destruct B as [B1 B2].
  apply Qle_bool_iff in B1, B2. now split.
Qed.

Lemma penalty_range (pattern_name : string) :
  0.01 <= RiskAdjustment.get_pattern_risk_penalty pattern_name <= 0.10.
Proof.
  unfold RiskAdjustment.get_pattern_risk_penalty.
  destruct (Py.get String.eqb RiskAdjustment.PATTERN_RISK_PENALTIES pattern_name)
    as [p|] eqn:G.
  - apply (get_in string Q String.eqb Seqb_eq) in G.
    now apply (penalties_in_range pattern_name).
  - unfold RiskAdjustment.DEFAULT_RISK_PENALTY. lra.
Qed.

Lemma clamp01_monotone (x y : Q) : x <= y -> Py.clamp01 x <= Py.clamp01 y.
Proof.
  intro L.
  destruct (clamp01_cases x) as (Lx & Mx & Hx).
  destruct (clamp01_cases y) as (Ly & My & Hy).
  pose proof (clamp01_range x) as Rx. pose proof (clamp01_range y) as Ry.
  destruct (Qlt_le_dec x 0) as [X0 | X0].
  - rewrite Lx by lra. lra.
  - destruct (Qlt_le_dec 1 y) as [Y1 | Y1].
    + rewrite (Hy (Qlt_le_weak _ _ Y1)). lra.
    + rewrite Mx, My by lra. exact L.
Qed.

(** X7.  Whatever the pattern name, the penalty lies between 0.01 and
    0.10 (unknown names get 0.05).  So the risk adjustment preserves
    the order of the confidences of one pattern, lowers a confidence in
    [0,1] by at most 0.10 and never raises it, and a risk-adjusted
    confidence never exceeds 0.99. *)
Theorem risk_adjustment_bounds (c c' : Q) (pattern_name : string) :
  0.01 <= RiskAdjustment.get_pattern_risk_penalty pattern_name <= 0.10
  /\ (c <= c' ->
      RiskAdjustment.calculate_risk_adjusted_confidence c pattern_name
      <= RiskAdjustment.calculate_risk_adjusted_confidence c' pattern_name)
  /\ (0 <= c <= 1 ->
      c - 0.10 <= RiskAdjustment.calculate_risk_adjusted_confidence c pattern_name
      /\ RiskAdjustment.calculate_risk_adjusted_confidence c pattern_name <= c
      /\ RiskAdjustment.calculate_risk_adjusted_confidence c pattern_name <= 0.99).
Proof.
  unfold RiskAdjustment.calculate_risk_adjusted_confidence.
  pose proof (penalty_range pattern_name) as P.
  set (p := RiskAdjustment.get_pattern_risk_penalty pattern_name) in *.
  split; [exact P | split].
  - intro L. apply clamp01_monotone. lra.
  - intro C.
    destruct (clamp01_cases (c - p)) as (Lo & Mid & _).
    destruct (Qlt_le_dec (c - p) 0) as [N | N].
    + rewrite Lo by lra. repeat split; lra.
    + rewrite Mid by lra. repeat split; lra.
Qed.

(** ** The registry *)

Lemma get_set_other (V : Type) (d : Py.dict string V) (k k' : string) (v : V) :
  k' <> k ->
  Py.get String.eqb (Py.set String.eqb d k v) k' = Py.get String.eqb d k'.
Proof.
  intro N. induction d as [|[k0 v0] d IH]; simpl.
  - replace (String.eqb k' k) with false; trivial.
    symmetry. now apply String.eqb_neq.
  - destruct (String.eqb k k0) eqn:E; simpl.
    + apply String.eqb_eq in E. subst k0.
      replace (String.eqb k' k) with false; trivial.
      symmetry. now apply String.eqb_neq.
    + destruct (String.eqb k' k0); trivial.
Qed.

(** X8.  A successful [register] appends: the new name comes last in
    [list_patterns] and the new pattern last in [get_all_patterns], it
    is found under its name, every other name is looked up as before,
    and names that were pairwise distinct stay so. *)
Theorem register_appends (self self' : Registry.PatternRegistry)
    (p : Registry.Pattern) :
  Registry.register self p = Registry.Ok self' ->
  Registry.list_patterns self' = Registry.list_patterns self ++ [Registry.name p]
  /\ Registry.get_all_patterns self' = Registry.get_all_patterns self ++ [p]
  /\ Registry.get_pattern self' (Registry.name p) = Some p
  /\ (forall n, n <> Registry.name p ->
                Registry.get_pattern self' n = Registry.get_pattern self n)
  /\ (NoDup (Registry.list_patterns self) ->
      NoDup (Registry.list_patterns self')).
Proof.
  intro R.
  destruct (register_cases self p) as [(E & N) | (E & _)];
    rewrite E in R; [| discriminate R].
  injection R as <-.
  unfold Registry.list_patterns, Registry.get_all_patterns,
    Registry.get_pattern in *.
  rewrite (set_fresh string Registry.Pattern String.eqb Seqb_eq self _ p N).
  unfold Py.keys, Py.values. rewrite !map_app. simpl.
  repeat split.
  - rewrite <- (set_fresh string Registry.Pattern String.eqb Seqb_eq self _ p N).
    apply (get_set_same string Registry.Pattern String.eqb Seqb_eq).
  - intros n D.
    rewrite <- (set_fresh string Registry.Pattern String.eqb Seqb_eq self _ p N).
    now apply get_set_other.
  - intro U. apply NoDup_app; [trivial | repeat constructor; simpl; tauto |].
    intros x I [<- | []]. now apply N.
Qed.

Lemma register_appends_witness :
  Registry.register Registry.empty
    (Registry.mkPattern "home_over_1_5_goals" Registry.GOALS
       Samples.home_over_1_5_goals 0.65 20 "Home team scores over 1.5 goals")
  = Registry.Ok Samples.one_pattern
  /\ Registry.list_patterns Samples.one_pattern
     = Registry.list_patterns Registry.empty ++ ["home_over_1_5_goals"%string].
Proof.
  assert (R : Registry.register Registry.empty
    (Registry.mkPattern "home_over_1_5_goals" Registry.GOALS
       Samples.home_over_1_5_goals 0.65 20 "Home team scores over 1.5 goals")
  = Registry.Ok Samples.one_pattern) by reflexivity.
  split; [exact R |].
  exact (proj1 (register_appends Registry.empty Samples.one_pattern _ R)).
Defined.

(** X9.  The three category queries split the registry: a pattern is
    returned by [get_patterns_by_category] exactly for its own
    category, and the three answers together have as many patterns as
    [get_all_patterns]. *)
Theorem categories_split_registry (self : Registry.PatternRegistry) :
  (forall p c, In p (Registry.get_patterns_by_category self c)
               <-> In p (Registry.get_all_patterns self)
                   /\ Registry.category p = c)
  /\ (List.length (Registry.get_patterns_by_category self Registry.GOALS)
      + List.length (Registry.get_patterns_by_category self Registry.CORNERS)
      + List.length (Registry.get_patterns_by_category self Registry.CARDS)
      = List.length (Registry.get_all_patterns self))%nat.
Proof.
  unfold Registry.get_patterns_by_category, Registry.get_all_patterns.
  split.
  - intros p c. rewrite filter_In.
    destruct (Registry.category p), c; simpl;
      split; intros [I E]; split; trivial; discriminate.
  - induction (Py.values self) as [|p l IH]; simpl; trivial.
    destruct (Registry.category p); simpl; lia.
Qed.

(** ** The Romanian predictor *)

Lemma first_step (registry : Registry.PatternRegistry)
    (historical_data : DataFrame) (match_date : datetime)
    (use_ensemble : bool) (best : SimpleRomanianPredictor.Best)
    (seen : list string) (x : string) :
  selected_among registry historical_data match_date use_ensemble best seen ->
  first_of_the_best registry historical_data match_date use_ensemble best seen ->
  first_of_the_best registry historical_data match_date use_ensemble
    (SimpleRomanianPredictor.loop_body registry historical_data match_date
       use_ensemble best x)
    (seen ++ [x]).
Proof.
  intros I F. rewrite loop_body_evaluation.
  assert (Keep : first_of_the_best registry historical_data match_date
                   use_ensemble best (seen ++ [x])).
  { unfold first_of_the_best in *.
    destruct (SimpleRomanianPredictor.best_pattern best); trivial.
    destruct F as (before & after & -> & B).
    exists before, (after ++ [x]). split; trivial.
    now rewrite <- app_assoc. }
  destruct (evaluation registry historical_data match_date use_ensemble x)
    as [[[c ra] t]|] eqn:E; trivial.
  destruct (Qle_bool t ra) eqn:C; simpl; trivial.
  destruct (Py.Qltb (SimpleRomanianPredictor.best_risk_adjusted best) ra) eqn:L;
    trivial.
  apply Qltb_true in L. unfold first_of_the_best. simpl.
  exists seen, []. split; trivial.
  intros n' c' ra' t' J E' C'.
  unfold selected_among in I.
  destruct (SimpleRomanianPredictor.best_pattern best).
  - destruct I as (_ & _ & M). specialize (M _ _ _ _ J E' C'). lra.
  - destruct I as (_ & N). specialize (N _ J).
    unfold candidate in N. rewrite E' in N. apply Qle_bool_false in N. lra.
Qed.

Lemma first_fold (registry : Registry.PatternRegistry)
    (historical_data : DataFrame) (match_date : datetime)
    (use_ensemble : bool) (names : list string) :
  forall best seen,
    selected_among registry historical_data match_date use_ensemble best seen ->
    first_of_the_best registry historical_data match_date use_ensemble best seen ->
    first_of_the_best registry historical_data match_date use_ensemble
      (fold_left (SimpleRomanianPredictor.loop_body registry historical_data
                    match_date use_ensemble) names best)
      (seen ++ names).
Proof.
  induction names as [|x names IH]; intros best seen I F; simpl.
  - now rewrite app_nil_r.
  - replace (seen ++ x :: names) with ((seen ++ [x]) ++ names)
      by (now rewrite <- app_assoc).
    apply IH; [now apply selected_step | now apply first_step].
Qed.

(** X10.  Ties in the Romanian predictor go to the pattern registered
    first: every candidate that comes before the returned pattern in
    the order of registration has a strictly smaller risk-adjusted
    confidence. *)
Theorem romanian_ties_go_to_the_first (registry : Registry.PatternRegistry)
    (home_team away_team : string) (historical_data : DataFrame)
    (match_date : datetime) (use_ensemble : bool) (b : BestBet) :
  SimpleRomanianPredictor.predict_match registry home_team away_team
    historical_data match_date use_ensemble = Some b ->
  exists before after,
    Registry.list_patterns registry = before ++ pattern_name b :: after
    /\ forall n c ra t,
         In n before ->
         evaluation registry historical_data match_date use_ensemble n
           = Some (c, ra, t) ->
         t <= ra -> ra < risk_adjusted_confidence b.
Proof.
  unfold SimpleRomanianPredictor.predict_match.
  assert (I0 : selected_among registry historical_data match_date use_ensemble
                 (SimpleRomanianPredictor.mkBest None 0.0 0.0) []).
  { unfold selected_among. simpl. split; [reflexivity | tauto]. }
  assert (F0 : first_of_the_best registry historical_data match_date
                 use_ensemble (SimpleRomanianPredictor.mkBest None 0.0 0.0) [])
    by exact I.
  pose proof (first_fold registry historical_data match_date use_ensemble
                (Registry.list_patterns registry) _ _ I0 F0) as F.
  simpl in F. unfold first_of_the_best in F.
  destruct (fold_left _ (Registry.list_patterns registry) _)
    as [[n|] bc bra]; simpl in *; [| discriminate].
  destruct (String.eqb n ""); [discriminate |].
  intros [= <-]. exact F.
Qed.

Lemma romanian_ties_go_to_the_first_witness :
  exists b,
    SimpleRomanianPredictor.predict_match Samples.two_card_patterns
      "FCSB" "CFR Cluj" Samples.recent_corpus Samples.asof true = Some b
    /\ pattern_name b = "home_over_0_5_cards"%string
    /\ exists before after,
         Registry.list_patterns Samples.two_card_patterns
           = before ++ pattern_name b :: after
         /\ forall n c ra t,
              In n before ->
              evaluation Samples.two_card_patterns Samples.recent_corpus
                Samples.asof true n = Some (c, ra, t) ->
              t <= ra -> ra < risk_adjusted_confidence b.
Proof.
  destruct (SimpleRomanianPredictor.predict_match Samples.two_card_patterns
              "FCSB" "CFR Cluj" Samples.recent_corpus Samples.asof true)
    as [b|] eqn:E.
  - exists b. split; [reflexivity | split].
    + vm_compute in E. injection E as <-. reflexivity.
    + exact (romanian_ties_go_to_the_first Samples.two_card_patterns
               "FCSB" "CFR Cluj" Samples.recent_corpus Samples.asof true b E).
  - vm_compute in E. discriminate E.
Defined.

Lemma calculate_range (data : DataFrame) (d : datetime)
    (fn : MatchRow -> bool) (m7 m30 : Z) (ct : option Timeframes)
    (uah : bool) :
  0 <= fst (calculate_multi_timeframe_confidence data d fn m7 m30 ct uah) <= 1.
Proof.
  destruct (calculate_shape data d fn m7 m30 ct uah) as [[_ E] | [_ E]];
    rewrite E.
  - simpl. lra.
  - destruct (adjusted_confidence_parts
                (fst (timeframe_loop data d fn (timeframes data d ct uah) [] []))
                (snd (timeframe_loop data d fn (timeframes data d ct uah) [] []))
                m7 m30) as (dbg & -> & _ & F & _).
    simpl. rewrite F. apply clamp01_range.
Qed.

Lemma romanian_thresholds_range (n : string) (t : Q) :
  Py.get String.eqb SimpleRomanianPredictor.thresholds n = Some t ->
  0.55 <= t <= 0.70.
Proof.
  intro G. apply (get_in string Q String.eqb Seqb_eq) in G.
  assert (B : forallb (fun kv : string * Q =>
                         Qle_bool 0.55 (snd kv) && Qle_bool (snd kv) 0.70)
                SimpleRomanianPredictor.thresholds = true)
    by (vm_compute; reflexivity).
  rewrite forallb_forall in B. specialize (B _ G). simpl in B.
  apply andb_prop in B. destruct B as [B1 B2].
  apply Qle_bool_iff in B1, B2. now split.
Qed.

Lemma evaluation_parts (registry : Registry.PatternRegistry)
    (historical_data : DataFrame) (match_date : datetime)
    (use_ensemble : bool) (n : string) (c ra t : Q) :
  evaluation registry historical_data match_date use_ensemble n
    = Some (c, ra, t) ->
  Py.get String.eqb SimpleRomanianPredictor.thresholds n = Some t
  /\ ra = RiskAdjustment.calculate_risk_adjusted_confidence c n
  /\ 0 <= c <= 1.
Proof.
  unfold evaluation.
  destruct (Py.get String.eqb SimpleRomanianPredictor.thresholds n) as [t'|];
    [| discriminate].
  destruct (Registry.get_pattern registry n) as [p|]; [| discriminate].
  destruct (SimpleRomanianPredictor.pattern_confidence _ _ _ p) as [c'|] eqn:P;
    [| discriminate].
  intros [= <- <- <-]. repeat split; trivial;
    unfold SimpleRomanianPredictor.pattern_confidence in P;
    destruct use_ensemble.
  - injection P as <-. apply calculate_range.
  - destruct (_ <? 10)%nat; [discriminate |]. injection P as <-.
    apply success_rate_range.
  - injection P as <-. apply calculate_range.
  - destruct (_ <? 10)%nat; [discriminate |]. injection P as <-.
    apply success_rate_range.
Qed.

(** X11.  A bet returned by the Romanian predictor is on a pattern of
    its threshold table, with a threshold between 0.55 and 0.70; its
    risk-adjusted confidence is the raw confidence minus a penalty of
    0.01 to 0.10 (the clamp does not bite), it reaches the threshold and
    stays at or below 0.99, so the raw confidence is at least 0.56. *)
Theorem romanian_bet_bounds (registry : Registry.PatternRegistry)
    (home_team away_team : string) (historical_data : DataFrame)
    (match_date : datetime) (use_ensemble : bool) (b : BestBet) :
  SimpleRomanianPredictor.predict_match registry home_team away_team
    historical_data match_date use_ensemble = Some b ->
  Py.get String.eqb SimpleRomanianPredictor.thresholds (pattern_name b)
    = Some (threshold b)
  /\ 0.55 <= threshold b <= 0.70
  /\ threshold b <= risk_adjusted_confidence b <= 0.99
  /\ risk_adjusted_confidence b
     == confidence b - RiskAdjustment.get_pattern_risk_penalty (pattern_name b)
  /\ 0.56 <= confidence b <= 1.
Proof.
  intro E.
  destruct (romanian_selection registry historical_data match_date use_ensemble
              home_team away_team) as [_ S].
  cbn zeta in S. destruct (S b E) as (_ & Ev & C & _).
  destruct (evaluation_parts _ _ _ _ _ _ _ _ Ev) as (G & R & Cr).
  pose proof (romanian_thresholds_range _ _ G) as T.
  pose proof (penalty_range (pattern_name b)) as P.
  unfold RiskAdjustment.calculate_risk_adjusted_confidence in R.
  set (p := RiskAdjustment.get_pattern_risk_penalty (pattern_name b)) in *.
  destruct (clamp01_cases (confidence b - p)) as (Lo & Mid & _).
  assert (N : 0 <= confidence b - p).
  { destruct (Qlt_le_dec (confidence b - p) 0) as [N | N]; trivial.
    exfalso. assert (Z0 : risk_adjusted_confidence b == 0)
      by (rewrite R; apply Lo; lra).
    lra. }
  assert (Q0 : risk_adjusted_confidence b == confidence b - p)
    by (rewrite R; apply Mid; lra).
  repeat split; trivial; lra.
Qed.

Lemma romanian_bet_bounds_witness :
  exists b,
    SimpleRomanianPredictor.predict_match Samples.two_card_patterns
      "FCSB" "CFR Cluj" Samples.recent_corpus Samples.asof true = Some b
    /\ 0.56 <= confidence b <= 1.
Proof.
  destruct (SimpleRomanianPredictor.predict_match Samples.two_card_patterns
              "FCSB" "CFR Cluj" Samples.recent_corpus Samples.asof true)
    as [b|] eqn:E.
  - exists b. split; [reflexivity |].
    exact (proj2 (proj2 (proj2 (proj2
             (romanian_bet_bounds Samples.two_card_patterns
                "FCSB" "CFR Cluj" Samples.recent_corpus Samples.asof true b E))))).
  - vm_compute in E. discriminate E.
Defined.

(** ** The Premier League predictor *)

(** X12.  The calibration multiplies a confidence of at most 0.65 by
    1.05 (its cap of 0.75 is never reached), leaves the band between
    0.65 and 0.75 alone, and shrinks a confidence of 0.75 or more by at
    least two percent; every raw confidence up to 1.06, the most the
    boosts can produce, ends below 0.98.  It does not preserve order:
    0.85 is calibrated below 0.84. *)
Theorem calibration_shape (raw : Q) :
  (raw <= 0.65 ->
   SimplePremierLeaguePredictor.apply_confidence_calibration raw == raw * 1.05)
  /\ (0.65 < raw < 0.75 ->
      SimplePremierLeaguePredictor.apply_confidence_calibration raw = raw)
  /\ (0.75 <= raw ->
      SimplePremierLeaguePredictor.apply_confidence_calibration raw <= raw * 0.98)
  /\ (raw <= 1.06 ->
      SimplePremierLeaguePredictor.apply_confidence_calibration raw < 0.98)
  /\ SimplePremierLeaguePredictor.apply_confidence_calibration 0.85
     < SimplePremierLeaguePredictor.apply_confidence_calibration 0.84.
Proof.
  unfold SimplePremierLeaguePredictor.apply_confidence_calibration at 1 2 3 4.
  destruct (Qle_bool 0.90 raw) eqn:A;
    [apply Qle_bool_iff in A | apply Qle_bool_false in A].
  { repeat split; intros; try lra; reflexivity. }
  destruct (Qle_bool 0.85 raw) eqn:B;
    [apply Qle_bool_iff in B | apply Qle_bool_false in B].
  { repeat split; intros; try lra; reflexivity. }
  destruct (Qle_bool 0.75 raw) eqn:C;
    [apply Qle_bool_iff in C | apply Qle_bool_false in C].
  { repeat split; intros; try lra; reflexivity. }
  destruct (Qle_bool raw 0.65) eqn:D;
    [apply Qle_bool_iff in D | apply Qle_bool_false in D].
  - unfold Py.min.
    destruct (Py.Qltb (raw * 1.05) 0.75) eqn:M;
      [apply Qltb_true in M | apply Qltb_false in M].
    + repeat split; intros; try lra; reflexivity.
    + exfalso. lra.
  - repeat split; intros; try lra; reflexivity.
Qed.

Lemma specialty_values (pattern_lower home_team away_team : string) :
  (forall boost,
      SimplePremierLeaguePredictor.corner_specialty pattern_lower home_team
        away_team = Some boost -> -0.03 <= boost <= 0.03)
  /\ 0 <= SimplePremierLeaguePredictor.card_specialty pattern_lower home_team
            away_team <= 0.02.
Proof.
  unfold SimplePremierLeaguePredictor.corner_specialty,
    SimplePremierLeaguePredictor.card_specialty.
  split.
  - intros boost.
    destruct (RiskAdjustment.contains_str "corner" pattern_lower);
      [| discriminate].
    destruct (RiskAdjustment.contains_str "over" pattern_lower).
    + destruct (_ && _); [intros [= <-]; lra |].
      destruct (_ && _); [intros [= <-]; lra |].
      destruct (_ && _); [intros [= <-]; lra | discriminate].
    + destruct (RiskAdjustment.contains_str "under" pattern_lower);
        [| discriminate].
      destruct (_ && _); [intros [= <-]; lra |].
      destruct (_ && _); [intros [= <-]; lra | discriminate].
  - destruct (RiskAdjustment.contains_str "card" pattern_lower); [| lra].
    destruct (RiskAdjustment.contains_str "over" pattern_lower); [| lra].
    destruct (_ && _); [lra |]. destruct (_ || _); lra.
Qed.

(** X13.  The team specialty boost stays within three points either
    way, and a pattern whose name mentions neither corners nor cards
    gets none, whatever the two teams. *)
Theorem specialty_boost_bounds (pattern_name home_team away_team : string)
    (lookback_df : DataFrame) :
  -0.03 <= SimplePremierLeaguePredictor.get_team_specialty_boost pattern_name
             home_team away_team lookback_df <= 0.03
  /\ (RiskAdjustment.contains_str "corner" (RiskAdjustment.lower pattern_name)
      = false ->
      RiskAdjustment.contains_str "card" (RiskAdjustment.lower pattern_name)
      = false ->
      SimplePremierLeaguePredictor.get_team_specialty_boost pattern_name
        home_team away_team lookback_df = 0.0).
Proof.
  unfold SimplePremierLeaguePredictor.get_team_specialty_boost.
  destruct (specialty_values (RiskAdjustment.lower pattern_name)
              home_team away_team) as [Co Ca].
  split.
  - destruct (SimplePremierLeaguePredictor.corner_specialty _ _ _) as [boost|].
    + now apply Co.
    + lra.
  - intros NC ND.
    unfold SimplePremierLeaguePredictor.corner_specialty,
      SimplePremierLeaguePredictor.card_specialty.
    now rewrite NC, ND.
Qed.

(** *** Ties in the Premier League predictor *)

Lemma insert_desc_sorted (x : SimplePremierLeaguePredictor.Prediction)
    (l : list SimplePremierLeaguePredictor.Prediction) :
  StronglySorted by_confidence_desc l ->
  StronglySorted by_confidence_desc (SimplePremierLeaguePredictor.insert_desc x l).
Proof.
  induction l as [|y l IH]; simpl; intro S.
  - repeat constructor.
  - inversion S as [|? ? S' F]; subst.
    destruct (Qle_bool (SimplePremierLeaguePredictor.pred_confidence y)
                       (SimplePremierLeaguePredictor.pred_confidence x)) eqn:C.
    + apply Qle_bool_iff in C. constructor; trivial.
      constructor; trivial.
      rewrite Forall_forall in *. intros z I. specialize (F z I).
      unfold by_confidence_desc in *. lra.
    + apply Qle_bool_false in C. constructor; [now apply IH |].
      rewrite Forall_forall in *. intros z I.
      apply insert_desc_in in I. destruct I as [-> | I].
      * unfold by_confidence_desc. lra.
      * now apply F.
Qed.

Lemma sort_desc_sorted (l : list SimplePremierLeaguePredictor.Prediction) :
  StronglySorted by_confidence_desc (SimplePremierLeaguePredictor.sort_desc l).
Proof.
  induction l as [|x l IH]; simpl; [constructor | now apply insert_desc_sorted].
Qed.

Lemma add_risk_adjusted_sorted (l : list SimplePremierLeaguePredictor.Prediction) :
  StronglySorted by_confidence_desc l ->
  StronglySorted by_confidence_desc
    (map SimplePremierLeaguePredictor.add_risk_adjusted l).
Proof.
  induction 1 as [|x l S IH F]; simpl; constructor; trivial.
  rewrite Forall_forall in *. intros z I.
  apply in_map_iff in I. destruct I as (y & <- & I).
  exact (F y I).
Qed.

Lemma sorted_suffix (l1 l2 : list SimplePremierLeaguePredictor.Prediction) :
  StronglySorted by_confidence_desc (l1 ++ l2) ->
  StronglySorted by_confidence_desc l2.
Proof.
  induction l1 as [|x l1 IH]; simpl; trivial.
  intro S. inversion S; subst. now apply IH.
Qed.

Lemma max_by_key_position (rest : list SimplePremierLeaguePredictor.Prediction) :
  forall before cur after,
    (forall p, In p before ->
               SimplePremierLeaguePredictor.key p
               < SimplePremierLeaguePredictor.key cur) ->
    (forall p, In p after ->
               SimplePremierLeaguePredictor.key p
               <= SimplePremierLeaguePredictor.key cur) ->
    let m := SimplePremierLeaguePredictor.max_by_key cur rest in
    exists l1 l2,
      before ++ cur :: after ++ rest = l1 ++ m :: l2
      /\ (forall p, In p l1 ->
                    SimplePremierLeaguePredictor.key p
                    < SimplePremierLeaguePredictor.key m)
      /\ (forall p, In p l2 ->
                    SimplePremierLeaguePredictor.key p
                    <= SimplePremierLeaguePredictor.key m).
Proof.
  unfold SimplePremierLeaguePredictor.max_by_key.
  induction rest as [|x rest IH]; intros before cur after B A; cbn zeta; simpl.
  - exists before, after. rewrite app_nil_r. auto.
  - destruct (Py.Qltb (SimplePremierLeaguePredictor.key cur)
                      (SimplePremierLeaguePredictor.key x)) eqn:L.
    + apply Qltb_true in L.
      destruct (IH (before ++ cur :: after) x []) as (l1 & l2 & E & P1 & P2).
      * intros p I. apply in_app_or in I.
        destruct I as [I | [<- | I]]; [specialize (B p I) | | specialize (A p I)];
          lra.
      * intros p [].
      * exists l1, l2. split; [| now split].
        rewrite <- E. simpl. now rewrite <- app_assoc.
    + apply Qltb_false in L.
      destruct (IH before cur (after ++ [x])) as (l1 & l2 & E & P1 & P2);
        trivial.
      * intros p I. apply in_app_or in I.
        destruct I as [I | [<- | []]]; [now apply A | trivial].
      * exists l1, l2. split; [| now split].
        rewrite <- E. now rewrite <- app_assoc.
Qed.

(** X14.  Ties in the Premier League predictor go to the higher raw
    confidence: past the two early exits, no candidate with the
    risk-adjusted confidence of the returned bet has a greater
    calibrated confidence than the bet. *)
Theorem premier_league_ties (lookback_len team_matches_len : nat)
    (evaluated : list SimplePremierLeaguePredictor.Evaluated) (b : BestBet) :
  SimplePremierLeaguePredictor.predict lookback_len team_matches_len evaluated
    = SimplePremierLeaguePredictor.ReturnBestBet b ->
  forall e, In e evaluated -> pl_candidate e = true ->
            pl_risk_adjusted e == risk_adjusted_confidence b ->
            SimplePremierLeaguePredictor.ev_confidence e <= confidence b.
Proof.
  unfold SimplePremierLeaguePredictor.predict.
  destruct (lookback_len =? 0)%nat; [discriminate |].
  destruct (team_matches_len <? 3)%nat; [discriminate |].
  set (sorted := SimplePremierLeaguePredictor.sort_desc
                   (flat_map SimplePremierLeaguePredictor.recommend evaluated)).
  pose proof (add_risk_adjusted_sorted sorted (sort_desc_sorted _)) as S.
  destruct (map SimplePremierLeaguePredictor.add_risk_adjusted sorted)
    as [|p ps] eqn:M; [discriminate |].
  intros [= <-] e I C K. simpl in *.
  destruct (max_by_key_position ps [] p [])
    as (l1 & l2 & E & P1 & P2); try (intros ? []).
  cbn zeta in E, P1, P2. simpl in E.
  set (m := SimplePremierLeaguePredictor.max_by_key p ps) in *.
  assert (J : In (SimplePremierLeaguePredictor.add_risk_adjusted
                    (SimplePremierLeaguePredictor.mkPrediction
                       (SimplePremierLeaguePredictor.ev_pattern e)
                       (SimplePremierLeaguePredictor.ev_confidence e)
                       (SimplePremierLeaguePredictor.ev_adjusted_threshold e)
                       None))
                 (p :: ps)).
  { rewrite <- M. apply in_map. unfold sorted.
    apply sort_desc_in. apply recommended_in. exists e. split; trivial.
    apply filter_In. now split. }
  rewrite E in J, S. apply in_app_or in J.
  destruct J as [J | [J | J]].
  - specialize (P1 _ J). simpl in P1. unfold pl_risk_adjusted in K.
    unfold SimplePremierLeaguePredictor.key in P1 at 1. simpl in P1. lra.
  - rewrite J. simpl. lra.
  - apply sorted_suffix in S. inversion S as [|? ? _ F]; subst.
    rewrite Forall_forall in F. specialize (F _ J).
    unfold by_confidence_desc in F. simpl in F. exact F.
Qed.

Lemma premier_league_ties_witness :
  exists b,
    SimplePremierLeaguePredictor.predict 10 5 Samples.tied
      = SimplePremierLeaguePredictor.ReturnBestBet b
    /\ pattern_name b = "over_2_5_goals"%string
    /\ In Samples.corners_at_80 Samples.tied
    /\ pl_candidate Samples.corners_at_80 = true
    /\ pl_risk_adjusted Samples.corners_at_80 == risk_adjusted_confidence b
    /\ SimplePremierLeaguePredictor.ev_confidence Samples.corners_at_80
       <= confidence b.
Proof.
  set (b := mkBestBet "over_2_5_goals" 0.84
              (RiskAdjustment.calculate_risk_adjusted_confidence 0.84
                 "over_2_5_goals") 0.65).
  assert (E : SimplePremierLeaguePredictor.predict 10 5 Samples.tied
              = SimplePremierLeaguePredictor.ReturnBestBet b) by reflexivity.
  assert (I : In Samples.corners_at_80 Samples.tied) by (left; reflexivity).
  assert (C : pl_candidate Samples.corners_at_80 = true) by reflexivity.
  assert (K : pl_risk_adjusted Samples.corners_at_80
              == risk_adjusted_confidence b) by reflexivity.
  exists b. split; [exact E | split; [reflexivity |]].
  split; [exact I | split; [exact C | split; [exact K |]]].
  exact (premier_league_ties 10 5 Samples.tied b E Samples.corners_at_80 I C K).
Defined.

(** ** The backtest *)

Lemma set_sum_stats (f : Backtest.Stats -> nat)
    (d : Py.dict string Backtest.Stats) (k : string) (v : Backtest.Stats) :
  (sum_stats f (Py.set String.eqb d k v)
   + match Py.get String.eqb d k with Some s => f s | None => 0 end
   = sum_stats f d + f v)%nat.
Proof.
  induction d as [|[k' v'] d IH]; simpl; [lia |].
  destruct (String.eqb k k'); simpl; lia.
Qed.

Lemma count_pattern_sums (d : Py.dict string Backtest.Stats) (k : string)
    (is_correct : bool) :
  sum_stats Backtest.stat_total (Backtest.count_pattern d k is_correct)
    = S (sum_stats Backtest.stat_total d)
  /\ sum_stats Backtest.stat_correct (Backtest.count_pattern d k is_correct)
     = ((if is_correct then 1 else 0) + sum_stats Backtest.stat_correct d)%nat.
Proof.
  unfold Backtest.count_pattern.
  split.
  - pose proof (set_sum_stats Backtest.stat_total d k
                  (Backtest.mkStats
                     (if is_correct
                      then S (Backtest.stat_correct
                                match Py.get String.eqb d k with
                                | Some s => s
                                | None => Backtest.mkStats 0 0
                                end)
                      else Backtest.stat_correct
                             match Py.get String.eqb d k with
                             | Some s => s
                             | None => Backtest.mkStats 0 0
                             end)
                     (S (Backtest.stat_total
                           match Py.get String.eqb d k with
                           | Some s => s
                           | None => Backtest.mkStats 0 0
                           end)))) as H.
    destruct (Py.get String.eqb d k); simpl in *; lia.
  - pose proof (set_sum_stats Backtest.stat_correct d k
                  (Backtest.mkStats
                     (if is_correct
                      then S (Backtest.stat_correct
                                match Py.get String.eqb d k with
                                | Some s => s
                                | None => Backtest.mkStats 0 0
                                end)
                      else Backtest.stat_correct
                             match Py.get String.eqb d k with
                             | Some s => s
                             | None => Backtest.mkStats 0 0
                             end)
                     (S (Backtest.stat_total
                           match Py.get String.eqb d k with
                           | Some s => s
                           | None => Backtest.mkStats 0 0
                           end)))) as H.
    destruct (Py.get String.eqb d k), is_correct; simpl in *; lia.
Qed.

Lemma count_pattern_entries (d : Py.dict string Backtest.Stats) (k : string)
    (is_correct : bool) :
  Forall (fun kv => (Backtest.stat_correct (snd kv)
                     <= Backtest.stat_total (snd kv))%nat
                    /\ (1 <= Backtest.stat_total (snd kv))%nat) d ->
  Forall (fun kv => (Backtest.stat_correct (snd kv)
                     <= Backtest.stat_total (snd kv))%nat
                    /\ (1 <= Backtest.stat_total (snd kv))%nat)
    (Backtest.count_pattern d k is_correct).
Proof.
  unfold Backtest.count_pattern.
  induction 1 as [|[k' v'] d [A B] F IH]; simpl.
  - constructor; [simpl; destruct is_correct; lia | constructor].
  - destruct (String.eqb k k'); constructor; trivial; simpl in *;
      try (destruct is_correct; lia); now split.
Qed.

Section BacktestCounts.

Variable sort_values : DataFrame -> DataFrame.
Variable predict_match :
  string -> string -> DataFrame -> datetime -> option BestBet.
Variable registry : Registry.PatternRegistry.

Lemma test_match_consistent (predictor_data : DataFrame)
    (tally : Backtest.Tally) (m : MatchRow) (tested : nat) :
  tally_consistent registry tally tested ->
  tally_consistent registry
    (Backtest.test_match predict_match registry predictor_data tally m)
    (S tested).
Proof.
  intros (L & (C & T) & K & St & Sc & Fe & Fl).
  assert (Same : tally_consistent registry tally (S tested)).
  { unfold tally_consistent. repeat split; trivial; lia. }
  unfold Backtest.test_match.
  destruct (_ <? 30)%nat; trivial.
  destruct (Backtest.date_max _); trivial.
  destruct (predict_match _ _ _ _) as [prediction|]; trivial.
  destruct (Qeq_bool (risk_adjusted_confidence prediction) 0) eqn:Z0;
    simpl; trivial.
  destruct (Qeq_bool (threshold prediction) 0 || _); trivial.
  destruct (Py.Qltb _ _); trivial.
  destruct (Registry.get_pattern registry (pattern_name prediction))
    as [pattern|] eqn:G; trivial.
  destruct (count_pattern_sums (Backtest.by_pattern tally)
              (pattern_name prediction) (Registry.label_fn pattern m))
    as [S1 S2].
  unfold tally_consistent. simpl.
  rewrite length_app, filter_app, length_app. simpl.
  rewrite S1, S2, St, Sc, L, K.
  repeat split.
  - lia.
  - destruct (Registry.label_fn pattern m); lia.
  - lia.
  - destruct (Registry.label_fn pattern m); simpl; lia.
  - destruct (Registry.label_fn pattern m); simpl; lia.
  - now apply count_pattern_entries.
  - apply Forall_app. split; trivial. constructor; [| constructor]. simpl.
    split.
    + apply (get_in string Registry.Pattern String.eqb Seqb_eq) in G.
      unfold Registry.list_patterns, Py.keys.
      change (pattern_name prediction)
        with (fst (pattern_name prediction, pattern)).
      now apply in_map.
    + now apply Qeq_bool_neq.
Qed.

Lemma fold_test_match_consistent (predictor_data tests : DataFrame) :
  forall tally tested,
    tally_consistent registry tally tested ->
    tally_consistent registry
      (fold_left (Backtest.test_match predict_match registry predictor_data)
         tests tally)
      (tested + List.length tests).
Proof.
  induction tests as [|m tests IH]; intros tally tested I; simpl.
  - now rewrite Nat.add_0_r.
  - replace (tested + S (List.length tests))%nat
      with (S tested + List.length tests)%nat by lia.
    apply IH. now apply test_match_consistent.
Qed.

(** X15.  The figures [backtest_league] returns agree with each other:
    at least one and at most as many predictions as matches in the test
    window, no more correct ones than predictions, one logged row per
    prediction with as many correct rows as the count says, per-pattern
    counters that add up to the totals, every logged pattern a
    registered one, and a win rate between 0 and 100 equal to 100 times
    correct over total. *)
Theorem backtest_figures_agree (predictor_data all_data : DataFrame)
    (days : Z) :
  match Backtest.backtest_league sort_values predict_match registry
          predictor_data all_data days with
  | None => True
  | Some res =>
      (1 <= Backtest.res_total res
       <= List.length (Backtest.test_matches sort_values predictor_data
                         all_data days))%nat
      /\ (Backtest.res_correct res <= Backtest.res_total res)%nat
      /\ List.length (Backtest.res_predictions res) = Backtest.res_total res
      /\ List.length (filter Backtest.log_correct (Backtest.res_predictions res))
         = Backtest.res_correct res
      /\ sum_stats Backtest.stat_total (Backtest.res_by_pattern res)
         = Backtest.res_total res
      /\ sum_stats Backtest.stat_correct (Backtest.res_by_pattern res)
         = Backtest.res_correct res
      /\ (forall logged, In logged (Backtest.res_predictions res) ->
            In (Backtest.log_pattern logged) (Registry.list_patterns registry))
      /\ 0 <= Backtest.res_win_rate res <= 100
      /\ Backtest.res_win_rate res * inject_Z (Z.of_nat (Backtest.res_total res))
         == 100 * inject_Z (Z.of_nat (Backtest.res_correct res))
  end.
Proof.
  unfold Backtest.backtest_league.
  set (tests := Backtest.test_matches sort_values predictor_data all_data days).
  destruct (List.length tests =? 0)%nat; trivial.
  assert (I0 : tally_consistent registry (Backtest.mkTally [] 0 0 []) 0).
  { unfold tally_consistent. simpl. repeat split; trivial; constructor. }
  pose proof (fold_test_match_consistent predictor_data tests _ _ I0) as I.
  simpl in I.
  destruct (fold_left _ tests _) as [preds correct total by_pattern].
  simpl. destruct (total =? 0)%nat eqn:T0; trivial.
  apply Nat.eqb_neq in T0.
  destruct I as (L & (C & T) & K & St & Sc & _ & Fl). simpl in *.
  assert (P : Z.pos (Pos.of_nat total) = Z.of_nat total)
    by (rewrite <- positive_nat_Z, Nat2Pos.id; trivial).
  repeat split; trivial; try lia.
  - intros logged J. rewrite Forall_forall in Fl. now apply Fl.
  - unfold Qle, Qmult. cbn [Qnum Qden]. lia.
  - unfold Qle, Qmult. cbn [Qnum Qden].
    rewrite ?Pos2Z.inj_mul, P. lia.
  - unfold Qeq, Qmult, inject_Z. cbn [Qnum Qden].
    rewrite ?Pos2Z.inj_mul, P. lia.
Qed.

End BacktestCounts.

(** A run: of the fourteen matches of the last fourteen days, the ten
    with thirty earlier matches are predicted, all of them correctly. *)
Example backtest_run :
  match Backtest.backtest_league (fun df => df) Samples.romanian
          Samples.two_card_patterns Samples.season Samples.season 14 with
  | Some res =>
      Backtest.res_total res = 10%nat /\ Backtest.res_correct res = 10%nat
      /\ Backtest.res_win_rate res == 100
      /\ List.length (Backtest.test_matches (fun df => df) Samples.season
                        Samples.season 14) = 14%nat
  | None => False
  end.
Proof. vm_compute. repeat split; reflexivity. Qed.

(** ** The heuristic fallback *)

Lemma clamp_cases (lo hi x : Q) :
  lo <= hi ->
  lo <= Py.max lo (Py.min hi x) <= hi
  /\ (x <= lo -> Py.max lo (Py.min hi x) == lo)
  /\ (hi <= x -> Py.max lo (Py.min hi x) == hi)
  /\ (lo <= x <= hi -> Py.max lo (Py.min hi x) == x).
Proof.
  intro L. unfold Py.max, Py.min.
  destruct (Py.Qltb x hi) eqn:H;
    [apply Qltb_true in H | apply Qltb_false in H].
  - destruct (Py.Qltb lo x) eqn:G;
      [apply Qltb_true in G | apply Qltb_false in G];
      repeat split; intros; lra.
  - destruct (Py.Qltb lo hi) eqn:G;
      [apply Qltb_true in G | apply Qltb_false in G];
      repeat split; intros; lra.
Qed.

Lemma underscore_head (c : ascii) (s : string) :
  RiskAdjustment.contains_str "_" (String c s)
  = Ascii.eqb c "_" || RiskAdjustment.contains_str "_" s.
Proof.
  change (RiskAdjustment.contains_str "_" (String c s))
    with (prefix "_" (String c s) || RiskAdjustment.contains_str "_" s).
  f_equal. cbn [prefix].
  destruct (ascii_dec "_" c) as [<- | N].
  - destruct s; reflexivity.
  - symmetry. apply Ascii.eqb_neq. congruence.
Qed.

Lemma underscore_snoc (acc : string) (c : ascii) :
  RiskAdjustment.contains_str "_" acc = false -> Ascii.eqb c "_" = false ->
  RiskAdjustment.contains_str "_" (acc ++ String c EmptyString) = false.
Proof.
  induction acc as [|a acc IH]; intros A C.
  - simpl append. rewrite underscore_head, C. reflexivity.
  - simpl append. rewrite underscore_head in *.
    apply orb_false_elim in A. destruct A as [A1 A2].
    rewrite A1. simpl. now apply IH.
Qed.

Lemma last_segment_no_underscore (s : string) :
  forall acc,
    RiskAdjustment.contains_str "_" acc = false ->
    RiskAdjustment.contains_str "_"
      (RomanianMatchPredictor.last_segment s acc) = false.
Proof.
  induction s as [|c s IH]; intros acc A; simpl; trivial.
  destruct (Ascii.eqb c "_") eqn:C.
  - apply IH. reflexivity.
  - apply IH. now apply underscore_snoc.
Qed.

Lemma base_confidence_is_half (lookup_key : string) :
  RiskAdjustment.contains_str "_" lookup_key = false ->
  Py.get String.eqb RomanianMatchPredictor.base_confidences lookup_key = None.
Proof.
  intro N.
  destruct (Py.get String.eqb RomanianMatchPredictor.base_confidences lookup_key)
    as [v|] eqn:G; trivial.
  exfalso. apply (get_in string Q String.eqb Seqb_eq) in G.
  assert (B : forallb (fun kv : string * Q =>
                         RiskAdjustment.contains_str "_" (fst kv))
                RomanianMatchPredictor.base_confidences = true)
    by (vm_compute; reflexivity).
  rewrite forallb_forall in B. specialize (B _ G). simpl in B. congruence.
Qed.

Lemma heuristic_range (match_data : MatchRow) (pattern_name : string)
    (historical_data : DataFrame) (g : RomanianMatchPredictor.RandomState) :
  0.1 <= fst (RomanianMatchPredictor._estimate_confidence_heuristic
                match_data pattern_name historical_data g) <= 0.9.
Proof.
  unfold RomanianMatchPredictor._estimate_confidence_heuristic,
    RomanianMatchPredictor.bind, RomanianMatchPredictor.ret,
    RomanianMatchPredictor.draw.
  simpl. apply clamp_cases. lra.
Qed.

(** X16.  The table of base confidences of the heuristic is never hit:
    the name is looked up by its last underscore-separated piece, which
    contains no underscore, while every key of the table does.  So for
    every pattern the heuristic returns 0.50 plus one normal draw, cut
    to [0.1, 0.9], and advances the generator by exactly one draw. *)
Theorem heuristic_is_half_plus_noise (match_data : MatchRow)
    (pattern_name : string) (historical_data : DataFrame)
    (g : RomanianMatchPredictor.RandomState) :
  let r := RomanianMatchPredictor._estimate_confidence_heuristic
             match_data pattern_name historical_data g in
  fst r = Py.max 0.1 (Py.min 0.9
            (0.50 + RomanianMatchPredictor.variates g
                      (RomanianMatchPredictor.drawn g)))
  /\ 0.1 <= fst r <= 0.9
  /\ RomanianMatchPredictor.drawn (snd r) = S (RomanianMatchPredictor.drawn g)
  /\ RomanianMatchPredictor.variates (snd r) = RomanianMatchPredictor.variates g.
Proof.
  intro r. subst r.
  unfold RomanianMatchPredictor._estimate_confidence_heuristic,
    RomanianMatchPredictor.bind, RomanianMatchPredictor.ret,
    RomanianMatchPredictor.draw.
  rewrite base_confidence_is_half.
  - simpl. repeat split; trivial; apply clamp_cases; lra.
  - destruct (RiskAdjustment.contains_str "_" pattern_name) eqn:U; trivial.
    now apply last_segment_no_underscore.
Qed.

Lemma first_odds_head (pattern_name : string) :
  RiskAdjustment.contains_str "over_0_5_goals" pattern_name = true ->
  RomanianMatchPredictor._get_expected_odds pattern_name = 1.15.
Proof.
  intro C. unfold RomanianMatchPredictor._get_expected_odds.
  unfold RomanianMatchPredictor.expected_odds.
  cbn [RomanianMatchPredictor.first_odds]. now rewrite C.
Qed.

(** X17.  Without a trained model a pattern is recommended as a bet
    only if its expected odds exceed 1.05/0.9: the heuristic confidence
    is at most 0.9 and a bet needs an expected value above 0.05.  In
    particular no pattern whose name contains [over_0_5_goals] (odds
    1.15) is ever a bet on the fallback path, whatever the draw and the
    threshold. *)
Theorem fallback_never_bets_at_short_odds (match_data : MatchRow)
    (pattern_name : string) (historical_data : DataFrame) (threshold : Q)
    (g : RomanianMatchPredictor.RandomState) :
  let r := fst (RomanianMatchPredictor.fallback_recommendation match_data
                  pattern_name historical_data threshold g) in
  (snd r = RomanianMatchPredictor.BET ->
   1.05 < 0.9 * RomanianMatchPredictor._get_expected_odds pattern_name
   /\ threshold <= fst r)
  /\ (RiskAdjustment.contains_str "over_0_5_goals" pattern_name = true ->
      snd r <> RomanianMatchPredictor.BET).
Proof.
  intro r. subst r.
  unfold RomanianMatchPredictor.fallback_recommendation.
  unfold RomanianMatchPredictor.bind.
  pose proof (heuristic_range match_data pattern_name historical_data g) as R.
  destruct (RomanianMatchPredictor._estimate_confidence_heuristic
              match_data pattern_name historical_data g) as [c g'].
  simpl in R.
  unfold RomanianMatchPredictor.ret. simpl.
  assert (O : forall n, 0 < RomanianMatchPredictor._get_expected_odds n).
  { intro n. unfold RomanianMatchPredictor._get_expected_odds.
    destruct (RomanianMatchPredictor.first_odds
                RomanianMatchPredictor.expected_odds n) as [o|] eqn:F;
      [| reflexivity].
    unfold RomanianMatchPredictor.expected_odds in F.
    cbn [RomanianMatchPredictor.first_odds] in F.
    repeat (destruct (RiskAdjustment.contains_str _ n);
            [injection F as <-; reflexivity |]).
    discriminate F. }
  assert (B : RomanianMatchPredictor.recommendation_of c threshold
                (RomanianMatchPredictor._calculate_expected_value c
                   (RomanianMatchPredictor._get_expected_odds pattern_name))
              = RomanianMatchPredictor.BET ->
              1.05 < 0.9 * RomanianMatchPredictor._get_expected_odds pattern_name
              /\ threshold <= c).
  { unfold RomanianMatchPredictor.recommendation_of,
      RomanianMatchPredictor._calculate_expected_value.
    destruct (Qle_bool threshold c) eqn:T; simpl; [| discriminate].
    destruct (Py.Qltb 0.05 _) eqn:E; [| discriminate].
    intros _. apply Qltb_true in E. apply Qle_bool_iff in T.
    split; trivial.
    specialize (O pattern_name).
    assert (c * RomanianMatchPredictor._get_expected_odds pattern_name
            <= 0.9 * RomanianMatchPredictor._get_expected_odds pattern_name)
      by (apply Qmult_le_compat_r; lra).
    lra. }
  split; [exact B |].
  intros C E. destruct (B E) as [B1 _].
  rewrite (first_odds_head _ C) in B1. revert B1. apply Qle_not_lt.
  vm_compute. discriminate.
Qed.

Lemma fallback_never_bets_at_short_odds_witness :
  RiskAdjustment.contains_str "over_0_5_goals" "home_over_0_5_goals" = true /\
  snd (fst (RomanianMatchPredictor.fallback_recommendation
              (Samples.row_on 1000 0 0) "home_over_0_5_goals"
              Samples.recent_corpus 0.55 Samples.generator))
  <> RomanianMatchPredictor.BET.
Proof.
  assert (C : RiskAdjustment.contains_str "over_0_5_goals" "home_over_0_5_goals"
              = true) by reflexivity.
  split; [exact C |].
  exact (proj2 (fallback_never_bets_at_short_odds (Samples.row_on 1000 0 0)
                  "home_over_0_5_goals" Samples.recent_corpus 0.55
                  Samples.generator) C).
Defined.

(** ** Stakes *)

(** X18.  For odds above 1 the Kelly stake fraction is a quarter of the
    expected value over the net odds, cut to the band from 0.5% to 3%
    of the bankroll: it is 0.5% whenever the expected value is at most
    2% of the net odds (so a bet without positive expected value is
    still staked at the floor), 3% whenever the expected value is at
    least 12% of the net odds, and exactly a quarter of the expected
    value over the net odds in between. *)
Theorem kelly_stake_fraction_band (confidence odds : Q) :
  1 < odds ->
  exists f,
    RomanianMatchPredictor.kelly_stake_fraction confidence odds = Some f
    /\ 0.005 <= f <= 0.03
    /\ (RomanianMatchPredictor._calculate_expected_value confidence odds
        <= 0.02 * (odds - 1) ->
        f == 0.005)
    /\ (RomanianMatchPredictor._calculate_expected_value confidence odds <= 0 ->
        f == 0.005)
    /\ (0.12 * (odds - 1)
        <= RomanianMatchPredictor._calculate_expected_value confidence odds ->
        f == 0.03)
    /\ (0.02 * (odds - 1)
        <= RomanianMatchPredictor._calculate_expected_value confidence odds
        <= 0.12 * (odds - 1) ->
        f * (odds - 1)
        == 0.25 * RomanianMatchPredictor._calculate_expected_value confidence odds)
    /\ f == Py.max 0.005
             (Py.min 0.03
                (0.25 * (RomanianMatchPredictor._calculate_expected_value
                           confidence odds / (odds - 1)))).
Proof.
  intro O.
  unfold RomanianMatchPredictor.kelly_stake_fraction,
    RomanianMatchPredictor._calculate_expected_value.
  destruct (Qeq_bool (odds - 1.0) 0) eqn:Z0.
  - apply Qeq_bool_iff in Z0. exfalso. lra.
  - eexists. split; [reflexivity |].
    set (k := ((odds - 1.0) * confidence - (1.0 - confidence)) / (odds - 1.0)).
    assert (L : 0.005 <= 0.03) by lra.
    assert (K : k * (odds - 1) == confidence * odds - 1.0).
    { unfold k. field. lra. }
    assert (K' : k == (confidence * odds - 1.0) / (odds - 1)).
    { unfold k. field. lra. }
    destruct (clamp_cases 0.005 0.03 (k * 0.25) L) as (R & Lo & Hi & Mid).
    assert (Floor : confidence * odds - 1.0 <= 0.02 * (odds - 1) ->
                    Py.max 0.005 (Py.min 0.03 (k * 0.25)) == 0.005).
    { intro E. apply Lo.
      assert (k <= 0.02); [| lra].
      unfold k. apply Qle_shift_div_r; lra. }
    split; trivial. repeat split.
    + exact Floor.
    + intro E. apply Floor. lra.
    + intro E. apply Hi.
      assert (0.12 <= k); [| lra].
      unfold k. apply Qle_shift_div_l; lra.
    + intros [E1 E2]. rewrite Mid.
      * rewrite <- K. ring.
      * assert (0.02 <= k) by (unfold k; apply Qle_shift_div_l; lra).
        assert (k <= 0.12) by (unfold k; apply Qle_shift_div_r; lra).
        lra.
    + destruct (clamp_cases 0.005 0.03
                  (0.25 * ((confidence * odds - 1.0) / (odds - 1))) L)
        as (_ & Lo' & Hi' & Mid').
      destruct (Qlt_le_dec (k * 0.25) 0.005) as [C1 | C1].
      * rewrite Lo by lra. rewrite Lo'; [reflexivity |]. rewrite <- K'. lra.
      * destruct (Qlt_le_dec 0.03 (k * 0.25)) as [C2 | C2].
        -- rewrite Hi by lra. rewrite Hi'; [reflexivity |]. rewrite <- K'. lra.
        -- rewrite Mid by lra. rewrite Mid'; [| rewrite <- K'; lra].
           rewrite <- K'. ring.
Qed.

Lemma kelly_stake_fraction_band_witness :
  1 < 1.80 /\
  exists f,
    RomanianMatchPredictor.kelly_stake_fraction 0.5 1.80 = Some f
    /\ 0.005 <= f <= 0.03
    /\ f == 0.005.
Proof.
  assert (O : 1 < 1.80) by reflexivity.
  split; [exact O |].
  destruct (kelly_stake_fraction_band 0.5 1.80 O) as (f & E & B & F & _).
  exists f. split; [exact E | split; [exact B |]].
  apply F. unfold RomanianMatchPredictor._calculate_expected_value. lra.
Defined.

(** X19.  [predict_match] stakes a bet at the expected odds of its
    pattern.  These odds lie between 1.15 and 4.50 whatever the pattern
    name, so the net odds are never zero: the stake fraction is always
    computed, and lies in the band from 0.5% to 3%. *)
Theorem stake_at_expected_odds (confidence : Q) (pattern_name : string) :
  1.15 <= RomanianMatchPredictor._get_expected_odds pattern_name <= 4.50
  /\ exists f,
       RomanianMatchPredictor.kelly_stake_fraction confidence
         (RomanianMatchPredictor._get_expected_odds pattern_name) = Some f
       /\ 0.005 <= f <= 0.03.
Proof.
  assert (O : 1.15 <= RomanianMatchPredictor._get_expected_odds pattern_name
              <= 4.50).
  { unfold RomanianMatchPredictor._get_expected_odds,
      RomanianMatchPredictor.expected_odds.
    cbn [RomanianMatchPredictor.first_odds].
    repeat (match goal with
            | |- context [if ?b then _ else _] => destruct b
            end; [lra |]).
    lra. }
  split; [exact O |].
  unfold RomanianMatchPredictor.kelly_stake_fraction.
  destruct (Qeq_bool (RomanianMatchPredictor._get_expected_odds pattern_name
                      - 1.0) 0) eqn:Z0.
  - apply Qeq_bool_iff in Z0. exfalso. lra.
  - eexists. split; [reflexivity |].
    apply clamp_cases. lra.
Qed.

(** ** Sample sizes *)

(** X20.  More matches never lower the sample adjustment: with the same
    minimums, windows of 7 and 30 days that hold at least as many
    matches get an adjustment that is at least as high.  The adjustment
    is never positive and never below -0.05. *)
Theorem sample_adjustment_monotone (min_matches_7d min_matches_30d : Z)
    (m7 m30 m7' m30' : nat) :
  (m7 <= m7')%nat -> (m30 <= m30')%nat ->
  snd (sample_validation min_matches_7d min_matches_30d m7 m30)
  <= snd (sample_validation min_matches_7d min_matches_30d m7' m30')
  /\ -0.05 <= snd (sample_validation min_matches_7d min_matches_30d m7 m30) <= 0.
Proof.
  intros L7 L30. unfold sample_validation.
  repeat match goal with
         | |- context [(?a <=? ?b)%Z] => destruct (Z.leb_spec a b)
         end; simpl; try (split; lra); exfalso; lia.
Qed.

Lemma sample_adjustment_monotone_witness :
  (2 <= 3)%nat /\ (9 <= 10)%nat
  /\ snd (sample_validation 3 10 2 9) <= snd (sample_validation 3 10 3 10).
Proof.
  assert (L7 : (2 <= 3)%nat) by lia.
  assert (L30 : (9 <= 10)%nat) by lia.
  split; [exact L7 | split; [exact L30 |]].
  exact (proj1 (sample_adjustment_monotone 3 10 2 9 3 10 L7 L30)).
Defined.

(** ** When every window sees the same matches *)

Lemma clamp01_comp (x y : Q) : x == y -> Py.clamp01 x == Py.clamp01 y.
Proof.
  intro E. apply Qle_antisym; apply clamp01_monotone; lra.
Qed.

Lemma fold_plus_constant (c : Q) (l : list Q) :
  Forall (fun x => x == c) l ->
  forall a, fold_left Qplus l a
            == a + inject_Z (Z.of_nat (List.length l)) * c.
Proof.
  induction 1 as [|x l E _ IH]; intro a; simpl fold_left.
  - simpl. ring.
  - rewrite IH.
    change (List.length (x :: l)) with (S (List.length l)).
    rewrite Nat2Z.inj_succ. unfold Z.succ. rewrite inject_Z_plus.
    rewrite E. ring.
Qed.

Lemma mean_constant (c : Q) (l : list Q) :
  l <> [] -> Forall (fun x => x == c) l -> Qmean l == c.
Proof.
  intros N F. unfold Qmean, Qsum. rewrite (fold_plus_constant c l F).
  assert (P : 0 < inject_Z (Z.of_nat (List.length l))).
  { destruct l; [tauto |]. unfold Qlt. simpl. lia. }
  field. lra.
Qed.

Lemma variance_constant (c : Q) (l : list Q) :
  l <> [] -> Forall (fun x => x == c) l -> np_var l == 0.
Proof.
  intros N F. unfold np_var.
  pose proof (mean_constant c l N F) as M.
  apply mean_constant.
  - destruct l; [tauto | discriminate].
  - rewrite Forall_forall in *. intros y I.
    apply in_map_iff in I. destruct I as (x & <- & I).
    rewrite (F x I), M. ring.
Qed.

Lemma consistency_constant (c : Q) (l : list Q) :
  Forall (fun x => x == c) l ->
  fst (consistency_of l) = (high, 0.01).
Proof.
  intro F. unfold consistency_of.
  assert (V : (if (1 <? List.length l)%nat then np_var l else 0) == 0).
  { destruct (1 <? List.length l)%nat; [| reflexivity].
    destruct l; [reflexivity |]. apply (variance_constant c); [discriminate | trivial]. }
  rewrite (Qltb_comp _ 0 (0.03 * 0.03) (0.03 * 0.03) V (Qeq_refl _)).
  reflexivity.
Qed.

Lemma trend_flat (x y : Q) : x == 0 -> y == 0 -> trend_of x y = (stable, 0.0).
Proof.
  intros X Y. unfold trend_of.
  rewrite (Qltb_comp 0.03 0.03 x 0 (Qeq_refl _) X).
  rewrite (Qltb_comp x 0 (-0.03) (-0.03) X (Qeq_refl _)).
  reflexivity.
Qed.

Section SameRows.

Variable data : DataFrame.
Variable d : datetime.
Variable fn : MatchRow -> bool.
Variable rows : DataFrame.

Lemma same_rows_confidences (tfs : Timeframes) :
  (forall days w, In (days, w) tfs -> tf_data data d days = rows) ->
  forall results confidences,
    Forall (fun x => x == success_rate fn rows) confidences ->
    Forall (fun x => x == success_rate fn rows)
      (snd (timeframe_loop data d fn tfs results confidences))
    /\ (Forall (fun kv => success (snd kv) = success_rate fn rows)
          results ->
        Forall (fun kv => success (snd kv) = success_rate fn rows)
          (fst (timeframe_loop data d fn tfs results confidences))).
Proof.
  induction tfs as [|[days w] tfs IH]; intros W results confidences F; simpl.
  - tauto.
  - rewrite (W days w) by now left.
    assert (W' : forall days' w', In (days', w') tfs ->
                                  tf_data data d days' = rows)
      by (intros days' w' I; apply (W days' w'); now right).
    destruct (0 <? List.length rows)%nat.
    + destruct (IH W' (Py.set Z.eqb results days
                         (mkTF (List.length rows) (success_rate fn rows) w))
                  (if Py.Qltb 0 w
                   then confidences ++ [success_rate fn rows]
                   else confidences)) as [C R].
      * destruct (Py.Qltb 0 w); trivial.
        apply Forall_app. split; trivial. constructor; [reflexivity | constructor].
      * split; trivial. intro G. apply R.
        clear -G. induction results as [|[k v] results IHr]; simpl.
        -- repeat constructor.
        -- inversion G; subst.
           destruct (days =? k)%Z; constructor; trivial. now apply IHr.
    + now apply IH.
Qed.

Lemma same_rows_sums (tfs : Timeframes) :
  (forall days w, In (days, w) tfs -> tf_data data d days = rows) ->
  sum (map (fun tf => hit_rate data d fn (fst tf) * snd tf)
         (filter (used data d) tfs))
  == success_rate fn rows * sum (map snd (filter (used data d) tfs)).
Proof.
  induction tfs as [|[days w] tfs IH]; intro W; simpl.
  - ring.
  - assert (W' : forall days' w', In (days', w') tfs ->
                                  tf_data data d days' = rows)
      by (intros days' w' I; apply (W days' w'); now right).
    destruct (used data d (days, w)); simpl; rewrite (IH W'); [| reflexivity].
    unfold hit_rate. rewrite (W days w) by now left. ring.
Qed.

(** X21.  When every window of the table in use holds the same,
    non-empty set of matches (all the history lies within the shortest
    window, say) and some weight is positive, the ensemble confidence
    is the plain hit rate on those matches, the trend is stable, the
    consistency high, and the final confidence is the hit rate plus
    0.01 plus the sample adjustment, clamped. *)
Theorem same_rows_give_the_hit_rate (m7 m30 : Z) (ct : option Timeframes)
    (uah : bool) :
  (forall tf, ct = Some tf -> Py.dict_keys_unique tf) ->
  rows <> [] ->
  (forall days w, In (days, w) (timeframes data d ct uah) ->
                  tf_data data d days = rows) ->
  (exists days w, In (days, w) (timeframes data d ct uah) /\ 0 < w) ->
  exists dbg,
    calculate_multi_timeframe_confidence data d fn m7 m30 ct uah
      = (final_confidence dbg, Debug dbg)
    /\ ensemble_confidence dbg == success_rate fn rows
    /\ (trend dbg, trend_adjustment dbg) = (stable, 0.0)
    /\ (consistency dbg, consistency_adjustment dbg) = (high, 0.01)
    /\ final_confidence dbg
       == Py.clamp01 (success_rate fn rows + 0.01 + sample_adjustment dbg).
Proof.
  intros U N W (days & w & I & Pw).
  set (tfs := timeframes data d ct uah) in *.
  set (rate := success_rate fn rows) in *.
  assert (L : (0 <? List.length rows)%nat = true)
    by (apply Nat.ltb_lt; destruct rows; [tauto | simpl; lia]).
  assert (Us : exists tf, In tf tfs /\ used data d tf = true).
  { exists (days, w). split; trivial. unfold used. simpl.
    rewrite (W days w I), L. apply andb_true_intro. split; trivial.
    now apply Qltb_true. }
  pose proof (used_weights_positive data d tfs Us) as Wp.
  pose proof (timeframe_loop_results data d fn tfs
                (timeframes_keys_unique data d ct uah U) [] []
                (fun k (F : In k []) => match F with end)) as R.
  simpl in R.
  destruct (same_rows_confidences tfs W [] [] (Forall_nil _)) as [Cf Rf].
  specialize (Rf (Forall_nil _)).
  destruct (ensemble_loop_sums data d fn tfs 0 0) as [A B]. cbn zeta in A, B.
  rewrite (same_rows_sums tfs W) in A.
  destruct (calculate_shape data d fn m7 m30 ct uah) as [[E _] | [_ E]];
    fold tfs in E.
  - exfalso. fold tfs in R. rewrite R in E.
    destruct Us as (tf & J & Utf). clear -E J Utf.
    induction tfs as [|x l IH]; simpl in *; [tauto |].
    apply app_eq_nil in E. destruct E as [E1 E2].
    destruct J as [-> | J]; [| now apply IH].
    unfold window_result in E1. unfold used in Utf.
    apply andb_prop in Utf. destruct Utf as [_ Utf]. rewrite Utf in E1.
    discriminate E1.
  - rewrite E.
    destruct (adjusted_confidence_parts
                (fst (timeframe_loop data d fn tfs [] []))
                (snd (timeframe_loop data d fn tfs [] [])) m7 m30)
      as (dbg & -> & Re & F & En & T & C & S & T7 & T30).
    exists dbg. split; [reflexivity |].
    assert (Ens : ensemble_confidence dbg == rate).
    { rewrite En. fold tfs in R. rewrite R.
      assert (X : Py.Qltb 0 (snd (ensemble_loop
                   (flat_map (window_result data d fn) tfs) 0 0)) = true)
        by (apply Qltb_true; rewrite B; lra).
      rewrite X, A, B. unfold rate. field. lra. }
    assert (G : forall k, get_success (fst (timeframe_loop data d fn tfs [] []))
                            k (ensemble_confidence dbg) == rate).
    { intro k. unfold get_success.
      destruct (Py.get Z.eqb _ k) as [r|] eqn:Gk; trivial.
      apply (get_in Z TimeframeResult Z.eqb Zeqb_eq) in Gk.
      rewrite Forall_forall in Rf. specialize (Rf _ Gk). simpl in Rf.
      rewrite Rf. reflexivity. }
    assert (Tr : (trend dbg, trend_adjustment dbg) = (stable, 0.0)).
    { rewrite T. apply trend_flat.
      - rewrite T7, !G. ring.
      - rewrite T30, !G. ring. }
    assert (Cn : (consistency dbg, consistency_adjustment dbg) = (high, 0.01)).
    { pose proof (consistency_constant rate _ Cf) as K.
      rewrite <- C in K. exact K. }
    split; trivial. split; trivial. split; trivial.
    rewrite F. apply clamp01_comp.
    injection Tr as _ ->. injection Cn as _ ->. rewrite Ens. ring.
Qed.

End SameRows.

Lemma same_rows_give_the_hit_rate_witness :
  (forall tf, @None Timeframes = Some tf -> Py.dict_keys_unique tf) /\
  tl Samples.recent_corpus <> [] /\
  (forall days w,
      In (days, w) (timeframes (tl Samples.recent_corpus) Samples.asof None true) ->
      tf_data (tl Samples.recent_corpus) Samples.asof days
      = tl Samples.recent_corpus) /\
  (exists days w,
      In (days, w) (timeframes (tl Samples.recent_corpus) Samples.asof None true)
      /\ 0 < w) /\
  exists dbg,
    calculate_multi_timeframe_confidence (tl Samples.recent_corpus)
      Samples.asof Samples.home_over_1_5_goals 3 10 None true
      = (final_confidence dbg, Debug dbg)
    /\ ensemble_confidence dbg
       == success_rate Samples.home_over_1_5_goals (tl Samples.recent_corpus).
Proof.
  assert (U : forall tf, @None Timeframes = Some tf -> Py.dict_keys_unique tf)
    by (intros tf E; discriminate E).
  assert (N : tl Samples.recent_corpus <> []) by discriminate.
  assert (W : forall days w,
      In (days, w) (timeframes (tl Samples.recent_corpus) Samples.asof None true) ->
      tf_data (tl Samples.recent_corpus) Samples.asof days
      = tl Samples.recent_corpus).
  { intros days w H. simpl in H.
    repeat (destruct H as [H | H]; [injection H as <- <-; reflexivity |]).
    destruct H. }
  assert (P : exists days w,
      In (days, w) (timeframes (tl Samples.recent_corpus) Samples.asof None true)
      /\ 0 < w).
  { exists 7%Z, 0.30. split; [left; reflexivity | reflexivity]. }
  split; [exact U | split; [exact N | split; [exact W | split; [exact P |]]]].
  destruct (same_rows_give_the_hit_rate (tl Samples.recent_corpus) Samples.asof
              Samples.home_over_1_5_goals (tl Samples.recent_corpus)
              3%Z 10%Z None true U N W P) as (dbg & E & En & _).
  exists dbg. split; [exact E | exact En].
Defined.

(** ** The predicate and the engine *)

Lemma success_rate_predicate (fn fn' : MatchRow -> bool) (rows : DataFrame) :
  (forall r, In r rows -> fn r = fn' r) ->
  success_rate fn rows = success_rate fn' rows.
Proof.
  intro H. unfold success_rate. now rewrite (filter_ext_in fn fn' rows H).
Qed.

Lemma tf_data_before (data : DataFrame) (d : datetime) (days : Z)
    (r : MatchRow) :
  In r (tf_data data d days) -> In r data /\ (Date r < d)%Z.
Proof.
  unfold tf_data. destruct (days =? 99999)%Z; intro I;
    apply filter_In in I; destruct I as [I B]; split; trivial.
  - now apply Z.ltb_lt.
  - apply andb_prop in B. now apply Z.ltb_lt.
Qed.

(** X22.  The engine evaluates the predicate only on the rows dated
    strictly before the as-of date: two predicates that agree on those
    rows give the same confidence and the same breakdown, whatever they
    answer on the match itself and on later matches. *)
Theorem engine_reads_predicate_on_earlier_rows (data : DataFrame)
    (d : datetime) (fn fn' : MatchRow -> bool) (m7 m30 : Z)
    (ct : option Timeframes) (uah : bool) :
  (forall r, In r data -> (Date r < d)%Z -> fn r = fn' r) ->
  calculate_multi_timeframe_confidence data d fn m7 m30 ct uah
  = calculate_multi_timeframe_confidence data d fn' m7 m30 ct uah.
Proof.
  intro H. unfold calculate_multi_timeframe_confidence.
  assert (L : forall tfs results confidences,
             timeframe_loop data d fn tfs results confidences
             = timeframe_loop data d fn' tfs results confidences).
  { induction tfs as [|[days w] tfs IH]; intros; simpl; trivial.
    rewrite (success_rate_predicate fn fn' (tf_data data d days)).
    - destruct (0 <? List.length (tf_data data d days))%nat; apply IH.
    - intros r I. apply tf_data_before in I. now apply H. }
  now rewrite L.
Qed.

Lemma engine_reads_predicate_on_earlier_rows_witness :
  (forall r, In r (Samples.recent_corpus ++ Samples.later_rows) ->
             (Date r < Samples.asof)%Z ->
             Samples.home_over_1_5_goals r
             = (if (Date r <? Samples.asof)%Z
                then Samples.home_over_1_5_goals r
                else negb (Samples.home_over_1_5_goals r)))
  /\ calculate_multi_timeframe_confidence
       (Samples.recent_corpus ++ Samples.later_rows) Samples.asof
       Samples.home_over_1_5_goals 3 10 None true
     = calculate_multi_timeframe_confidence
         (Samples.recent_corpus ++ Samples.later_rows) Samples.asof
         (fun r => if (Date r <? Samples.asof)%Z
                   then Samples.home_over_1_5_goals r
                   else negb (Samples.home_over_1_5_goals r))
         3 10 None true.
Proof.
  assert (H : forall r, In r (Samples.recent_corpus ++ Samples.later_rows) ->
                        (Date r < Samples.asof)%Z ->
                        Samples.home_over_1_5_goals r
                        = (if (Date r <? Samples.asof)%Z
                           then Samples.home_over_1_5_goals r
                           else negb (Samples.home_over_1_5_goals r))).
  { intros r _ L. apply Z.ltb_lt in L. now rewrite L. }
  split; [exact H |].
  exact (engine_reads_predicate_on_earlier_rows
           (Samples.recent_corpus ++ Samples.later_rows) Samples.asof
           Samples.home_over_1_5_goals _ 3%Z 10%Z None true H).
Defined.

(** ** Best-bet selection *)

(** X23.  [SimpleRomanianPredictor.predict_match] takes a pattern as a
    candidate exactly when its risk-adjusted confidence reaches its
    threshold.  It returns [None] exactly when the registry holds no
    candidate; when it holds one a [BestBet] is returned, and a returned
    [BestBet] is a registered candidate, with the confidence, the
    risk-adjusted confidence and the threshold of its evaluation, that
    no candidate exceeds in risk-adjusted confidence. *)
Theorem romanian_best_bet (registry : Registry.PatternRegistry)
    (home_team away_team : string) (historical_data : DataFrame)
    (match_date : datetime) (use_ensemble : bool) :
  let eval := evaluation registry historical_data match_date use_ensemble in
  let ro := SimpleRomanianPredictor.predict_match registry home_team away_team
              historical_data match_date use_ensemble in
  (ro = None <->
   forall n, In n (Registry.list_patterns registry) ->
             candidate registry historical_data match_date use_ensemble n = false)
  /\ ((exists n, In n (Registry.list_patterns registry)
                 /\ candidate registry historical_data match_date
                      use_ensemble n = true) ->
      exists b, ro = Some b)
  /\ (forall b, ro = Some b ->
        In (pattern_name b) (Registry.list_patterns registry)
        /\ eval (pattern_name b)
           = Some (confidence b, risk_adjusted_confidence b, threshold b)
        /\ candidate registry historical_data match_date use_ensemble
             (pattern_name b) = true
        /\ threshold b <= risk_adjusted_confidence b
        /\ forall n c ra t,
             In n (Registry.list_patterns registry) ->
             eval n = Some (c, ra, t) -> t <= ra ->
             ra <= risk_adjusted_confidence b).
Proof.
  cbn zeta.
  destruct (romanian_selection registry historical_data match_date use_ensemble
              home_team away_team) as [N S].
  cbn zeta in N, S.
  split; [exact N | split].
  - intros (n & I & C).
    destruct (SimpleRomanianPredictor.predict_match registry home_team
                away_team historical_data match_date use_ensemble) as [b|];
      [now exists b |].
    rewrite (proj1 N eq_refl n I) in C. discriminate C.
  - intros b E. destruct (S b E) as (I & V & T & M).
    repeat split; trivial.
    unfold candidate. rewrite V. now apply Qle_bool_iff.
Qed.

(** X24.  [SimplePremierLeaguePredictor.predict] returns [None] when the
    lookback window is empty and the empty list when the window is not
    empty but holds fewer than three matches of the two teams.  Past
    these exits it recommends a pattern exactly when its calibrated
    confidence, before the risk penalty, reaches the adjusted threshold:
    it returns [None] exactly when no pattern is recommended; when one
    is, a [BestBet] is returned, and a returned [BestBet] is a
    recommended pattern that no recommended pattern exceeds in
    risk-adjusted confidence. *)
Theorem premier_league_best_bet (lookback_len team_matches_len : nat)
    (evaluated : list SimplePremierLeaguePredictor.Evaluated) :
  let pl := SimplePremierLeaguePredictor.predict lookback_len team_matches_len
              evaluated in
  (lookback_len = 0%nat -> pl = SimplePremierLeaguePredictor.ReturnNone)
  /\ (lookback_len <> 0%nat -> (team_matches_len < 3)%nat ->
      pl = SimplePremierLeaguePredictor.ReturnEmptyList)
  /\ (lookback_len <> 0%nat -> (3 <= team_matches_len)%nat ->
      (pl = SimplePremierLeaguePredictor.ReturnNone
       <-> filter pl_candidate evaluated = [])
      /\ (filter pl_candidate evaluated <> [] ->
          exists b, pl = SimplePremierLeaguePredictor.ReturnBestBet b)
      /\ (forall b, pl = SimplePremierLeaguePredictor.ReturnBestBet b ->
            exists e, In e (filter pl_candidate evaluated)
                      /\ b = pl_best_bet e
                      /\ forall e', In e' (filter pl_candidate evaluated) ->
                                    pl_risk_adjusted e'
                                    <= risk_adjusted_confidence b)).
Proof.
  cbn zeta. split; [| split].
  - intros ->. reflexivity.
  - intros L T. unfold SimplePremierLeaguePredictor.predict.
    apply Nat.eqb_neq in L. rewrite L.
    apply Nat.ltb_lt in T. now rewrite T.
  - intros L T.
    destruct (premier_league_selection lookback_len team_matches_len
                evaluated L T) as [N S].
    cbn zeta in N, S.
    split; [exact N | split; [| exact S]].
    intro F.
    destruct (SimplePremierLeaguePredictor.predict lookback_len
                team_matches_len evaluated) as [| |b] eqn:E.
    + exfalso. apply F. now apply N.
    + exfalso. revert E. unfold SimplePremierLeaguePredictor.predict.
      apply Nat.eqb_neq in L. rewrite L.
      replace (team_matches_len <? 3)%nat with false
        by (symmetry; apply Nat.ltb_ge; lia).
      destruct (map SimplePremierLeaguePredictor.add_risk_adjusted _);
        discriminate.
    + now exists b.
Qed.

End Extras.
